(** * early_spring: the aggregation engine of [scripts/analyze_spring.py]

    A shallow embedding of the statistical core of the script (onset
    percentile, Cascade zoning, baseline/anomaly evaluation with the
    zone -> side -> state fallback, species aggregation, indicator ranking
    and the two rollups), followed by the properties checked against it.

    Numbers.  Python [int] is [Z].  A Python [float] is an IEEE binary64,
    and the engine is given twice.  The first reading has the rationals
    [Q] for the floats and, for [round], rounding half to even on the exact
    value; the properties of structure are proved on it: which groups are
    admitted, which evaluation is used, how results are ordered and
    counted.  The second, the module [F64], has the kernel's binary64
    ([PrimFloat]) for the floats, with [round], [statistics.median], the
    conversion of an [int] and the test of a float for truth as the
    interpreter has them; every property of a computed number or of a
    threshold is proved on it.  [percentile] is written once over an
    abstract number type and instantiated at both.

    Effects.  Exceptions are the left summand of [result]; the one effect
    looked at besides is which of the three evaluations of
    [summarize_species] are performed, kept as a log.  The fetch loops are
    modelled apart, over a given sequence of replies; rendering and file
    output are not modelled. *)

From Stdlib Require Import ZArith QArith Qround Qabs Lqa Lia.
From Stdlib Require Import List Ascii String Bool Permutation Sorted.
From Stdlib Require Import Floats.
Import ListNotations.

Set Implicit Arguments.
Local Open Scope string_scope.
Local Open Scope Z_scope.

(** ** Exceptions and the error monad *)

Inductive exn : Type :=
| ValueError (msg : string)
| OverflowError
| IndexError
| StatisticsError.

Definition result (A : Type) : Type := (exn + A)%type.

Definition ret {A : Type} (a : A) : result A := inr a.
Definition raise {A : Type} (e : exn) : result A := inl e.
Definition bind {A B : Type} (m : result A) (k : A -> result B) : result B :=
  match m with
  | inl e => inl e
  | inr a => k a
  end.

Notation "x <- m ;; k" := (bind m (fun x => k))
  (at level 61, m at next level, right associativity).

(** ** Python lists: [len], indexing, [sorted] *)

Definition len {A : Type} (l : list A) : Z := Z.of_nat (List.length l).

(** [l[i]]: a negative index counts from the end, anything out of range
    raises [IndexError]. *)
Definition py_index {A : Type} (l : list A) (i : Z) : result A :=
  let j := if i <? 0 then i + len l else i in
  if j <? 0 then raise IndexError
  else match nth_error l (Z.to_nat j) with
       | Some a => ret a
       | None => raise IndexError
       end.

Section PySorted.
Context {A : Type}.

(** [insert_by precedes x l]: [x] stood before every element of [l] in the
    input, so it passes only the elements that must precede it. *)
Fixpoint insert_by (precedes : A -> A -> bool) (x : A) (l : list A) : list A :=
  match l with
  | [] => [x]
  | y :: l' => if precedes y x then y :: insert_by precedes x l' else x :: l
  end.

(** [sorted(l, reverse=...)] under the comparison [lt]: the sort is stable
    in both directions, which fixes its result; insertion from the right
    computes it. *)
Definition py_sorted (lt : A -> A -> bool) (reverse : bool) (l : list A) : list A :=
  let precedes := if reverse then (fun y x => lt x y) else lt in
  fold_right (insert_by precedes) [] l.
End PySorted.

(** ** percentile (lines 273-285) *)

Section Percentile.
Variable num : Type.
Variable of_int : Z -> num.
Variables mul add sub : num -> num -> num.
(** [math.floor], [math.ceil] and [int]. *)
Variables floor ceil trunc : num -> result Z.

Definition percentile_gen (values : list Z) (p : num) : result num :=
  match values with
  | [] => raise (ValueError "percentile() requires non-empty values")
  | _ =>
      if len values =? 1 then
        v <- py_index values 0 ;; ret (of_int v)
      else
        let seq := py_sorted Z.ltb false values in
        let idx := mul (of_int (len seq - 1)) p in
        lo <- floor idx ;;
        hi <- ceil idx ;;
        if lo =? hi then
          i <- trunc idx ;;
          v <- py_index seq i ;; ret (of_int v)
        else
          let frac := sub idx (of_int lo) in
          a <- py_index seq lo ;;
          b <- py_index seq hi ;;
          ret (add (mul (of_int a) (sub (of_int 1) frac)) (mul (of_int b) frac))
  end.
End Percentile.

(** Exact arithmetic. *)
Definition Qtrunc (q : Q) : Z := if Qle_bool 0 q then Qfloor q else Qceiling q.

Definition percentile : list Z -> Q -> result Q :=
  percentile_gen inject_Z Qmult Qplus Qminus
    (fun q => ret (Qfloor q)) (fun q => ret (Qceiling q)) (fun q => ret (Qtrunc q)).

(** Binary64.  An [int] operand of a float operation is converted first,
    to the nearest double, a tie going to the even one; the conversion is
    exact up to 2^53.  (An integer too large for a double, of 1024 bits and
    more, makes the interpreter raise [OverflowError] and is an infinity
    here; the integers converted are days of the year and products of two
    list lengths.) *)
Module B64.
Definition of_int (z : Z) : float :=
  SF2Prim (binary_normalize prec emax z 0 false).

(** The integer [v] and the exponent [e] with value [v * 2^e], for a
    finite float. *)
Definition finite_parts (f : float) : result (Z * Z) :=
  match Prim2SF f with
  | S754_zero _ => ret (0, 0)
  | S754_finite s m e => ret (if s then Z.neg m else Z.pos m, e)
  | S754_infinity _ => raise OverflowError
  | S754_nan => raise (ValueError "cannot convert float NaN to integer")
  end.

Definition floor (f : float) : result Z :=
  ve <- finite_parts f ;;
  let '(v, e) := ve in
  ret (if 0 <=? e then v * 2 ^ e else v / 2 ^ (- e)).

Definition ceil (f : float) : result Z :=
  ve <- finite_parts f ;;
  let '(v, e) := ve in
  ret (if 0 <=? e then v * 2 ^ e else - ((- v) / 2 ^ (- e))).

Definition trunc (f : float) : result Z :=
  ve <- finite_parts f ;;
  let '(v, e) := ve in
  ret (if 0 <=? e then v * 2 ^ e else Z.quot v (2 ^ (- e))).

Definition percentile : list Z -> float -> result float :=
  percentile_gen of_int PrimFloat.mul PrimFloat.add PrimFloat.sub floor ceil trunc.

(** The double written [0.2] in the source. *)
Definition p20 : float := 0x1.999999999999ap-3%float.

(** [cascade_divide_lon] and [side_of_cascades] (lines 292-298), with the
    doubles written [-121.80], [45.5] and [0.14]. *)
Definition cascade_divide_lon (lat : float) : float :=
  PrimFloat.add (-0x1.e733333333333p+6)%float
    (PrimFloat.mul (PrimFloat.sub lat 0x1.6cp+5%float) 0x1.1eb851eb851ecp-3%float).

Definition side_of_cascades (lat lon : float) : string :=
  if PrimFloat.ltb (cascade_divide_lon lat) lon then "east" else "west".
End B64.

(** ** Dates, zoning and classification (lines 288-316) *)

Record date : Type := mk_date { year : Z; month : Z; day : Z }.

Definition is_leap (y : Z) : bool :=
  ((y mod 4 =? 0) && negb (y mod 100 =? 0)) || (y mod 400 =? 0).

Definition days_in_month (y m : Z) : Z :=
  if m =? 2 then (if is_leap y then 29 else 28)
  else if (m =? 4) || (m =? 6) || (m =? 9) || (m =? 11) then 30
  else 31.

Definition py_range (a b : Z) : list Z :=
  map (fun i => a + Z.of_nat i) (seq 0 (Z.to_nat (b - a))).

(** [d.timetuple().tm_yday] *)
Definition day_of_year (d : date) : Z :=
  fold_right Z.add 0 (map (days_in_month (year d)) (py_range 1 (month d))) + day d.

(** [a <= b] on [datetime.date]. *)
Definition date_le (a b : date) : bool :=
  if negb (year a =? year b) then year a <? year b
  else if negb (month a =? month b) then month a <? month b
  else day a <=? day b.

Definition Qlt_bool (a b : Q) : bool := negb (Qle_bool b a).

Definition cascade_divide_lon (lat : Q) : Q :=
  (-121.80 + (lat - 45.5) * 0.14)%Q.

Definition side_of_cascades (lat lon : Q) : string :=
  if Qlt_bool (cascade_divide_lon lat) lon then "east" else "west".

Definition elevation_band (elev_m : option Q) : string :=
  match elev_m with
  | None => "unknown"
  | Some e =>
      if Qlt_bool e 500 then "low"
      else if Qlt_bool e 1200 then "mid"
      else "high"
  end.

Definition classify_status (anomaly_days : Q) : string :=
  if Qle_bool anomaly_days (-7) then "early"
  else if Qle_bool 7 anomaly_days then "late"
  else "normal".

(** [round(x, ndigits)], in exact arithmetic: to the nearest multiple of
    [10^-ndigits], a tie going to the even one. *)
Definition round_half_even (q : Q) : Z :=
  let f := Qfloor q in
  match (q - inject_Z f ?= 1 # 2)%Q with
  | Lt => f
  | Gt => f + 1
  | Eq => if Z.even f then f else f + 1
  end.

Definition py_round (x : Q) (ndigits : Z) : Q :=
  let s := inject_Z (10 ^ ndigits) in
  (inject_Z (round_half_even (x * s)) / s)%Q.

(** [statistics.median] *)
Definition median (data : list Q) : result Q :=
  let data := py_sorted Qlt_bool false data in
  let n := len data in
  if n =? 0 then raise StatisticsError
  else if n mod 2 =? 1 then py_index data (n / 2)
  else
    let i := n / 2 in
    a <- py_index data (i - 1) ;;
    b <- py_index data i ;;
    ret ((a + b) / 2)%Q.

(** ** Observations and dictionaries *)

Record Observation : Type := mk_obs {
  species : string;
  taxon_id : Z;
  observed_on : date;
  lat : Q;
  lon : Q;
  elev_m : option Q;
  uri : string;
  photo_url : option string;
  place_guess : option string
}.

(** A [dict] keeps its keys in insertion order, and the script iterates
    over [items()], so it is an association list with one entry per key. *)
Definition dict (K V : Type) : Type := list (K * V).

Section Dict.
Context {K V : Type}.
Variable eqb : K -> K -> bool.

(** [d.get(k, default)] *)
Fixpoint dict_get (d : dict K V) (k : K) (default : V) : V :=
  match d with
  | [] => default
  | (k', v) :: d' => if eqb k' k then v else dict_get d' k default
  end.

(** [d[k] = f(d[k])] on a [defaultdict] whose factory gives [default]: a
    missing key is appended. *)
Fixpoint dict_update (d : dict K V) (k : K) (default : V) (f : V -> V) : dict K V :=
  match d with
  | [] => [(k, f default)]
  | (k', v) :: d' =>
      if eqb k' k then (k', f v) :: d'
      else (k', v) :: dict_update d' k default f
  end.
End Dict.

(** ** Results *)

Module ZoneResult.
Record t : Type := mk {
  zone : string;
  baseline_doy : Q;
  current_doy : option Q;
  anomaly_days : Q;
  status : string;
  baseline_years : Z;
  current_obs : Z;
  has_current : bool
}.
End ZoneResult.

(** The summary of one species.  [slug] (a rendering of the name) and the
    later [observation_count] are left out; [current_year_observations]
    keeps the observations whose four fields the script copies. *)
Module Species.
Record t : Type := mk {
  species : string;
  common_name : string;
  taxon_id : Z;
  taxon_url : string;
  photo_url : option string;
  status : string;
  anomaly_days : Q;
  zones_used : Z;
  granularity : string;
  zones : list ZoneResult.t;
  current_obs_total : Z;
  has_current_data : bool;
  current_year_observations : list Observation
}.
End Species.

Module ZoneRollup.
Record t : Type := mk {
  zone : string;
  anomaly_days : Q;
  status : string;
  species_count : Z
}.
End ZoneRollup.

Module Overall.
Record t : Type := mk {
  status : string;
  anomaly_days : Q;
  species_count : Z;
  species_with_signal : Z;
  interpretation : string
}.
End Overall.

(** [l[:n]] *)
Definition py_take {A : Type} (l : list A) (n : Z) : list A :=
  if n <? 0 then firstn (Z.to_nat (len l + n)) l else firstn (Z.to_nat n) l.

Definition is_empty {A : Type} (l : list A) : bool :=
  match l with
  | [] => true
  | _ :: _ => false
  end.

(** The evaluations [summarize_species] can perform, and the log of those
    it did perform. *)
Inductive level : Type := AtZone | AtSide | AtState.

Definition logged (A : Type) : Type := list level -> result (A * list level).

Definition lret {A : Type} (a : A) : logged A := fun log => ret (a, log).
Definition lbind {A B : Type} (m : logged A) (k : A -> logged B) : logged B :=
  fun log => r <- m log ;; k (fst r) (snd r).
Definition perform {A : Type} (lv : level) (m : result A) : logged A :=
  fun log => a <- m ;; ret (a, (log ++ [lv])%list).

Notation "x <~ m ;; k" := (lbind m (fun x => k))
  (at level 61, m at next level, right associativity).

(** ** summarize_species (lines 319-462) *)

Section Engine.
(** [CURRENT_DATE = date.today()] and the constants derived from it. *)
Variable CURRENT_DATE : date.

Definition CURRENT_YEAR : Z := year CURRENT_DATE.
Definition BASELINE_START_YEAR : Z := CURRENT_YEAR - 9.
Definition BASELINE_END_YEAR : Z := CURRENT_YEAR - 1.

Record tallies : Type := mk_tallies {
  by_zone_year : dict string (dict Z (list Z));
  by_side_year : dict string (dict Z (list Z));
  by_state_year : dict Z (list Z);
  current_obs_by_zone : dict string Z;
  current_obs_by_side : dict string Z;
  current_obs_state : Z;
  current_obs_records : list Observation
}.

Definition no_tallies : tallies := mk_tallies [] [] [] [] [] 0 [].

(** [year_map[year].append(doy)] *)
Definition append_doy (y doy : Z) (year_map : dict Z (list Z)) : dict Z (list Z) :=
  dict_update Z.eqb year_map y [] (fun l => (l ++ [doy])%list).

Definition zone_of (obs : Observation) : string :=
  side_of_cascades (lat obs) (lon obs) ++ "-" ++ elevation_band (elev_m obs).

(** One turn of the loop of lines 335-346. *)
Definition tally (t : tallies) (obs : Observation) : tallies :=
  let side := side_of_cascades (lat obs) (lon obs) in
  let zone := side ++ "-" ++ elevation_band (elev_m obs) in
  let doy := day_of_year (observed_on obs) in
  let y := year (observed_on obs) in
  let bzy := dict_update String.eqb (by_zone_year t) zone [] (append_doy y doy) in
  let bsy := dict_update String.eqb (by_side_year t) side [] (append_doy y doy) in
  let bst := append_doy y doy (by_state_year t) in
  if (y =? CURRENT_YEAR) && date_le (observed_on obs) CURRENT_DATE then
    mk_tallies bzy bsy bst
      (dict_update String.eqb (current_obs_by_zone t) zone 0 (fun n => n + 1))
      (dict_update String.eqb (current_obs_by_side t) side 0 (fun n => n + 1))
      (current_obs_state t + 1)
      (current_obs_records t ++ [obs])%list
  else
    mk_tallies bzy bsy bst
      (current_obs_by_zone t) (current_obs_by_side t)
      (current_obs_state t) (current_obs_records t).

Definition tally_all (observations : list Observation) : tallies :=
  fold_left tally observations no_tallies.

(** The loop of lines 358-361 over the years still to visit. *)
Fixpoint baseline_onsets_of (year_map : dict Z (list Z)) (min_year_obs : Z)
    (years : list Z) : result (list Q) :=
  match years with
  | [] => ret []
  | y :: years' =>
      let doys := dict_get Z.eqb year_map y [] in
      if min_year_obs <=? len doys then
        onset <- percentile doys 0.2 ;;
        rest <- baseline_onsets_of year_map min_year_obs years' ;;
        ret (onset :: rest)
      else baseline_onsets_of year_map min_year_obs years'
  end.

(** The body of the loop of lines 356-386: the row of one group, if the
    group is admitted. *)
Definition eval_group (current_obs_map : dict string Z)
    (min_year_obs min_baseline_years : Z)
    (group_name : string) (year_map : dict Z (list Z)) : result (option ZoneResult.t) :=
  let today_doy := inject_Z (day_of_year CURRENT_DATE) in
  baseline_onsets <-
    baseline_onsets_of year_map min_year_obs
      (py_range BASELINE_START_YEAR (BASELINE_END_YEAR + 1)) ;;
  let current_doys := dict_get Z.eqb year_map CURRENT_YEAR [] in
  if len baseline_onsets <? min_baseline_years then ret None
  else
    baseline_doy <- median baseline_onsets ;;
    let has_current := 1 <=? len current_doys in
    cas <-
      (if has_current then
         current_doy <- percentile current_doys 0.2 ;;
         let anomaly := (current_doy - baseline_doy)%Q in
         ret (Some current_doy, anomaly, classify_status anomaly)
       else
         let anomaly := (today_doy - baseline_doy)%Q in
         ret (None, anomaly, if Qle_bool 7 anomaly then "late" else "pending")) ;;
    let '(current_doy, anomaly, status) := cas in
    ret (Some (ZoneResult.mk
                 group_name
                 (py_round baseline_doy 1)
                 (option_map (fun c => py_round c 1) current_doy)
                 (py_round anomaly 1)
                 status
                 (len baseline_onsets)
                 (dict_get String.eqb current_obs_map group_name 0)
                 has_current)).

Fixpoint eval_groups (year_maps : dict string (dict Z (list Z)))
    (current_obs_map : dict string Z)
    (min_year_obs min_baseline_years : Z) : result (list ZoneResult.t) :=
  match year_maps with
  | [] => ret []
  | (group_name, year_map) :: year_maps' =>
      row <- eval_group current_obs_map min_year_obs min_baseline_years
               group_name year_map ;;
      rows <- eval_groups year_maps' current_obs_map min_year_obs min_baseline_years ;;
      ret (match row with
           | Some r => r :: rows
           | None => rows
           end)
  end.

(** The three calls of lines 389-410. *)
Definition eval_at (lv : level) (t : tallies) : result (list ZoneResult.t) :=
  match lv with
  | AtZone => eval_groups (by_zone_year t) (current_obs_by_zone t) 3 4
  | AtSide => eval_groups (by_side_year t) (current_obs_by_side t) 2 4
  | AtState =>
      eval_groups [("statewide", by_state_year t)]
        [("statewide", current_obs_state t)] 2 4
  end.

(** Lines 389-411: the rows kept and the granularity recorded. *)
Definition choose_granularity (t : tallies) : logged (list ZoneResult.t * string) :=
  zone_results <~ perform AtZone (eval_at AtZone t) ;;
  let granularity := "zone" in
  zg <~ (if is_empty zone_results then
           zone_results <~ perform AtSide (eval_at AtSide t) ;;
           lret (zone_results, "side")
         else lret (zone_results, granularity)) ;;
  let '(zone_results, granularity) := zg in
  zg <~ (if is_empty zone_results then
           zone_results <~ perform AtState (eval_at AtState t) ;;
           lret (zone_results, "state")
         else lret (zone_results, granularity)) ;;
  lret zg.

(** The accumulators of the loop of lines 416-430. *)
Record signal : Type := mk_signal {
  weighted_anomaly_numer : Q;
  weighted_anomaly_denom : Q;
  has_current_zone : bool;
  has_late_without_current : bool
}.

Definition add_zone (s : signal) (zone : ZoneResult.t) : signal :=
  if ZoneResult.has_current zone then
    let weight :=
      Z.max 1 (ZoneResult.baseline_years zone) * Z.max 1 (ZoneResult.current_obs zone) in
    mk_signal
      (weighted_anomaly_numer s + ZoneResult.anomaly_days zone * inject_Z weight)%Q
      (weighted_anomaly_denom s + inject_Z weight)%Q
      true
      (has_late_without_current s)
  else if (ZoneResult.status zone =? "late")%string then
    let weight := Z.max 1 (ZoneResult.baseline_years zone) in
    mk_signal
      (weighted_anomaly_numer s + ZoneResult.anomaly_days zone * inject_Z weight)%Q
      (weighted_anomaly_denom s + inject_Z weight)%Q
      (has_current_zone s)
      true
  else s.

Definition signal_of (zone_results : list ZoneResult.t) : signal :=
  fold_left add_zone zone_results (mk_signal 0 0 false false).

Definition species_anomaly_of (s : signal) : Q :=
  if Qeq_bool (weighted_anomaly_denom s) 0 then 0
  else (weighted_anomaly_numer s / weighted_anomaly_denom s)%Q.

Definition species_status_of (s : signal) : string :=
  if has_current_zone s then classify_status (species_anomaly_of s)
  else if has_late_without_current s then "late"
  else "pending".

Definition date_lt (a b : date) : bool := negb (date_le b a).

(** Lines 416-462: the summary built from the rows kept. *)
Definition summary_of
    (species_name common_name : string) (taxon_id : Z) (taxon_url : string)
    (photo_url : option string) (t : tallies)
    (zone_results : list ZoneResult.t) (granularity : string) : Species.t :=
  let s := signal_of zone_results in
  Species.mk
    species_name common_name taxon_id taxon_url photo_url
    (species_status_of s)
    (py_round (species_anomaly_of s) 2)
    (len zone_results)
    granularity
    (py_sorted
       (fun a b => Qlt_bool (Qabs (ZoneResult.anomaly_days a))
                            (Qabs (ZoneResult.anomaly_days b)))
       true zone_results)
    (current_obs_state t)
    (has_current_zone s)
    (py_take
       (py_sorted
          (fun a b => date_lt (observed_on a) (observed_on b))
          true (current_obs_records t))
       15).

Definition summarize_species_logged
    (species_name common_name : string) (taxon_id : Z) (taxon_url : string)
    (photo_url : option string) (observations : list Observation)
    : logged (option Species.t) :=
  let t := tally_all observations in
  zg <~ choose_granularity t ;;
  let '(zone_results, granularity) := zg in
  if is_empty zone_results then lret None
  else
    lret (Some (summary_of species_name common_name taxon_id taxon_url photo_url
                  t zone_results granularity)).

Definition summarize_species
    (species_name common_name : string) (taxon_id : Z) (taxon_url : string)
    (photo_url : option string) (observations : list Observation)
    : result (option Species.t) :=
  r <- summarize_species_logged species_name common_name taxon_id taxon_url
         photo_url observations [] ;;
  ret (fst r).
End Engine.

(** ** pick_indicator_species (lines 465-477) *)

Definition granularity_rank : dict string Z :=
  [("zone", 2); ("side", 1); ("state", 0)].

(** The sort key.  A summary built by [summarize_species] always has its
    ["granularity"], so the default of [s.get] is never taken. *)
Definition rank_key (s : Species.t) : Z * Z * Z * Q :=
  (dict_get String.eqb granularity_rank (Species.granularity s) 0,
   Species.zones_used s,
   Species.current_obs_total s,
   (- Qabs (Species.anomaly_days s))%Q).

(** [a < b] on the key tuples: the first unequal component decides. *)
Definition key_lt (a b : Z * Z * Z * Q) : bool :=
  let '(a1, a2, a3, a4) := a in
  let '(b1, b2, b3, b4) := b in
  if negb (a1 =? b1) then a1 <? b1
  else if negb (a2 =? b2) then a2 <? b2
  else if negb (a3 =? b3) then a3 <? b3
  else Qlt_bool a4 b4.

Definition rank_lt (a b : Species.t) : bool := key_lt (rank_key a) (rank_key b).

Definition pick_indicator_species (species_summaries : list Species.t) (limit : Z)
    : list Species.t :=
  let ranked := py_sorted rank_lt true species_summaries in
  py_take ranked limit.

(** ** build_zone_summary (lines 480-499) *)

Definition zone_weight (zone : ZoneResult.t) : Z :=
  Z.max 1 (ZoneResult.baseline_years zone) * Z.max 1 (ZoneResult.current_obs zone).

(** The two nested loops of lines 482-485. *)
Definition collect_zone (zone_data : dict string (list (Q * Z))) (zone : ZoneResult.t)
    : dict string (list (Q * Z)) :=
  dict_update String.eqb zone_data (ZoneResult.zone zone) []
    (fun l => (l ++ [(ZoneResult.anomaly_days zone, zone_weight zone)])%list).

Definition collect_zone_data (indicators : list Species.t) : dict string (list (Q * Z)) :=
  fold_left (fun zone_data sp => fold_left collect_zone (Species.zones sp) zone_data)
    indicators [].

Definition rollup_row (entry : string * list (Q * Z)) : ZoneRollup.t :=
  let '(zone, values) := entry in
  let numer := fold_left (fun acc vw => (acc + fst vw * inject_Z (snd vw))%Q) values 0%Q in
  let denom := fold_left (fun acc vw => acc + snd vw) values 0 in
  let anomaly := if denom =? 0 then 0%Q else (numer / inject_Z denom)%Q in
  ZoneRollup.mk zone (py_round anomaly 2) (classify_status anomaly) (len values).

Definition build_zone_summary (indicators : list Species.t) : list ZoneRollup.t :=
  let rows := map rollup_row (collect_zone_data indicators) in
  py_sorted (fun a b => String.ltb (ZoneRollup.zone a) (ZoneRollup.zone b)) false rows.

(** ** overall_status (lines 502-524) *)

Definition species_weight (sp : Species.t) : Z :=
  Z.max 1 (Species.zones_used sp) * Z.max 1 (Species.current_obs_total sp).

(** One turn of the loop of lines 505-510 on [(numer, denom)]. *)
Definition add_species (nd : Q * Q) (sp : Species.t) : Q * Q :=
  if (Species.status sp =? "pending")%string then nd
  else
    let weight := species_weight sp in
    ((fst nd + Species.anomaly_days sp * inject_Z weight)%Q,
     (snd nd + inject_Z weight)%Q).

Definition overall_anomaly (indicators : list Species.t) : Q :=
  let nd := fold_left add_species indicators (0%Q, 0%Q) in
  if Qeq_bool (snd nd) 0 then 0%Q else (fst nd / snd nd)%Q.

Definition overall_status (indicators : list Species.t) : Overall.t :=
  let anomaly := overall_anomaly indicators in
  Overall.mk
    (classify_status anomaly)
    (py_round anomaly 2)
    (len indicators)
    (len (filter (fun s => negb (Species.status s =? "pending")%string) indicators))
    (if Qle_bool anomaly (-7) then
       "Flowering is trending earlier than the 2017-2025 baseline."
     else if Qle_bool 7 anomaly then
       "Flowering is trending later than the 2017-2025 baseline."
     else "Flowering is close to the 2017-2025 baseline.").

(** [min(values)] and [max(values)] of a non-empty list. *)
Definition list_min (l : list Z) : Z :=
  match l with
  | [] => 0
  | x :: l' => fold_left Z.min l' x
  end.

Definition list_max (l : list Z) : Z :=
  match l with
  | [] => 0
  | x :: l' => fold_left Z.max l' x
  end.

(** [a] stands somewhere before [b] in [l]. *)
Definition ranked_before {A : Type} (a b : A) (l : list A) : Prop :=
  exists l1 l2 l3, l = (l1 ++ a :: l2 ++ b :: l3)%list.

(** Two summaries that differ in their name and anomaly only, for the
    examples below. *)
Definition example_summary (name : string) (anomaly : Q) : Species.t :=
  Species.mk name name 1 "https://www.inaturalist.org/taxa/1" None
    (classify_status anomaly) anomaly 2 "zone" [] 5 true [].

Definition larger_anomaly : Species.t := example_summary "Trillium ovatum" 10.
Definition smaller_anomaly : Species.t := example_summary "Ribes sanguineum" (-2).

(** A run on 10 April 2026 (day 100 of the year): a species seen west of
    the crest on 12 March (day 71) of five baseline years, three times a
    year at 50 m for [example_baseline], once at 50 m and once at 600 m for
    [example_sparse]. *)
Definition example_today : date := mk_date 2026 4 10.

Definition example_obs (y m d : Z) (elevation : Q) : Observation :=
  mk_obs "Trillium ovatum" 1 (mk_date y m d) 47.6 (-122.3) (Some elevation)
    "https://www.inaturalist.org/observations/1" None None.

Definition example_baseline : list Observation :=
  flat_map (fun y => [example_obs y 3 12 50; example_obs y 3 12 50; example_obs y 3 12 50])
    [2017; 2018; 2019; 2021; 2022].

Definition example_sparse : list Observation :=
  flat_map (fun y => [example_obs y 3 12 50; example_obs y 3 12 600])
    [2017; 2018; 2019; 2021; 2022].

(** Two zones with three sightings a year: at 600 m on 22 March (day 81)
    and at 50 m on 12 March (day 71), then this year one sighting at 600 m
    on 17 March and one at 50 m on 1 March. *)
Definition example_two_zones : list Observation :=
  (flat_map (fun y => [example_obs y 3 22 600; example_obs y 3 22 600;
                       example_obs y 3 22 600; example_obs y 3 12 50;
                       example_obs y 3 12 50; example_obs y 3 12 50])
     [2017; 2018; 2019; 2021; 2022]
   ++ [example_obs 2026 3 17 600; example_obs 2026 3 1 50])%list.

(** The baseline of [example_baseline], then twenty sightings on the first
    twenty days of March 2026 in no particular order, and one dated after
    the analysis date. *)
Definition example_many_current : list Observation :=
  (example_baseline
   ++ map (fun d => example_obs 2026 3 d 50)
        [7; 19; 3; 12; 1; 20; 9; 15; 5; 17; 2; 11; 14; 8; 4; 18; 6; 10; 13; 16]
   ++ [example_obs 2026 5 1 50])%list.

Definition example_run (observations : list Observation) : result (option Species.t) :=
  summarize_species example_today "Trillium ovatum" "Pacific trillium" 1
    "https://www.inaturalist.org/taxa/1" None observations.

(** The summary of a run that gives one. *)
Definition summary_or (default : Species.t) (r : result (option Species.t)) : Species.t :=
  match r with
  | inr (Some s) => s
  | _ => default
  end.

(** * The engine in binary64

    The engine once more with the numbers the interpreter computes with: a
    float of the script is a binary64, here the kernel's [float], and
    [+], [-], [*], [/] and the comparisons are the IEEE operations, the
    results rounded to nearest, ties to even.  An [int] stays a [Z]; where
    the script hands one to a float operation it is converted first
    ([B64.of_int]), and a comparison of a float with an [int] literal is
    the comparison with the double of that value. *)

Module F64.

Definition elevation_band (elev_m : option float) : string :=
  match elev_m with
  | None => "unknown"
  | Some e =>
      if (e <? 500)%float then "low"
      else if (e <? 1200)%float then "mid"
      else "high"
  end.

Definition classify_status (anomaly_days : float) : string :=
  if (anomaly_days <=? -7)%float then "early"
  else if (7 <=? anomaly_days)%float then "late"
  else "normal".

(** The value of the finite double of sign [s], mantissa [m] and exponent
    [e]. *)
Definition exact (s : bool) (m : positive) (e : Z) : Q :=
  let v := if s then Z.neg m else Z.pos m in
  if 0 <=? e then inject_Z (v * 2 ^ e) else (v # Z.to_pos (2 ^ (- e))).

(** The double nearest to [n / d], for [d > 0]: the quotient is cut 70 bits
    and more below its leading bit, with one more bit that tells whether
    anything was cut off, and rounded from there. *)
Definition nearest (n d : Z) : float :=
  let k := Z.log2 d + 70 in
  let q := (Z.abs n * 2 ^ k) / d in
  let sticky := if (Z.abs n * 2 ^ k) mod d =? 0 then 0 else 1 in
  let m := 2 * q + sticky in
  SF2Prim (binary_normalize prec emax (if n <? 0 then - m else m) (- k - 1) false).

(** [round(x, ndigits)] for the [ndigits] of the script, 1 and 2: the
    value of the double [x] is rounded to a multiple of [10^-ndigits], a
    tie going to the even one, and the result is the double nearest to
    that decimal; a zero keeps the sign of [x]. *)
Definition py_round (x : float) (ndigits : Z) : float :=
  match Prim2SF x with
  | S754_finite s m e =>
      let z := round_half_even (exact s m e * inject_Z (10 ^ ndigits)) in
      if z =? 0 then (if s then neg_zero else zero)
      else nearest z (10 ^ ndigits)
  | _ => x
  end.

(** [statistics.median] *)
Definition median (data : list float) : result float :=
  let data := py_sorted PrimFloat.ltb false data in
  let n := len data in
  if n =? 0 then raise StatisticsError
  else if n mod 2 =? 1 then py_index data (n / 2)
  else
    let i := n / 2 in
    a <- py_index data (i - 1) ;;
    b <- py_index data i ;;
    ret ((a + b) / 2)%float.

Record Observation : Type := mk_obs {
  species : string;
  taxon_id : Z;
  observed_on : date;
  lat : float;
  lon : float;
  elev_m : option float;
  uri : string;
  photo_url : option string;
  place_guess : option string
}.

Module ZoneResult.
Record t : Type := mk {
  zone : string;
  baseline_doy : float;
  current_doy : option float;
  anomaly_days : float;
  status : string;
  baseline_years : Z;
  current_obs : Z;
  has_current : bool
}.
End ZoneResult.

Module Species.
Record t : Type := mk {
  species : string;
  common_name : string;
  taxon_id : Z;
  taxon_url : string;
  photo_url : option string;
  status : string;
  anomaly_days : float;
  zones_used : Z;
  granularity : string;
  zones : list ZoneResult.t;
  current_obs_total : Z;
  has_current_data : bool;
  current_year_observations : list Observation
}.
End Species.

Module ZoneRollup.
Record t : Type := mk {
  zone : string;
  anomaly_days : float;
  status : string;
  species_count : Z
}.
End ZoneRollup.

Module Overall.
Record t : Type := mk {
  status : string;
  anomaly_days : float;
  species_count : Z;
  species_with_signal : Z;
  interpretation : string
}.
End Overall.

Record tallies : Type := mk_tallies {
  by_zone_year : dict string (dict Z (list Z));
  by_side_year : dict string (dict Z (list Z));
  by_state_year : dict Z (list Z);
  current_obs_by_zone : dict string Z;
  current_obs_by_side : dict string Z;
  current_obs_state : Z;
  current_obs_records : list Observation
}.

Definition no_tallies : tallies := mk_tallies [] [] [] [] [] 0 [].

(** The accumulators of the loop of lines 416-430. *)
Record signal : Type := mk_signal {
  weighted_anomaly_numer : float;
  weighted_anomaly_denom : float;
  has_current_zone : bool;
  has_late_without_current : bool
}.

Section Engine.
Variable CURRENT_DATE : date.

(** One turn of the loop of lines 335-346. *)
Definition tally (t : tallies) (obs : Observation) : tallies :=
  let side := B64.side_of_cascades (lat obs) (lon obs) in
  let zone := side ++ "-" ++ elevation_band (elev_m obs) in
  let doy := day_of_year (observed_on obs) in
  let y := year (observed_on obs) in
  let bzy := dict_update String.eqb (by_zone_year t) zone [] (append_doy y doy) in
  let bsy := dict_update String.eqb (by_side_year t) side [] (append_doy y doy) in
  let bst := append_doy y doy (by_state_year t) in
  if (y =? CURRENT_YEAR CURRENT_DATE) && date_le (observed_on obs) CURRENT_DATE then
    mk_tallies bzy bsy bst
      (dict_update String.eqb (current_obs_by_zone t) zone 0 (fun n => n + 1))
      (dict_update String.eqb (current_obs_by_side t) side 0 (fun n => n + 1))
      (current_obs_state t + 1)
      (current_obs_records t ++ [obs])%list
  else
    mk_tallies bzy bsy bst
      (current_obs_by_zone t) (current_obs_by_side t)
      (current_obs_state t) (current_obs_records t).

Definition tally_all (observations : list Observation) : tallies :=
  fold_left tally observations no_tallies.

(** The loop of lines 358-361 over the years still to visit. *)
Fixpoint baseline_onsets_of (year_map : dict Z (list Z)) (min_year_obs : Z)
    (years : list Z) : result (list float) :=
  match years with
  | [] => ret []
  | y :: years' =>
      let doys := dict_get Z.eqb year_map y [] in
      if min_year_obs <=? len doys then
        onset <- B64.percentile doys B64.p20 ;;
        rest <- baseline_onsets_of year_map min_year_obs years' ;;
        ret (onset :: rest)
      else baseline_onsets_of year_map min_year_obs years'
  end.

(** The body of the loop of lines 356-386: the row of one group, if the
    group is admitted. *)
Definition eval_group (current_obs_map : dict string Z)
    (min_year_obs min_baseline_years : Z)
    (group_name : string) (year_map : dict Z (list Z)) : result (option ZoneResult.t) :=
  let today_doy := day_of_year CURRENT_DATE in
  baseline_onsets <-
    baseline_onsets_of year_map min_year_obs
      (py_range (BASELINE_START_YEAR CURRENT_DATE) (BASELINE_END_YEAR CURRENT_DATE + 1)) ;;
  let current_doys := dict_get Z.eqb year_map (CURRENT_YEAR CURRENT_DATE) [] in
  if len baseline_onsets <? min_baseline_years then ret None
  else
    baseline_doy <- median baseline_onsets ;;
    let has_current := 1 <=? len current_doys in
    cas <-
      (if has_current then
         current_doy <- B64.percentile current_doys B64.p20 ;;
         let anomaly := (current_doy - baseline_doy)%float in
         ret (Some current_doy, anomaly, classify_status anomaly)
       else
         let anomaly := (B64.of_int today_doy - baseline_doy)%float in
         ret (None, anomaly, if (7 <=? anomaly)%float then "late" else "pending")) ;;
    let '(current_doy, anomaly, status) := cas in
    ret (Some (ZoneResult.mk
                 group_name
                 (py_round baseline_doy 1)
                 (option_map (fun c => py_round c 1) current_doy)
                 (py_round anomaly 1)
                 status
                 (len baseline_onsets)
                 (dict_get String.eqb current_obs_map group_name 0)
                 has_current)).

Fixpoint eval_groups (year_maps : dict string (dict Z (list Z)))
    (current_obs_map : dict string Z)
    (min_year_obs min_baseline_years : Z) : result (list ZoneResult.t) :=
  match year_maps with
  | [] => ret []
  | (group_name, year_map) :: year_maps' =>
      row <- eval_group current_obs_map min_year_obs min_baseline_years
               group_name year_map ;;
      rows <- eval_groups year_maps' current_obs_map min_year_obs min_baseline_years ;;
      ret (match row with
           | Some r => r :: rows
           | None => rows
           end)
  end.

(** The three calls of lines 389-410. *)
Definition eval_at (lv : level) (t : tallies) : result (list ZoneResult.t) :=
  match lv with
  | AtZone => eval_groups (by_zone_year t) (current_obs_by_zone t) 3 4
  | AtSide => eval_groups (by_side_year t) (current_obs_by_side t) 2 4
  | AtState =>
      eval_groups [("statewide", by_state_year t)]
        [("statewide", current_obs_state t)] 2 4
  end.

(** The row of an admitted group, from what was read off its year map. *)
Definition row_of (current_obs_map : dict string Z) (group_name : string)
    (onsets : list float) (baseline : float) (current : option float) : ZoneResult.t :=
  let today_doy := day_of_year CURRENT_DATE in
  match current with
  | Some c =>
      ZoneResult.mk group_name (py_round baseline 1) (Some (py_round c 1))
        (py_round (c - baseline) 1) (classify_status (c - baseline))
        (len onsets) (dict_get String.eqb current_obs_map group_name 0) true
  | None =>
      ZoneResult.mk group_name (py_round baseline 1) None
        (py_round (B64.of_int today_doy - baseline) 1)
        (if (7 <=? B64.of_int today_doy - baseline)%float then "late" else "pending")
        (len onsets) (dict_get String.eqb current_obs_map group_name 0) false
  end.

(** Lines 389-411: the rows kept and the granularity recorded. *)
Definition choose_granularity (t : tallies) : result (list ZoneResult.t * string) :=
  zone_results <- eval_at AtZone t ;;
  let granularity := "zone" in
  zg <- (if is_empty zone_results then
           zone_results <- eval_at AtSide t ;;
           ret (zone_results, "side")
         else ret (zone_results, granularity)) ;;
  let '(zone_results, granularity) := zg in
  if is_empty zone_results then
    zone_results <- eval_at AtState t ;;
    ret (zone_results, "state")
  else ret (zone_results, granularity).

(** One turn of the loop of lines 420-430. *)
Definition add_zone (s : signal) (zone : ZoneResult.t) : signal :=
  if ZoneResult.has_current zone then
    let weight :=
      Z.max 1 (ZoneResult.baseline_years zone) * Z.max 1 (ZoneResult.current_obs zone) in
    mk_signal
      (weighted_anomaly_numer s + ZoneResult.anomaly_days zone * B64.of_int weight)%float
      (weighted_anomaly_denom s + B64.of_int weight)%float
      true
      (has_late_without_current s)
  else if (ZoneResult.status zone =? "late")%string then
    let weight := Z.max 1 (ZoneResult.baseline_years zone) in
    mk_signal
      (weighted_anomaly_numer s + ZoneResult.anomaly_days zone * B64.of_int weight)%float
      (weighted_anomaly_denom s + B64.of_int weight)%float
      (has_current_zone s)
      true
  else s.

Definition signal_of (zone_results : list ZoneResult.t) : signal :=
  fold_left add_zone zone_results (mk_signal 0 0 false false).

(** Line 432; a float is false when it equals zero. *)
Definition species_anomaly_of (s : signal) : float :=
  if (weighted_anomaly_denom s =? 0)%float then 0%float
  else (weighted_anomaly_numer s / weighted_anomaly_denom s)%float.

Definition species_status_of (s : signal) : string :=
  if has_current_zone s then classify_status (species_anomaly_of s)
  else if has_late_without_current s then "late"
  else "pending".

(** Lines 416-462: the summary built from the rows kept. *)
Definition summary_of
    (species_name common_name : string) (taxon_id : Z) (taxon_url : string)
    (photo_url : option string) (t : tallies)
    (zone_results : list ZoneResult.t) (granularity : string) : Species.t :=
  let s := signal_of zone_results in
  Species.mk
    species_name common_name taxon_id taxon_url photo_url
    (species_status_of s)
    (py_round (species_anomaly_of s) 2)
    (len zone_results)
    granularity
    (py_sorted
       (fun a b => (abs (ZoneResult.anomaly_days a) <? abs (ZoneResult.anomaly_days b))%float)
       true zone_results)
    (current_obs_state t)
    (has_current_zone s)
    (py_take
       (py_sorted
          (fun a b => date_lt (observed_on a) (observed_on b))
          true (current_obs_records t))
       15).

Definition summarize_species
    (species_name common_name : string) (taxon_id : Z) (taxon_url : string)
    (photo_url : option string) (observations : list Observation)
    : result (option Species.t) :=
  let t := tally_all observations in
  zg <- choose_granularity t ;;
  let '(zone_results, granularity) := zg in
  if is_empty zone_results then ret None
  else
    ret (Some (summary_of species_name common_name taxon_id taxon_url photo_url
                 t zone_results granularity)).
End Engine.

(** ** build_zone_summary (lines 480-499) *)

Definition zone_weight (zone : ZoneResult.t) : Z :=
  Z.max 1 (ZoneResult.baseline_years zone) * Z.max 1 (ZoneResult.current_obs zone).

(** The two nested loops of lines 482-485. *)
Definition collect_zone (zone_data : dict string (list (float * Z)))
    (zone : ZoneResult.t) : dict string (list (float * Z)) :=
  dict_update String.eqb zone_data (ZoneResult.zone zone) []
    (fun l => (l ++ [(ZoneResult.anomaly_days zone, zone_weight zone)])%list).

Definition collect_zone_data (indicators : list Species.t)
    : dict string (list (float * Z)) :=
  fold_left (fun zone_data sp => fold_left collect_zone (Species.zones sp) zone_data)
    indicators [].

(** The builtin [sum] on floats, which the script uses here only, is not
    the same function in every interpreter: up to CPython 3.11 it adds from
    left to right, from 3.12 on it carries a compensation term along
    (Neumaier's summation) and adds it at the end.  The rollup is written
    over whichever the interpreter has; both are given. *)
Definition sum_left_to_right (l : list float) : float :=
  fold_left PrimFloat.add l 0%float.

Definition sum_compensated (l : list float) : float :=
  let step (tc : float * float) (x : float) :=
    let '(total, c) := tc in
    let t := (total + x)%float in
    if (abs x <=? abs total)%float then (t, (c + ((total - t) + x))%float)
    else (t, (c + ((x - t) + total))%float) in
  let '(total, c) := fold_left step l (0%float, 0%float) in
  if negb (c =? 0)%float && is_finite c then (total + c)%float else total.

Section Rollup.
Variable py_sum : list float -> float.

Definition rollup_row (entry : string * list (float * Z)) : ZoneRollup.t :=
  let '(zone, values) := entry in
  let numer := py_sum (map (fun vw => (fst vw * B64.of_int (snd vw))%float) values) in
  let denom := fold_left (fun acc vw => acc + snd vw) values 0 in
  let anomaly := if denom =? 0 then 0%float else (numer / B64.of_int denom)%float in
  ZoneRollup.mk zone (py_round anomaly 2) (classify_status anomaly) (len values).

Definition build_zone_summary (indicators : list Species.t) : list ZoneRollup.t :=
  let rows := map rollup_row (collect_zone_data indicators) in
  py_sorted (fun a b => String.ltb (ZoneRollup.zone a) (ZoneRollup.zone b)) false rows.
End Rollup.

(** ** overall_status (lines 502-524) *)

Definition species_weight (sp : Species.t) : Z :=
  Z.max 1 (Species.zones_used sp) * Z.max 1 (Species.current_obs_total sp).

(** One turn of the loop of lines 505-510 on [(numer, denom)]. *)
Definition add_species (nd : float * float) (sp : Species.t) : float * float :=
  if (Species.status sp =? "pending")%string then nd
  else
    let weight := species_weight sp in
    ((fst nd + Species.anomaly_days sp * B64.of_int weight)%float,
     (snd nd + B64.of_int weight)%float).

Definition overall_anomaly (indicators : list Species.t) : float :=
  let nd := fold_left add_species indicators (0%float, 0%float) in
  if (snd nd =? 0)%float then 0%float else (fst nd / snd nd)%float.

Definition overall_status (indicators : list Species.t) : Overall.t :=
  let anomaly := overall_anomaly indicators in
  Overall.mk
    (classify_status anomaly)
    (py_round anomaly 2)
    (len indicators)
    (len (filter (fun s => negb (Species.status s =? "pending")%string) indicators))
    (if (anomaly <=? -7)%float then
       "Flowering is trending earlier than the 2017-2025 baseline."
     else if (7 <=? anomaly)%float then
       "Flowering is trending later than the 2017-2025 baseline."
     else "Flowering is close to the 2017-2025 baseline.").

(** ** What the specification calls a weighted mean *)

(** The mean of the values weighted by their weights, as the script's
    loops compute it: both sums are accumulated from [0.0] in the order of
    the list, and a sum of weights equal to zero gives [0.0]. *)
Definition weighted_mean (vw : list (float * Z)) : float :=
  let numer := fold_left (fun acc x => (acc + fst x * B64.of_int (snd x))%float) vw 0%float in
  let denom := fold_left (fun acc x => (acc + B64.of_int (snd x))%float) vw 0%float in
  if (denom =? 0)%float then 0%float else (numer / denom)%float.

(** What a Zone Result adds to the species anomaly: value and weight. *)
Definition zone_contribution (z : ZoneResult.t) : list (float * Z) :=
  if ZoneResult.has_current z then
    [(ZoneResult.anomaly_days z,
      Z.max 1 (ZoneResult.baseline_years z) * Z.max 1 (ZoneResult.current_obs z))]
  else if (ZoneResult.status z =? "late")%string then
    [(ZoneResult.anomaly_days z, Z.max 1 (ZoneResult.baseline_years z))]
  else [].

(** The species that contribute to the overall rollup, and what each adds:
    value and weight. *)
Definition with_signal (indicators : list Species.t) : list Species.t :=
  filter (fun s => negb (Species.status s =? "pending")%string) indicators.

Definition species_contribution (sp : Species.t) : float * Z :=
  (Species.anomaly_days sp,
   Z.max 1 (Species.zones_used sp) * Z.max 1 (Species.current_obs_total sp)).

(** What a Zone Result adds to the rollup of its zone, and the Zone Results
    named [k] among those of the indicators, in the order the loops of
    lines 482-485 meet them. *)
Definition rollup_entry (z : ZoneResult.t) : float * Z :=
  (ZoneResult.anomaly_days z,
   Z.max 1 (ZoneResult.baseline_years z) * Z.max 1 (ZoneResult.current_obs z)).

Definition zone_members (indicators : list Species.t) (k : string)
    : list ZoneResult.t :=
  filter (fun z => (ZoneResult.zone z =? k)%string) (flat_map Species.zones indicators).

(** ** Examples *)

(** A sighting west of the crest (47.6 N, 122.3 W). *)
Definition example_obs (y m d : Z) (elevation : float) : Observation :=
  mk_obs "Trillium ovatum" 1 (mk_date y m d)
    0x1.7cccccccccccdp+5%float (-0x1.e933333333333p+6)%float (Some elevation)
    "https://www.inaturalist.org/observations/1" None None.

Definition example_run (today : date) (observations : list Observation)
    : result (option Species.t) :=
  summarize_species today "Trillium ovatum" "Pacific trillium" 1
    "https://www.inaturalist.org/taxa/1" None observations.

(** Three sightings a year on 12 March (day 71) at 50 m, in five baseline
    years. *)
Definition example_baseline : list Observation :=
  flat_map (fun y => [example_obs y 3 12 50; example_obs y 3 12 50; example_obs y 3 12 50])
    [2017; 2018; 2019; 2021; 2022].

(** Two zones with three sightings a year, at 50 m on 12 March (day 71)
    and at 600 m on 22 March (day 81); then this year three sightings at
    50 m, on days 53, 57 and 60, and three at 600 m, on days 83, 84 and
    85. *)
Definition example_two_zones : list Observation :=
  (flat_map (fun y => [example_obs y 3 12 50; example_obs y 3 12 50;
                       example_obs y 3 12 50; example_obs y 3 22 600;
                       example_obs y 3 22 600; example_obs y 3 22 600])
     [2017; 2018; 2019; 2021; 2022]
   ++ [example_obs 2026 2 22 50; example_obs 2026 2 26 50; example_obs 2026 3 1 50;
       example_obs 2026 3 24 600; example_obs 2026 3 25 600;
       example_obs 2026 3 26 600])%list.

(** Two sightings a year on 6 April (day 96) at 50 m, in four baseline
    years. *)
Definition example_day_96 : list Observation :=
  flat_map (fun y => [example_obs y 4 6 50; example_obs y 4 6 50])
    [2021; 2022; 2023; 2025].

(** Summaries with nothing but what the rollups read. *)
Definition example_zone (zone : string) (anomaly : float) (baseline_years current_obs : Z)
    : ZoneResult.t :=
  ZoneResult.mk zone 80 (Some 80%float) anomaly (classify_status anomaly)
    baseline_years current_obs true.

Definition example_summary (name status : string) (anomaly : float)
    (current_obs_total : Z) (zones : list ZoneResult.t) : Species.t :=
  Species.mk name name 1 "https://www.inaturalist.org/taxa/1" None
    status anomaly (len zones) "zone" zones current_obs_total true [].

(** The summary of a run that gives one. *)
Definition summary_or (default : Species.t) (r : result (option Species.t)) : Species.t :=
  match r with
  | inr (Some s) => s
  | _ => default
  end.

Definition no_summary : Species.t := example_summary "" "pending" 0 0 [].
End F64.

(** * Properties *)

(** ** Lists and sorting *)

Lemma len_nonneg {A : Type} (l : list A) : 0 <= len l.
Proof. unfold len. lia. Qed.

Lemma py_index_in_range {A : Type} (l : list A) (i : Z) :
  0 <= i < len l -> exists a, py_index l i = inr a /\ In a l.
Proof.
  intros Hi. unfold py_index.
  destruct (i <? 0) eqn:Hneg; [apply Z.ltb_lt in Hneg; lia|].
  rewrite Hneg.
  destruct (nth_error l (Z.to_nat i)) as [a|] eqn:Hn.
  - exists a. split; [reflexivity|]. eapply nth_error_In; eauto.
  - apply nth_error_None in Hn. unfold len in Hi. lia.
Qed.

Lemma insert_by_perm {A : Type} (precedes : A -> A -> bool) (x : A) (l : list A) :
  Permutation (insert_by precedes x l) (x :: l).
Proof.
  induction l as [|y l IH]; simpl.
  - apply Permutation_refl.
  - destruct (precedes y x).
    + rewrite IH. apply perm_swap.
    + apply Permutation_refl.
Qed.

Lemma py_sorted_perm {A : Type} (lt : A -> A -> bool) (reverse : bool) (l : list A) :
  Permutation (py_sorted lt reverse l) l.
Proof.
  unfold py_sorted. induction l as [|x l IH]; simpl.
  - apply Permutation_refl.
  - rewrite insert_by_perm. apply perm_skip. exact IH.
Qed.

Lemma py_sorted_len {A : Type} (lt : A -> A -> bool) (reverse : bool) (l : list A) :
  len (py_sorted lt reverse l) = len l.
Proof. unfold len. f_equal. apply Permutation_length, py_sorted_perm. Qed.

Lemma py_sorted_In {A : Type} (lt : A -> A -> bool) (reverse : bool) (l : list A) (x : A) :
  In x (py_sorted lt reverse l) <-> In x l.
Proof.
  split; apply Permutation_in; [|apply Permutation_sym]; apply py_sorted_perm.
Qed.

Lemma fold_min_spec (l : list Z) (x : Z) :
  fold_left Z.min l x <= x /\ forall y, In y l -> fold_left Z.min l x <= y.
Proof.
  revert x. induction l as [|z l IH]; simpl; intros x.
  - split; [lia|intros y []].
  - destruct (IH (Z.min x z)) as [H1 H2]. split; [lia|].
    intros y [<-|Hy]; [lia|auto].
Qed.

Lemma fold_max_spec (l : list Z) (x : Z) :
  x <= fold_left Z.max l x /\ forall y, In y l -> y <= fold_left Z.max l x.
Proof.
  revert x. induction l as [|z l IH]; simpl; intros x.
  - split; [lia|intros y []].
  - destruct (IH (Z.max x z)) as [H1 H2]. split; [lia|].
    intros y [<-|Hy]; [lia|auto].
Qed.

Lemma list_min_max_In (l : list Z) (y : Z) :
  In y l -> list_min l <= y <= list_max l.
Proof.
  destruct l as [|x l]; [intros []|]. simpl.
  destruct (fold_min_spec l x) as [Hm1 Hm2], (fold_max_spec l x) as [HM1 HM2].
  intros [<-|Hy]; split; auto.
Qed.

(** ** percentile *)

Lemma Qfloor_nonneg (q : Q) : (0 <= q)%Q -> 0 <= Qfloor q.
Proof.
  intros H. rewrite <- (Qfloor_Z 0). apply Qfloor_resp_le. exact H.
Qed.

Lemma Qceiling_upper (q : Q) (n : Z) : (q <= inject_Z n)%Q -> Qceiling q <= n.
Proof.
  intros H. rewrite <- (Qceiling_Z n). apply Qceiling_resp_le. exact H.
Qed.

Lemma Qfloor_le_ceiling (q : Q) : Qfloor q <= Qceiling q.
Proof.
  rewrite Zle_Qle. apply Qle_trans with q; [apply Qfloor_le|apply Qle_ceiling].
Qed.

Lemma Qtrunc_nonneg (q : Q) : (0 <= q)%Q -> Qtrunc q = Qfloor q.
Proof.
  intros H. unfold Qtrunc. apply Qle_bool_iff in H. rewrite H. reflexivity.
Qed.

(** A convex combination stays between the bounds of its two points. *)
Lemma lerp_between (a b m M f : Q) :
  (m <= a <= M)%Q -> (m <= b <= M)%Q -> (0 <= f <= 1)%Q ->
  (m <= a * (1 - f) + b * f <= M)%Q.
Proof.
  intros [Ha1 Ha2] [Hb1 Hb2] [Hf1 Hf2]. split; nra.
Qed.

(** The general case of [percentile], past the two early returns. *)
Lemma percentile_unfold (values : list Z) (p : Q) :
  values <> [] -> len values <> 1 ->
  percentile values p =
    let seq := py_sorted Z.ltb false values in
    let idx := (inject_Z (len seq - 1) * p)%Q in
    if Qfloor idx =? Qceiling idx then
      v <- py_index seq (Qtrunc idx) ;; ret (inject_Z v)
    else
      a <- py_index seq (Qfloor idx) ;;
      b <- py_index seq (Qceiling idx) ;;
      ret (inject_Z a * (1 - (idx - inject_Z (Qfloor idx)))
           + inject_Z b * (idx - inject_Z (Qfloor idx)))%Q.
Proof.
  intros Hne H1. destruct values as [|v0 vs]; [congruence|].
  unfold percentile, percentile_gen.
  apply Z.eqb_neq in H1. rewrite H1. reflexivity.
Qed.

(** In exact arithmetic, for any [p] in [0, 1], the percentile of a
    non-empty list exists and lies between its least and greatest value. *)
Lemma percentile_between (values : list Z) (p : Q) :
  values <> [] -> (0 <= p <= 1)%Q ->
  exists v, percentile values p = inr v /\
            (inject_Z (list_min values) <= v <= inject_Z (list_max values))%Q.
Proof.
  intros Hne [Hp0 Hp1].
  assert (Hin : forall x, In x values ->
            (inject_Z (list_min values) <= inject_Z x <= inject_Z (list_max values))%Q).
  { intros x Hx. apply list_min_max_In in Hx. rewrite <- !Zle_Qle. exact Hx. }
  destruct (Z.eq_dec (len values) 1) as [H1|H1].
  - destruct values as [|v0 [|v1 vs]]; [congruence| |unfold len in H1; simpl in H1; lia].
    exists (inject_Z v0). split; [reflexivity|]. apply Hin. left. reflexivity.
  - rewrite (percentile_unfold p Hne H1). cbv zeta.
    set (seq := py_sorted Z.ltb false values).
    set (idx := (inject_Z (len seq - 1) * p)%Q).
    assert (Hlen : len seq = len values) by apply py_sorted_len.
    assert (Hpos : 1 <= len values).
    { destruct values; [congruence|]. unfold len. simpl. lia. }
    assert (Hn : (0 <= inject_Z (len seq - 1))%Q).
    { change 0%Q with (inject_Z 0). rewrite <- Zle_Qle. lia. }
    assert (Hidx0 : (0 <= idx)%Q) by (unfold idx; nra).
    assert (Hidx1 : (idx <= inject_Z (len seq - 1))%Q) by (unfold idx; nra).
    assert (Hlo : 0 <= Qfloor idx) by (apply Qfloor_nonneg; exact Hidx0).
    assert (Hhi : Qceiling idx <= len seq - 1) by (apply Qceiling_upper; exact Hidx1).
    pose proof (Qfloor_le_ceiling idx) as Hlh.
    destruct (Qfloor idx =? Qceiling idx) eqn:Heq.
    + rewrite (Qtrunc_nonneg Hidx0).
      destruct (@py_index_in_range _ seq (Qfloor idx)) as (x & Hx & Hxin); [lia|].
      rewrite Hx. exists (inject_Z x). split; [reflexivity|].
      apply Hin. apply (py_sorted_In Z.ltb false). exact Hxin.
    + destruct (@py_index_in_range _ seq (Qfloor idx)) as (a & Ha & Hain); [lia|].
      destruct (@py_index_in_range _ seq (Qceiling idx)) as (b & Hb & Hbin); [lia|].
      rewrite Ha, Hb.
      eexists. split; [reflexivity|].
      apply lerp_between.
      * apply Hin. apply (py_sorted_In Z.ltb false). exact Hain.
      * apply Hin. apply (py_sorted_In Z.ltb false). exact Hbin.
      * pose proof (Qfloor_le idx) as F1. pose proof (Qlt_floor idx) as F2.
        rewrite inject_Z_plus in F2. change (inject_Z 1) with 1%Q in F2.
        split; lra.
Qed.

(** C6 as stated fails on the code: a CPython float is a binary64, and
    there the interpolation [seq[lo] * (1 - frac) + seq[hi] * frac] of two
    observations on day 96 rounds to 96.00000000000001, above
    [max(values) = 96]. *)
Lemma percentile_b64_exceeds_max :
  B64.percentile [96; 96] B64.p20 = inr 0x1.8000000000001p+6%float /\
  ~ (exists v, B64.percentile [96; 96] B64.p20 = inr v /\
               PrimFloat.leb (B64.of_int (list_min [96; 96])) v = true /\
               PrimFloat.leb v (B64.of_int (list_max [96; 96])) = true).
Proof.
  assert (E : B64.percentile [96; 96] B64.p20 = inr 0x1.8000000000001p+6%float)
    by (vm_compute; reflexivity).
  split; [exact E|].
  intros (v & Hv & _ & Hmax). rewrite E in Hv. injection Hv as <-.
  vm_compute in Hmax. discriminate.
Qed.

(** C7.  [percentile] raises [ValueError] on an empty list, whatever the
    percentile asked for, in exact arithmetic and in binary64 alike. *)
Theorem percentile_empty_raises (p : Q) (pf : float) :
  percentile [] p = inl (ValueError "percentile() requires non-empty values") /\
  B64.percentile [] pf = inl (ValueError "percentile() requires non-empty values").
Proof. split; reflexivity. Qed.

(** ** Zoning *)

Lemma Qlt_bool_iff (a b : Q) : Qlt_bool a b = true <-> (a < b)%Q.
Proof.
  unfold Qlt_bool. rewrite negb_true_iff.
  destruct (Qle_bool b a) eqn:E.
  - apply Qle_bool_iff in E. split; [discriminate|]. intros H. lra.
  - split; [|reflexivity]. intros _.
    destruct (Qlt_le_dec a b) as [H|H]; [exact H|].
    apply Qle_bool_iff in H. congruence.
Qed.

Lemma Qlt_bool_irrefl (a : Q) : Qlt_bool a a = false.
Proof.
  destruct (Qlt_bool a a) eqn:E; [|reflexivity].
  apply Qlt_bool_iff in E. lra.
Qed.

(** C8.  A point whose longitude is the divide's at its latitude is on
    the west side, and a point is east exactly when its longitude is
    strictly greater than the divide's. *)
Theorem side_at_divide_is_west (lat : Q) :
  side_of_cascades lat (cascade_divide_lon lat) = "west" /\
  forall lon, side_of_cascades lat lon = "east" <-> (cascade_divide_lon lat < lon)%Q.
Proof.
  unfold side_of_cascades. split.
  - rewrite Qlt_bool_irrefl. reflexivity.
  - intros lon. rewrite <- Qlt_bool_iff.
    destruct (Qlt_bool (cascade_divide_lon lat) lon); split; intros H;
      try reflexivity; try discriminate.
Qed.

(** ** Sorting: order of the result *)

Section SortedBy.
Context {A : Type}.
Variable precedes : A -> A -> bool.
Hypothesis precedes_asym : forall a b, precedes a b = true -> precedes b a = false.
Hypothesis precedes_negtrans :
  forall a b c, precedes a b = false -> precedes b c = false -> precedes a c = false.

(** [u] may stand before [w]: [w] does not have to precede it. *)
Definition in_order (u w : A) : Prop := precedes w u = false.

Lemma insert_by_sorted (x : A) (l : list A) :
  StronglySorted in_order l -> StronglySorted in_order (insert_by precedes x l).
Proof.
  induction 1 as [|y l Hl IH Hy]; simpl.
  - repeat constructor.
  - destruct (precedes y x) eqn:E.
    + constructor; [exact IH|].
      apply Forall_forall. intros z Hz.
      apply (Permutation_in _ (insert_by_perm precedes x l)) in Hz.
      destruct Hz as [<-|Hz].
      * apply precedes_asym. exact E.
      * rewrite Forall_forall in Hy. apply Hy. exact Hz.
    + constructor; [constructor; assumption|].
      constructor; [exact E|].
      apply Forall_forall. intros z Hz.
      rewrite Forall_forall in Hy. unfold in_order in *.
      apply precedes_negtrans with y; [apply Hy; exact Hz|exact E].
Qed.

Lemma fold_insert_sorted (l : list A) :
  StronglySorted in_order (fold_right (insert_by precedes) [] l).
Proof.
  induction l as [|x l IH]; simpl; [constructor|].
  apply insert_by_sorted. exact IH.
Qed.
End SortedBy.

Lemma sorted_ranked_before {A : Type} (R : A -> A -> Prop) (l : list A) (a b : A) :
  StronglySorted R l -> ranked_before a b l -> R a b.
Proof.
  intros Hs (l1 & l2 & l3 & ->).
  induction l1 as [|x l1 IH]; simpl in Hs.
  - apply StronglySorted_inv in Hs. destruct Hs as [_ Hall].
    rewrite Forall_forall in Hall. apply Hall.
    apply in_or_app. right. left. reflexivity.
  - apply StronglySorted_inv in Hs. destruct Hs as [Hs _]. apply IH. exact Hs.
Qed.

Lemma ranked_before_or {A : Type} (a b : A) (l : list A) :
  In a l -> In b l -> a <> b -> ranked_before a b l \/ ranked_before b a l.
Proof.
  intros Ha Hb Hab.
  destruct (in_split _ _ Ha) as (l1 & l2 & ->).
  apply in_app_or in Hb. destruct Hb as [Hb|[Hb|Hb]].
  - right. destruct (in_split _ _ Hb) as (m1 & m2 & ->).
    exists m1, m2, l2. rewrite <- app_assoc. reflexivity.
  - contradiction.
  - left. destruct (in_split _ _ Hb) as (m1 & m2 & ->).
    exists l1, m1, m2. reflexivity.
Qed.

Lemma ranked_before_prefix {A : Type} (a b : A) (l l' : list A) :
  ranked_before a b l -> ranked_before a b (l ++ l').
Proof.
  intros (l1 & l2 & l3 & ->). exists l1, l2, (l3 ++ l')%list.
  rewrite <- !app_assoc. simpl. rewrite <- app_assoc. reflexivity.
Qed.

Lemma py_take_prefix {A : Type} (l : list A) (n : Z) :
  exists rest, l = (py_take l n ++ rest)%list.
Proof.
  unfold py_take. destruct (n <? 0); eexists; symmetry; apply firstn_skipn.
Qed.

(** In a list where [b] never stands before [a], a prefix that holds [b]
    holds an [a] before it, if the list holds [a] at all. *)
Lemma prefix_keeps_order {A : Type} (a b : A) (pre rest : list A) :
  a <> b ->
  In a (pre ++ rest) -> ~ ranked_before b a (pre ++ rest) ->
  In b pre -> ranked_before a b pre.
Proof.
  intros Hab Ha Hno Hb.
  destruct (in_split _ _ Hb) as (p1 & p2 & ->).
  rewrite <- app_assoc in Ha. simpl in Ha.
  apply in_app_or in Ha. destruct Ha as [Ha|[Ha|Ha]].
  - destruct (in_split _ _ Ha) as (q1 & q2 & ->).
    exists q1, q2, p2. rewrite <- app_assoc. reflexivity.
  - congruence.
  - exfalso. apply Hno.
    rewrite <- app_assoc. simpl.
    destruct (in_split _ _ Ha) as (q1 & q2 & Hq).
    exists p1, q1, q2. rewrite Hq. reflexivity.
Qed.

(** ** pick_indicator_species *)

Lemma Qlt_bool_false_iff (a b : Q) : Qlt_bool a b = false <-> (b <= a)%Q.
Proof.
  unfold Qlt_bool. rewrite negb_false_iff. apply Qle_bool_iff.
Qed.

Ltac key_cases :=
  repeat match goal with
         | |- context [?x =? ?y] => destruct (Z.eqb_spec x y); subst; simpl
         end;
  rewrite ?Z.ltb_lt, ?Z.ltb_ge, ?Qlt_bool_iff, ?Qlt_bool_false_iff;
  intros; try lia; try lra.

Lemma key_lt_asym (a b : Z * Z * Z * Q) : key_lt a b = true -> key_lt b a = false.
Proof.
  destruct a as [[[a1 a2] a3] a4], b as [[[b1 b2] b3] b4]. unfold key_lt.
  key_cases.
Qed.

Lemma key_lt_negtrans (a b c : Z * Z * Z * Q) :
  key_lt a b = false -> key_lt b c = false -> key_lt a c = false.
Proof.
  destruct a as [[[a1 a2] a3] a4], b as [[[b1 b2] b3] b4], c as [[[c1 c2] c3] c4].
  unfold key_lt. key_cases.
Qed.

(** The ranking is in descending key order: no summary stands before one
    with a greater key. *)
Lemma ranked_descending (l : list Species.t) :
  StronglySorted (fun u w => rank_lt u w = false) (py_sorted rank_lt true l).
Proof.
  unfold py_sorted.
  apply (@fold_insert_sorted _ (fun y x => rank_lt x y)).
  - intros a b. unfold rank_lt. apply key_lt_asym.
  - intros a b c H1 H2. unfold rank_lt in *. eapply key_lt_negtrans; eassumption.
Qed.

(** With the three leading key components equal, the key of the smaller
    absolute anomaly is the greater one. *)
Lemma rank_lt_by_anomaly (a b : Species.t) :
  dict_get String.eqb granularity_rank (Species.granularity a) 0 =
    dict_get String.eqb granularity_rank (Species.granularity b) 0 ->
  Species.zones_used a = Species.zones_used b ->
  Species.current_obs_total a = Species.current_obs_total b ->
  (Qabs (Species.anomaly_days a) < Qabs (Species.anomaly_days b))%Q ->
  rank_lt b a = true.
Proof.
  intros Hg Hz Hc Hlt. unfold rank_lt, rank_key, key_lt.
  rewrite Hg, Hz, Hc, !Z.eqb_refl. simpl.
  apply Qlt_bool_iff. lra.
Qed.

(** C1 (as amended).  Of two summaries with the same granularity rank,
    [zones_used] and [current_obs_total], [pick_indicator_species] ranks
    the one with the SMALLER absolute [anomaly_days] first: the other never
    stands before it, and stands after it whenever it is selected. *)
Theorem pick_smaller_anomaly_first
    (species_summaries : list Species.t) (limit : Z) (a b : Species.t) :
  In a species_summaries -> In b species_summaries ->
  dict_get String.eqb granularity_rank (Species.granularity a) 0 =
    dict_get String.eqb granularity_rank (Species.granularity b) 0 ->
  Species.zones_used a = Species.zones_used b ->
  Species.current_obs_total a = Species.current_obs_total b ->
  (Qabs (Species.anomaly_days a) < Qabs (Species.anomaly_days b))%Q ->
  let picked := pick_indicator_species species_summaries limit in
  ~ ranked_before b a picked /\ (In b picked -> ranked_before a b picked).
Proof.
  intros Ha Hb Hg Hz Hc Hlt picked.
  pose proof (rank_lt_by_anomaly a b Hg Hz Hc Hlt) as Hkey.
  set (ranked := py_sorted rank_lt true species_summaries).
  assert (Hno : ~ ranked_before b a ranked).
  { intros H. apply (sorted_ranked_before (ranked_descending species_summaries)) in H.
    congruence. }
  destruct (py_take_prefix ranked limit) as (rest & Hsplit).
  fold picked in Hsplit. change (py_take ranked limit) with picked in Hsplit.
  assert (Hab : a <> b).
  { intros ->. apply Qlt_irrefl in Hlt. exact Hlt. }
  split.
  - intros H. apply Hno. rewrite Hsplit. apply ranked_before_prefix. exact H.
  - intros Hin. apply prefix_keeps_order with rest; try assumption.
    + rewrite <- Hsplit. apply (py_sorted_In rank_lt true). exact Ha.
    + rewrite <- Hsplit. exact Hno.
Qed.

Lemma pick_smaller_anomaly_first_witness :
  ~ ranked_before larger_anomaly smaller_anomaly
      (pick_indicator_species [larger_anomaly; smaller_anomaly] 20) /\
  (In larger_anomaly (pick_indicator_species [larger_anomaly; smaller_anomaly] 20) ->
   ranked_before smaller_anomaly larger_anomaly
     (pick_indicator_species [larger_anomaly; smaller_anomaly] 20)).
Proof.
  apply (@pick_smaller_anomaly_first
           [larger_anomaly; smaller_anomaly] 20 smaller_anomaly larger_anomaly).
  - simpl. right. left. reflexivity.
  - simpl. left. reflexivity.
  - reflexivity.
  - reflexivity.
  - reflexivity.
  - reflexivity.
Defined.

(** C1 as stated fails on the code: with the three leading key components
    equal, the summary with the larger absolute anomaly is ranked second,
    whatever the input order. *)
Lemma pick_larger_anomaly_ranked_second :
  Species.granularity larger_anomaly = Species.granularity smaller_anomaly /\
  Species.zones_used larger_anomaly = Species.zones_used smaller_anomaly /\
  Species.current_obs_total larger_anomaly = Species.current_obs_total smaller_anomaly /\
  (Qabs (Species.anomaly_days smaller_anomaly) < Qabs (Species.anomaly_days larger_anomaly))%Q /\
  pick_indicator_species [larger_anomaly; smaller_anomaly] 20
    = [smaller_anomaly; larger_anomaly] /\
  pick_indicator_species [smaller_anomaly; larger_anomaly] 20
    = [smaller_anomaly; larger_anomaly] /\
  ~ ranked_before larger_anomaly smaller_anomaly
      (pick_indicator_species [larger_anomaly; smaller_anomaly] 20).
Proof.
  assert (E : pick_indicator_species [larger_anomaly; smaller_anomaly] 20
              = [smaller_anomaly; larger_anomaly]) by (vm_compute; reflexivity).
  repeat split; try reflexivity; try exact E.
  rewrite E. intros (l1 & l2 & l3 & H).
  destruct l1 as [|x [|y l1]]; simpl in H.
  - injection H as H _. discriminate H.
  - injection H as _ H. destruct l2; discriminate H.
  - injection H as _ _ H. destruct l1; discriminate H.
Qed.

(** ** eval_groups: what a row is made of, and that no call raises *)

Lemma len_zero_nil {A : Type} (l : list A) : len l = 0 <-> l = [].
Proof.
  unfold len. destruct l; simpl; split; intros H;
    try reflexivity; try discriminate; lia.
Qed.

Lemma percentile_total (values : list Z) :
  values <> [] -> exists v, percentile values 0.2 = inr v.
Proof.
  intros Hne. destruct (@percentile_between values 0.2%Q Hne) as (v & Hv & _).
  - split; unfold Qle; simpl; lia.
  - exists v. exact Hv.
Qed.

Lemma baseline_onsets_of_total (year_map : dict Z (list Z)) (min_year_obs : Z)
    (years : list Z) :
  1 <= min_year_obs ->
  exists onsets, baseline_onsets_of year_map min_year_obs years = inr onsets.
Proof.
  intros Hmin. induction years as [|y years (rest & IH)]; simpl.
  - eexists. reflexivity.
  - destruct (min_year_obs <=? len (dict_get Z.eqb year_map y [])) eqn:E.
    + apply Z.leb_le in E.
      destruct (@percentile_total (dict_get Z.eqb year_map y [])) as (v & Hv).
      { intros Hnil. rewrite Hnil in E. unfold len in E. simpl in E. lia. }
      rewrite Hv, IH. cbn [bind ret]. eexists. reflexivity.
    + exists rest. exact IH.
Qed.

Lemma median_total (data : list Q) :
  data <> [] -> exists m, median data = inr m.
Proof.
  intros Hne. unfold median.
  set (sorted := py_sorted Qlt_bool false data).
  assert (Hlen : 1 <= len sorted).
  { unfold sorted. rewrite py_sorted_len. destruct data; [congruence|].
    unfold len. simpl. lia. }
  destruct (len sorted =? 0) eqn:E0; [apply Z.eqb_eq in E0; lia|].
  destruct (len sorted mod 2 =? 1) eqn:E1.
  - destruct (@py_index_in_range _ sorted (len sorted / 2)) as (a & Ha & _).
    { Z.div_mod_to_equations. lia. }
    exists a. exact Ha.
  - apply Z.eqb_neq in E1.
    destruct (@py_index_in_range _ sorted (len sorted / 2 - 1)) as (a & Ha & _).
    { Z.div_mod_to_equations. lia. }
    destruct (@py_index_in_range _ sorted (len sorted / 2)) as (b & Hb & _).
    { Z.div_mod_to_equations. lia. }
    rewrite Ha, Hb. cbn [bind ret]. eexists. reflexivity.
Qed.

Section EngineFacts.
Variable CURRENT_DATE : date.

(** The row of an admitted group, from what was read off its year map. *)
Definition row_of (current_obs_map : dict string Z) (group_name : string)
    (onsets : list Q) (baseline : Q) (current : option Q) : ZoneResult.t :=
  let today_doy := inject_Z (day_of_year CURRENT_DATE) in
  match current with
  | Some c =>
      ZoneResult.mk group_name (py_round baseline 1) (Some (py_round c 1))
        (py_round (c - baseline) 1) (classify_status (c - baseline))
        (len onsets) (dict_get String.eqb current_obs_map group_name 0) true
  | None =>
      ZoneResult.mk group_name (py_round baseline 1) None
        (py_round (today_doy - baseline) 1)
        (if Qle_bool 7 (today_doy - baseline) then "late" else "pending")
        (len onsets) (dict_get String.eqb current_obs_map group_name 0) false
  end.

Lemma eval_group_inv (current_obs_map : dict string Z)
    (min_year_obs min_baseline_years : Z) (group_name : string)
    (year_map : dict Z (list Z)) (r : option ZoneResult.t) :
  eval_group CURRENT_DATE current_obs_map min_year_obs min_baseline_years
    group_name year_map = inr r ->
  exists onsets,
    baseline_onsets_of year_map min_year_obs
      (py_range (BASELINE_START_YEAR CURRENT_DATE)
                (BASELINE_END_YEAR CURRENT_DATE + 1)) = inr onsets /\
    ((len onsets < min_baseline_years /\ r = None) \/
     (min_baseline_years <= len onsets /\
      exists baseline, median onsets = inr baseline /\
        let current_doys := dict_get Z.eqb year_map (CURRENT_YEAR CURRENT_DATE) [] in
        ((current_doys = [] /\
          r = Some (row_of current_obs_map group_name onsets baseline None)) \/
         (current_doys <> [] /\
          exists c, percentile current_doys 0.2 = inr c /\
            r = Some (row_of current_obs_map group_name onsets baseline (Some c)))))).
Proof.
  unfold eval_group.
  destruct (baseline_onsets_of _ _ _) as [e|onsets]; [discriminate|].
  cbn [bind]. intros H. exists onsets. split; [reflexivity|].
  destruct (len onsets <? min_baseline_years) eqn:E.
  - left. apply Z.ltb_lt in E. split; [exact E|]. injection H as <-. reflexivity.
  - right. apply Z.ltb_ge in E. split; [exact E|].
    destruct (median onsets) as [e|baseline]; [discriminate|].
    cbn [bind] in H. exists baseline. split; [reflexivity|]. cbv zeta.
    destruct (1 <=? len (dict_get Z.eqb year_map (CURRENT_YEAR CURRENT_DATE) []))
      eqn:Ecur.
    + right. split.
      { intros Hnil. rewrite Hnil in Ecur. discriminate Ecur. }
      destruct (percentile _ _) as [e|c]; [discriminate|].
      cbn [bind ret] in H. exists c. split; [reflexivity|].
      injection H as <-. reflexivity.
    + left. split.
      { apply len_zero_nil. apply Z.leb_gt in Ecur.
        pose proof (len_nonneg (dict_get Z.eqb year_map (CURRENT_YEAR CURRENT_DATE) [])).
        lia. }
      cbn [bind ret] in H. injection H as <-. reflexivity.
Qed.

Lemma eval_group_total (current_obs_map : dict string Z)
    (min_year_obs min_baseline_years : Z) (group_name : string)
    (year_map : dict Z (list Z)) :
  1 <= min_year_obs -> 1 <= min_baseline_years ->
  exists r, eval_group CURRENT_DATE current_obs_map min_year_obs min_baseline_years
              group_name year_map = inr r.
Proof.
  intros Hobs Hyears. unfold eval_group.
  destruct (@baseline_onsets_of_total year_map min_year_obs
              (py_range (BASELINE_START_YEAR CURRENT_DATE)
                        (BASELINE_END_YEAR CURRENT_DATE + 1)) Hobs)
    as (onsets & ->).
  cbn [bind].
  destruct (len onsets <? min_baseline_years) eqn:E; [eexists; reflexivity|].
  apply Z.ltb_ge in E.
  destruct (@median_total onsets) as (baseline & ->).
  { intros ->. unfold len in E. simpl in E. lia. }
  cbn [bind].
  destruct (1 <=? len (dict_get Z.eqb year_map (CURRENT_YEAR CURRENT_DATE) []))
    eqn:Ecur.
  - destruct (@percentile_total (dict_get Z.eqb year_map (CURRENT_YEAR CURRENT_DATE) []))
      as (c & ->).
    { intros Hnil. rewrite Hnil in Ecur. discriminate Ecur. }
    cbn [bind ret]. eexists. reflexivity.
  - cbn [bind ret]. eexists. reflexivity.
Qed.

Lemma eval_groups_total (year_maps : dict string (dict Z (list Z)))
    (current_obs_map : dict string Z) (min_year_obs min_baseline_years : Z) :
  1 <= min_year_obs -> 1 <= min_baseline_years ->
  exists rows, eval_groups CURRENT_DATE year_maps current_obs_map
                 min_year_obs min_baseline_years = inr rows.
Proof.
  intros Hobs Hyears. induction year_maps as [|[g ym] yms (rows & IH)]; simpl.
  - eexists. reflexivity.
  - destruct (@eval_group_total current_obs_map min_year_obs min_baseline_years g ym
                Hobs Hyears) as (r & ->).
    rewrite IH. cbn [bind ret]. eexists. reflexivity.
Qed.

(** Every row comes from one group of the year maps. *)
Lemma eval_groups_In (year_maps : dict string (dict Z (list Z)))
    (current_obs_map : dict string Z) (min_year_obs min_baseline_years : Z)
    (rows : list ZoneResult.t) (row : ZoneResult.t) :
  eval_groups CURRENT_DATE year_maps current_obs_map
    min_year_obs min_baseline_years = inr rows ->
  In row rows ->
  exists group_name year_map,
    In (group_name, year_map) year_maps /\
    eval_group CURRENT_DATE current_obs_map min_year_obs min_baseline_years
      group_name year_map = inr (Some row).
Proof.
  revert rows. induction year_maps as [|[g ym] yms IH]; simpl; intros rows H Hin.
  - injection H as <-. destruct Hin.
  - destruct (eval_group _ _ _ _ g ym) as [e|r] eqn:Er; [discriminate|].
    cbn [bind] in H.
    destruct (eval_groups _ yms _ _ _) as [e|rows'] eqn:Ers; [discriminate|].
    cbn [bind ret] in H. injection H as <-.
    assert (Hrest : In row rows' -> exists group_name year_map,
              (((g, ym) = (group_name, year_map)) \/ In (group_name, year_map) yms) /\
              eval_group CURRENT_DATE current_obs_map min_year_obs min_baseline_years
                group_name year_map = inr (Some row)).
    { intros Hr. destruct (IH rows' eq_refl Hr) as (g' & ym' & Hg & He).
      exists g', ym'. split; [right; exact Hg|exact He]. }
    destruct r as [r|]; [|apply Hrest; exact Hin].
    destruct Hin as [<-|Hin]; [|apply Hrest; exact Hin].
    exists g, ym. split; [left; reflexivity|exact Er].
Qed.

Lemma eval_at_total (lv : level) (t : tallies) :
  exists rows, eval_at CURRENT_DATE lv t = inr rows.
Proof.
  destruct lv; unfold eval_at; apply eval_groups_total; lia.
Qed.
End EngineFacts.

(** ** summarize_species: the fallback *)

Section Fallback.
Variable CURRENT_DATE : date.
Variables species_name common_name : string.
Variable taxon_id : Z.
Variable taxon_url : string.
Variable photo_url : option string.

(** What [summarize_species] returns and logs, from the rows that each of
    the three evaluations gives. *)
Definition outcome (t : tallies)
    (zone_rows side_rows state_rows : list ZoneResult.t)
    : option Species.t * list level :=
  let summary := summary_of species_name common_name taxon_id taxon_url photo_url t in
  match zone_rows, side_rows, state_rows with
  | _ :: _, _, _ => (Some (summary zone_rows "zone"), [AtZone])
  | [], _ :: _, _ => (Some (summary side_rows "side"), [AtZone; AtSide])
  | [], [], _ :: _ => (Some (summary state_rows "state"), [AtZone; AtSide; AtState])
  | [], [], [] => (None, [AtZone; AtSide; AtState])
  end.

Lemma summarize_species_logged_spec (observations : list Observation) :
  let t := tally_all CURRENT_DATE observations in
  exists zone_rows side_rows state_rows,
    eval_at CURRENT_DATE AtZone t = inr zone_rows /\
    eval_at CURRENT_DATE AtSide t = inr side_rows /\
    eval_at CURRENT_DATE AtState t = inr state_rows /\
    summarize_species_logged CURRENT_DATE species_name common_name taxon_id
      taxon_url photo_url observations []
    = inr (outcome t zone_rows side_rows state_rows).
Proof.
  intros t.
  destruct (eval_at_total CURRENT_DATE AtZone t) as (zr & Hz).
  destruct (eval_at_total CURRENT_DATE AtSide t) as (sr & Hs).
  destruct (eval_at_total CURRENT_DATE AtState t) as (st & Ht).
  exists zr, sr, st. repeat (split; [assumption|]).
  unfold summarize_species_logged, choose_granularity, lbind, perform, lret.
  fold t. rewrite Hz. cbn [bind ret fst snd].
  destruct zr as [|z zr]; cbn [is_empty bind ret fst snd app outcome].
  - rewrite Hs. cbn [bind ret fst snd].
    destruct sr as [|s sr]; cbn [is_empty bind ret fst snd app].
    + rewrite Ht. cbn [bind ret fst snd].
      destruct st as [|x st]; cbn [is_empty bind ret fst snd app]; reflexivity.
    + reflexivity.
  - reflexivity.
Qed.

(** A summary was built from the non-empty rows of one evaluation, under
    that evaluation's name. *)
Definition level_name (lv : level) : string :=
  match lv with
  | AtZone => "zone"
  | AtSide => "side"
  | AtState => "state"
  end.

Lemma summarize_species_Some (observations : list Observation) (s : Species.t) :
  summarize_species CURRENT_DATE species_name common_name taxon_id taxon_url
    photo_url observations = inr (Some s) ->
  exists lv rows,
    eval_at CURRENT_DATE lv (tally_all CURRENT_DATE observations) = inr rows /\
    rows <> [] /\
    s = summary_of species_name common_name taxon_id taxon_url photo_url
          (tally_all CURRENT_DATE observations) rows (level_name lv).
Proof.
  unfold summarize_species.
  destruct (summarize_species_logged_spec observations)
    as (zr & sr & st & Hz & Hs & Ht & ->).
  cbn [bind ret]. intros H. injection H as H.
  destruct zr as [|z zr]; [destruct sr as [|x sr]; [destruct st as [|y st]|]|];
    cbn [outcome fst] in H; try discriminate H; injection H as <-.
  - exists AtState, (y :: st). repeat split; [exact Ht|discriminate].
  - exists AtSide, (x :: sr). repeat split; [exact Hs|discriminate].
  - exists AtZone, (z :: zr). repeat split; [exact Hz|discriminate].
Qed.

(** C3.  [summarize_species] never raises, and the log of the evaluations
    it performed is: the zone evaluation alone when that admits a group
    (granularity "zone"); the zone and side evaluations when the zone one
    admits none and the side one admits a group (granularity "side"); all
    three only when the first two admit none (granularity "state" if a
    summary results). *)
Theorem fallback_short_circuits (observations : list Observation) :
  exists res log zone_rows side_rows,
    summarize_species_logged CURRENT_DATE species_name common_name taxon_id
      taxon_url photo_url observations [] = inr (res, log) /\
    eval_at CURRENT_DATE AtZone (tally_all CURRENT_DATE observations) = inr zone_rows /\
    eval_at CURRENT_DATE AtSide (tally_all CURRENT_DATE observations) = inr side_rows /\
    match zone_rows, side_rows with
    | _ :: _, _ =>
        log = [AtZone] /\
        exists s, res = Some s /\ Species.granularity s = "zone" /\
                  Permutation (Species.zones s) zone_rows
    | [], _ :: _ =>
        log = [AtZone; AtSide] /\
        exists s, res = Some s /\ Species.granularity s = "side" /\
                  Permutation (Species.zones s) side_rows
    | [], [] =>
        log = [AtZone; AtSide; AtState] /\
        match res with
        | Some s => Species.granularity s = "state"
        | None => True
        end
    end.
Proof.
  destruct (summarize_species_logged_spec observations)
    as (zr & sr & st & Hz & Hs & Ht & Hrun).
  exists (fst (outcome (tally_all CURRENT_DATE observations) zr sr st)),
         (snd (outcome (tally_all CURRENT_DATE observations) zr sr st)), zr, sr.
  rewrite <- surjective_pairing.
  repeat (split; [assumption|]).
  destruct zr as [|z zr]; [destruct sr as [|x sr]; [destruct st as [|y st]|]|];
    cbn [outcome fst snd]; (split; [reflexivity|]); try exact I;
    try reflexivity;
    eexists; (split; [reflexivity|]); (split; [reflexivity|]);
    apply py_sorted_perm.
Qed.
End Fallback.

(** ** Weighted means *)

Definition sum_vw (vw : list (Q * Z)) : Q :=
  fold_right (fun x acc => (fst x * inject_Z (snd x) + acc)%Q) 0%Q vw.

Definition sum_w (vw : list (Q * Z)) : Z :=
  fold_right (fun x acc => snd x + acc) 0 vw.

(** The mean of the values weighted by their weights, 0 when the weights
    sum to 0. *)
Definition weighted_mean (vw : list (Q * Z)) : Q :=
  if sum_w vw =? 0 then 0%Q else (sum_vw vw / inject_Z (sum_w vw))%Q.

(** What a Zone Result adds to the species anomaly: value and weight. *)
Definition zone_contribution (z : ZoneResult.t) : list (Q * Z) :=
  if ZoneResult.has_current z then
    [(ZoneResult.anomaly_days z,
      Z.max 1 (ZoneResult.baseline_years z) * Z.max 1 (ZoneResult.current_obs z))]
  else if (ZoneResult.status z =? "late")%string then
    [(ZoneResult.anomaly_days z, Z.max 1 (ZoneResult.baseline_years z))]
  else [].

Lemma Qle_bool_Qeq (a a' b b' : Q) :
  (a == a')%Q -> (b == b')%Q -> Qle_bool a b = Qle_bool a' b'.
Proof.
  intros Ha Hb.
  destruct (Qle_bool a b) eqn:E, (Qle_bool a' b') eqn:E'; try reflexivity.
  - apply Qle_bool_iff in E. rewrite Ha, Hb in E. apply Qle_bool_iff in E. congruence.
  - apply Qle_bool_iff in E'. rewrite <- Ha, <- Hb in E'. apply Qle_bool_iff in E'.
    congruence.
Qed.

Lemma classify_status_Qeq (a b : Q) :
  (a == b)%Q -> classify_status a = classify_status b.
Proof.
  intros H. unfold classify_status.
  rewrite (@Qle_bool_Qeq a b (-7) (-7) H (Qeq_refl _)).
  rewrite (@Qle_bool_Qeq 7 7 a b (Qeq_refl _) H). reflexivity.
Qed.

(** ** overall_status *)

(** The species that contribute to the overall rollup, and what each adds:
    value and weight. *)
Definition with_signal (indicators : list Species.t) : list Species.t :=
  filter (fun s => negb (Species.status s =? "pending")%string) indicators.

Definition species_contribution (sp : Species.t) : Q * Z :=
  (Species.anomaly_days sp,
   Z.max 1 (Species.zones_used sp) * Z.max 1 (Species.current_obs_total sp)).

Lemma sum_vw_cons (x : Q * Z) (l : list (Q * Z)) :
  sum_vw (x :: l) = (fst x * inject_Z (snd x) + sum_vw l)%Q.
Proof. reflexivity. Qed.

Lemma sum_w_cons (x : Q * Z) (l : list (Q * Z)) :
  sum_w (x :: l) = snd x + sum_w l.
Proof. reflexivity. Qed.

(** ** Dictionaries *)

Section DictFacts.
Context {K V : Type}.
Variable eqb : K -> K -> bool.
Hypothesis eqb_eq : forall a b, eqb a b = true <-> a = b.

Lemma eqb_same (k : K) : eqb k k = true.
Proof. apply eqb_eq. reflexivity. Qed.

Lemma eqb_other (a b : K) : a <> b -> eqb a b = false.
Proof.
  intros H. destruct (eqb a b) eqn:E; [|reflexivity].
  apply eqb_eq in E. contradiction.
Qed.

Lemma dict_get_update_same (d : dict K V) (k : K) (default default' : V) (f : V -> V) :
  dict_get eqb (dict_update eqb d k default f) k default' = f (dict_get eqb d k default).
Proof.
  induction d as [|[k' v] d IH]; simpl.
  - rewrite eqb_same. reflexivity.
  - destruct (eqb k' k) eqn:E; simpl; rewrite E; [reflexivity|exact IH].
Qed.

Lemma dict_get_update_other (d : dict K V) (k k' : K) (default default' : V)
    (f : V -> V) :
  k <> k' ->
  dict_get eqb (dict_update eqb d k default f) k' default' = dict_get eqb d k' default'.
Proof.
  intros Hne. induction d as [|[k0 v] d IH]; simpl.
  - rewrite (eqb_other Hne). reflexivity.
  - destruct (eqb k0 k) eqn:E; simpl.
    + apply eqb_eq in E. subst k0. rewrite (eqb_other Hne). reflexivity.
    + rewrite IH. reflexivity.
Qed.

Lemma dict_update_keys (d : dict K V) (k k' : K) (default : V) (f : V -> V) :
  In k' (map fst (dict_update eqb d k default f)) <-> k' = k \/ In k' (map fst d).
Proof.
  induction d as [|[k0 v] d IH]; simpl.
  - intuition.
  - destruct (eqb k0 k) eqn:E; simpl.
    + apply eqb_eq in E. subst k0. intuition.
    + rewrite IH. intuition.
Qed.

Lemma dict_update_NoDup (d : dict K V) (k : K) (default : V) (f : V -> V) :
  NoDup (map fst d) -> NoDup (map fst (dict_update eqb d k default f)).
Proof.
  induction d as [|[k0 v] d IH]; simpl; intros Hnd.
  - constructor; [intros []|constructor].
  - inversion Hnd as [|? ? Hnotin Hnd']; subst.
    destruct (eqb k0 k) eqn:E; simpl.
    + constructor; assumption.
    + constructor; [|apply IH; exact Hnd'].
      rewrite dict_update_keys. intros [->|Hin]; [|contradiction].
      rewrite eqb_same in E. discriminate.
Qed.

Lemma dict_get_In (d : dict K V) (k : K) (v default : V) :
  NoDup (map fst d) -> In (k, v) d -> dict_get eqb d k default = v.
Proof.
  induction d as [|[k0 v0] d IH]; simpl; intros Hnd Hin; [destruct Hin|].
  inversion Hnd as [|? ? Hnotin Hnd']; subst.
  destruct Hin as [Heq|Hin].
  - injection Heq as -> ->. rewrite eqb_same. reflexivity.
  - destruct (eqb k0 k) eqn:E.
    + apply eqb_eq in E. subst k0. exfalso. apply Hnotin.
      apply (in_map fst) in Hin. exact Hin.
    + apply IH; assumption.
Qed.
End DictFacts.

(** ** The tallies of the loop over the observations *)

Section Tallies.
Variable CURRENT_DATE : date.

Definition doy_of (o : Observation) : Z := day_of_year (observed_on o).
Definition year_of (o : Observation) : Z := year (observed_on o).

(** The test of line 342: a current-year observation made by today. *)
Definition counted (o : Observation) : bool :=
  (year_of o =? CURRENT_YEAR CURRENT_DATE) && date_le (observed_on o) CURRENT_DATE.

(** What one turn of the loop does to a year map keyed by [key], and to a
    count keyed by [key]. *)
Definition group_step (key : Observation -> string)
    (d : dict string (dict Z (list Z))) (o : Observation) :=
  dict_update String.eqb d (key o) [] (append_doy (year_of o) (doy_of o)).

Definition count_step (key : Observation -> string) (d : dict string Z)
    (o : Observation) :=
  if counted o then dict_update String.eqb d (key o) 0 (fun n => n + 1) else d.

Lemma tally_fields (observations : list Observation) (t0 : tallies) :
  let t := fold_left (tally CURRENT_DATE) observations t0 in
  by_zone_year t = fold_left (group_step zone_of) observations (by_zone_year t0) /\
  by_side_year t =
    fold_left (group_step (fun o => side_of_cascades (lat o) (lon o)))
      observations (by_side_year t0) /\
  by_state_year t =
    fold_left (fun d o => append_doy (year_of o) (doy_of o) d)
      observations (by_state_year t0) /\
  current_obs_by_zone t =
    fold_left (count_step zone_of) observations (current_obs_by_zone t0) /\
  current_obs_by_side t =
    fold_left (count_step (fun o => side_of_cascades (lat o) (lon o)))
      observations (current_obs_by_side t0) /\
  current_obs_state t =
    fold_left (fun n o => if counted o then n + 1 else n)
      observations (current_obs_state t0).
Proof.
  revert t0. induction observations as [|o l IH]; intros t0; cbn zeta.
  - simpl. repeat split; reflexivity.
  - cbn [fold_left]. destruct (IH (tally CURRENT_DATE t0 o)) as (H1 & H2 & H3 & H4 & H5 & H6).
    cbn zeta in *. rewrite H1, H2, H3, H4, H5, H6. clear.
    unfold tally, group_step, count_step, counted, zone_of, year_of, doy_of.
    destruct ((year (observed_on o) =? CURRENT_YEAR CURRENT_DATE)
              && date_le (observed_on o) CURRENT_DATE);
      repeat split; reflexivity.
Qed.

Lemma append_doy_get (y doy y' : Z) (year_map : dict Z (list Z)) :
  dict_get Z.eqb (append_doy y doy year_map) y' [] =
    (dict_get Z.eqb year_map y' [] ++ (if y =? y' then [doy] else []))%list.
Proof.
  unfold append_doy. destruct (Z.eqb_spec y y') as [->|Hne].
  - exact (dict_get_update_same Z.eqb Z.eqb_eq year_map y' [] []
             (fun l => (l ++ [doy])%list)).
  - rewrite (dict_get_update_other Z.eqb Z.eqb_eq) by exact Hne.
    rewrite app_nil_r. reflexivity.
Qed.

Lemma filter_snoc {A : Type} (f : A -> bool) (l : list A) (x : A) :
  filter f (l ++ [x]) = (filter f l ++ (if f x then [x] else []))%list.
Proof.
  rewrite filter_app. simpl. destruct (f x); reflexivity.
Qed.

Lemma group_fold_spec (key : Observation -> string) (observations : list Observation) :
  let d := fold_left (group_step key) observations [] in
  NoDup (map fst d) /\
  (forall g y,
     dict_get Z.eqb (dict_get String.eqb d g []) y [] =
       map doy_of (filter (fun o => (key o =? g)%string && (year_of o =? y))
                     observations)) /\
  (forall g, In g (map fst d) -> exists o, In o observations /\ key o = g).
Proof.
  induction observations as [|x l IH] using rev_ind; cbn zeta.
  - simpl. repeat split; [constructor|intros g []].
  - rewrite fold_left_app. cbn [fold_left].
    cbn zeta in IH. destruct IH as (Hnd & Hget & Hkeys).
    set (d := fold_left (group_step key) l []) in *.
    unfold group_step at 1 2 3. repeat split.
    + apply (dict_update_NoDup String.eqb String.eqb_eq). exact Hnd.
    + intros g y. rewrite filter_snoc, map_app.
      destruct (String.eqb_spec (key x) g) as [<-|Hne].
      * rewrite (dict_get_update_same String.eqb String.eqb_eq).
        rewrite append_doy_get, Hget. cbn [andb].
        destruct (year_of x =? y); reflexivity.
      * rewrite (dict_get_update_other String.eqb String.eqb_eq) by exact Hne.
        rewrite Hget. cbn [andb map]. rewrite app_nil_r. reflexivity.
    + intros g Hg. apply (dict_update_keys String.eqb String.eqb_eq) in Hg.
      destruct Hg as [->|Hg].
      * exists x. split; [apply in_or_app; right; left; reflexivity|reflexivity].
      * destruct (Hkeys g Hg) as (o & Ho & Hk).
        exists o. split; [apply in_or_app; left; exact Ho|exact Hk].
Qed.

Lemma len_app {A : Type} (l l' : list A) : len (l ++ l') = len l + len l'.
Proof. unfold len. rewrite length_app. lia. Qed.

Lemma count_fold_spec (key : Observation -> string) (observations : list Observation)
    (g : string) :
  dict_get String.eqb (fold_left (count_step key) observations []) g 0 =
    len (filter (fun o => (key o =? g)%string && counted o) observations).
Proof.
  induction observations as [|x l IH] using rev_ind.
  - reflexivity.
  - rewrite fold_left_app, filter_snoc, len_app. cbn [fold_left].
    unfold count_step at 1. destruct (counted x).
    + destruct (String.eqb_spec (key x) g) as [<-|Hne].
      * rewrite (dict_get_update_same String.eqb String.eqb_eq), IH. reflexivity.
      * rewrite (dict_get_update_other String.eqb String.eqb_eq) by exact Hne.
        rewrite IH. cbn [andb]. unfold len at 3. simpl. lia.
    + rewrite IH, andb_false_r. unfold len at 3. simpl. lia.
Qed.

Lemma state_fold_spec (observations : list Observation) (y : Z) :
  dict_get Z.eqb
    (fold_left (fun d o => append_doy (year_of o) (doy_of o) d) observations []) y [] =
    map doy_of (filter (fun o => year_of o =? y) observations).
Proof.
  induction observations as [|x l IH] using rev_ind.
  - reflexivity.
  - rewrite fold_left_app, filter_snoc, map_app. cbn [fold_left].
    rewrite append_doy_get, IH. destruct (year_of x =? y); reflexivity.
Qed.

Lemma state_count_spec (observations : list Observation) :
  fold_left (fun n o => if counted o then n + 1 else n) observations 0 =
    len (filter counted observations).
Proof.
  induction observations as [|x l IH] using rev_ind.
  - reflexivity.
  - rewrite fold_left_app, filter_snoc, len_app. cbn [fold_left].
    rewrite IH.
    destruct (counted x);
      [change (len [x]) with 1|change (len (@nil Observation)) with 0]; lia.
Qed.
End Tallies.

(** ** The rows of an evaluation, read off the observations *)

(** The group an observation falls in under each granularity. *)
Definition group_key (granularity : string) (o : Observation) : string :=
  if (granularity =? "zone")%string then zone_of o
  else if (granularity =? "side")%string then side_of_cascades (lat o) (lon o)
  else "statewide".

(** The current-year observations of group [g], dated before or after
    today alike. *)
Definition current_year_members (CURRENT_DATE : date) (granularity g : string)
    (observations : list Observation) : list Observation :=
  filter (fun o => (group_key granularity o =? g)%string
                   && (year_of o =? CURRENT_YEAR CURRENT_DATE))
    observations.

Section Rows.
Variable CURRENT_DATE : date.
Variable observations : list Observation.

(** What a row says about the current year, for the group [g] it stands
    for and that group's current-year observations [mine]. *)
Definition row_reads (key : Observation -> string) (r : ZoneResult.t) : Prop :=
  let mine :=
    filter (fun o => (key o =? ZoneResult.zone r)%string
                     && (year_of o =? CURRENT_YEAR CURRENT_DATE)) observations in
  ZoneResult.has_current r = negb (is_empty mine) /\
  ZoneResult.current_obs r =
    len (filter (fun o => (key o =? ZoneResult.zone r)%string
                          && counted CURRENT_DATE o) observations) /\
  (mine = [] -> ZoneResult.current_doy r = None) /\
  (mine <> [] ->
   exists c, percentile (map doy_of mine) 0.2 = inr c /\
             ZoneResult.current_doy r = Some (py_round c 1)).

Lemma rows_of_groups (key : Observation -> string)
    (year_maps : dict string (dict Z (list Z))) (current_obs_map : dict string Z)
    (min_year_obs min_baseline_years : Z)
    (rows : list ZoneResult.t) (r : ZoneResult.t) :
  NoDup (map fst year_maps) ->
  (forall g y, In g (map fst year_maps) ->
     dict_get Z.eqb (dict_get String.eqb year_maps g []) y [] =
       map doy_of (filter (fun o => (key o =? g)%string && (year_of o =? y))
                     observations)) ->
  (forall g, In g (map fst year_maps) ->
     dict_get String.eqb current_obs_map g 0 =
       len (filter (fun o => (key o =? g)%string && counted CURRENT_DATE o)
              observations)) ->
  eval_groups CURRENT_DATE year_maps current_obs_map min_year_obs min_baseline_years
    = inr rows ->
  In r rows ->
  In (ZoneResult.zone r) (map fst year_maps) /\ row_reads key r.
Proof.
  intros Hnd Hget Hcount Hrows Hr.
  destruct (@eval_groups_In CURRENT_DATE year_maps current_obs_map
              min_year_obs min_baseline_years rows r Hrows Hr)
    as (g & ym & Hg & He).
  assert (Hkey : In g (map fst year_maps)) by (apply (in_map fst) in Hg; exact Hg).
  assert (Hym : dict_get String.eqb year_maps g [] = ym)
    by (apply (dict_get_In String.eqb String.eqb_eq); assumption).
  specialize (Hget g (CURRENT_YEAR CURRENT_DATE) Hkey). rewrite Hym in Hget.
  specialize (Hcount g Hkey).
  apply eval_group_inv in He.
  destruct He as (onsets & _ & [[_ He]|(_ & baseline & _ & He)]); [discriminate He|].
  cbv zeta in He. rewrite Hget in He.
  destruct He as [[Hnil He]|(Hsome & c & Hc & He)]; injection He as ->;
    unfold row_of, row_reads;
    cbn [ZoneResult.zone ZoneResult.has_current ZoneResult.current_obs
         ZoneResult.current_doy];
    (split; [exact Hkey|]).
  - apply map_eq_nil in Hnil. rewrite Hnil. cbn [is_empty negb].
    repeat split; [exact Hcount|intros H; contradiction].
  - destruct (filter _ observations) as [|o mine] eqn:Emine; [contradiction|].
    cbn [is_empty negb]. repeat split; [exact Hcount|discriminate|].
    intros _. exists c. split; [exact Hc|reflexivity].
Qed.

(** The rows of each of the three evaluations. *)
Lemma eval_at_rows (lv : level) (rows : list ZoneResult.t) (r : ZoneResult.t) :
  eval_at CURRENT_DATE lv (tally_all CURRENT_DATE observations) = inr rows ->
  In r rows ->
  row_reads (group_key (level_name lv)) r /\
  match lv with
  | AtZone => exists o, In o observations /\ ZoneResult.zone r = zone_of o
  | AtSide => ZoneResult.zone r = "east" \/ ZoneResult.zone r = "west"
  | AtState => ZoneResult.zone r = "statewide"
  end.
Proof.
  unfold tally_all.
  destruct (tally_fields CURRENT_DATE observations no_tallies)
    as (Hz & Hs & Ht & Hcz & Hcs & Hct).
  cbn zeta in *. cbn [by_zone_year by_side_year by_state_year current_obs_by_zone
                      current_obs_by_side current_obs_state no_tallies] in *.
  destruct lv; unfold eval_at.
  - rewrite Hz, Hcz. intros Hrows Hr.
    destruct (group_fold_spec zone_of observations) as (Hnd & Hget & Hkeys).
    cbn zeta in *.
    destruct (@rows_of_groups zone_of _ _ 3 4 rows r Hnd
                (fun g y _ => Hget g y)
                (fun g _ => count_fold_spec CURRENT_DATE zone_of observations g)
                Hrows Hr) as (Hin & Hreads).
    split; [exact Hreads|].
    destruct (Hkeys _ Hin) as (o & Ho & Hk). exists o. split; [exact Ho|].
    symmetry. exact Hk.
  - rewrite Hs, Hcs. intros Hrows Hr.
    destruct (group_fold_spec (fun o => side_of_cascades (lat o) (lon o)) observations)
      as (Hnd & Hget & Hkeys).
    cbn zeta in *.
    destruct (@rows_of_groups (fun o => side_of_cascades (lat o) (lon o)) _ _ 2 4
                rows r Hnd
                (fun g y _ => Hget g y)
                (fun g _ => count_fold_spec CURRENT_DATE
                              (fun o => side_of_cascades (lat o) (lon o))
                              observations g)
                Hrows Hr) as (Hin & Hreads).
    split; [exact Hreads|].
    destruct (Hkeys _ Hin) as (o & _ & Hk). rewrite <- Hk.
    unfold side_of_cascades. destruct (Qlt_bool _ _); [left|right]; reflexivity.
  - rewrite Ht, Hct. intros Hrows Hr.
    assert (Hone : forall g, In g (map fst [("statewide", fold_left
                     (fun d o => append_doy (year_of o) (doy_of o) d) observations [])])
                   -> g = "statewide").
    { intros g [<-|[]]. reflexivity. }
    destruct (@rows_of_groups (fun _ => "statewide")
                [("statewide", fold_left
                                 (fun d o => append_doy (year_of o) (doy_of o) d)
                                 observations [])]
                [("statewide", fold_left
                                 (fun n o => if counted CURRENT_DATE o then n + 1 else n)
                                 observations 0)]
                2 4 rows r)
      as (Hin & Hreads); try assumption.
    + repeat constructor. intros [].
    + intros g y Hg. rewrite (Hone g Hg). cbn [dict_get String.eqb Ascii.eqb Bool.eqb].
      rewrite state_fold_spec. reflexivity.
    + intros g Hg. rewrite (Hone g Hg). cbn [dict_get String.eqb Ascii.eqb Bool.eqb].
      rewrite state_count_spec. reflexivity.
    + split; [exact Hreads|]. apply Hone. exact Hin.
Qed.
End Rows.

Lemma filter_none {A : Type} (f : A -> bool) (l : list A) :
  (forall x, In x l -> f x = false) -> filter f l = [].
Proof.
  induction l as [|x l IH]; simpl; intros H; [reflexivity|].
  rewrite (H x) by (left; reflexivity). apply IH. intros y Hy. apply H. right. exact Hy.
Qed.

(** C9.  When the current-year observations of a group exist and are all
    dated after the analysis date, the group's Zone Result has
    [has_current] set and a current onset that is the 20th percentile of
    those future days of year, while its [current_obs] count is 0. *)
Theorem future_dated_current_observations (CURRENT_DATE : date)
    (species_name common_name : string) (taxon_id : Z) (taxon_url : string)
    (photo_url : option string) (observations : list Observation)
    (s : Species.t) (row : ZoneResult.t) :
  summarize_species CURRENT_DATE species_name common_name taxon_id taxon_url
    photo_url observations = inr (Some s) ->
  In row (Species.zones s) ->
  current_year_members CURRENT_DATE (Species.granularity s) (ZoneResult.zone row)
    observations <> [] ->
  (forall o,
     In o (current_year_members CURRENT_DATE (Species.granularity s)
             (ZoneResult.zone row) observations) ->
     date_lt CURRENT_DATE (observed_on o) = true) ->
  ZoneResult.has_current row = true /\
  ZoneResult.current_obs row = 0 /\
  exists c,
    percentile
      (map doy_of
         (current_year_members CURRENT_DATE (Species.granularity s)
            (ZoneResult.zone row) observations)) 0.2 = inr c /\
    ZoneResult.current_doy row = Some (py_round c 1).
Proof.
  intros H Hrow. apply summarize_species_Some in H.
  destruct H as (lv & rows & Hrows & _ & ->).
  unfold summary_of in Hrow |- *. cbn [Species.zones Species.granularity] in *.
  apply py_sorted_In in Hrow.
  destruct (@eval_at_rows CURRENT_DATE observations lv rows row Hrows Hrow)
    as ((Hcur & Hcount & _ & Hdoy) & _).
  cbv zeta in *. fold (current_year_members CURRENT_DATE (level_name lv)
                         (ZoneResult.zone row) observations) in *.
  intros Hsome Hfuture. repeat split.
  - rewrite Hcur.
    destruct (current_year_members _ _ _ _); [contradiction|reflexivity].
  - rewrite Hcount. rewrite filter_none; [reflexivity|].
    intros o Ho.
    destruct (group_key (level_name lv) o =? ZoneResult.zone row)%string eqn:Ek;
      [|reflexivity].
    destruct (counted CURRENT_DATE o) eqn:Ec; [|reflexivity].
    exfalso. unfold counted in Ec. apply andb_true_iff in Ec. destruct Ec as [Ey Ed].
    assert (Hin : In o (current_year_members CURRENT_DATE (level_name lv)
                          (ZoneResult.zone row) observations)).
    { unfold current_year_members. apply filter_In. split; [exact Ho|].
      rewrite Ek, Ey. reflexivity. }
    apply Hfuture in Hin. unfold date_lt in Hin. rewrite Ed in Hin. discriminate.
  - apply Hdoy. exact Hsome.
Qed.

Lemma future_dated_current_observations_witness :
  let observations := (example_baseline ++ [example_obs 2026 5 1 50])%list in
  let row :=
    ZoneResult.mk "west-low" (py_round 71 1) (Some (py_round 121 1)) (py_round 50 1)
      "late" 5 0 true in
  ZoneResult.has_current row = true /\
  ZoneResult.current_obs row = 0 /\
  exists c,
    percentile
      (map doy_of (current_year_members example_today "zone" "west-low" observations))
      0.2 = inr c /\
    ZoneResult.current_doy row = Some (py_round c 1).
Proof.
  apply (@future_dated_current_observations example_today
           "Trillium ovatum" "Pacific trillium" 1 "https://www.inaturalist.org/taxa/1"
           None (example_baseline ++ [example_obs 2026 5 1 50])%list
           (summary_or larger_anomaly
              (example_run (example_baseline ++ [example_obs 2026 5 1 50])%list))).
  - vm_compute. reflexivity.
  - vm_compute. left. reflexivity.
  - vm_compute. discriminate.
  - intros o Ho. vm_compute in Ho. destruct Ho as [<-|[]]. vm_compute. reflexivity.
Defined.

(** ** Group keys in the rows and in the zone rollup *)

(** A zone key ["{side}-{elevation_band}"] holds a dash. *)
Fixpoint has_dash (s : string) : bool :=
  match s with
  | EmptyString => false
  | String c s' => Ascii.eqb c "-"%char || has_dash s'
  end.

Lemma has_dash_zone_of (o : Observation) : has_dash (zone_of o) = true.
Proof.
  unfold zone_of, side_of_cascades. destruct (Qlt_bool _ _); reflexivity.
Qed.

Lemma collect_zone_keys (zs : list ZoneResult.t) (d : dict string (list (Q * Z)))
    (k : string) :
  In k (map fst (fold_left collect_zone zs d)) <->
  In k (map fst d) \/ exists z, In z zs /\ ZoneResult.zone z = k.
Proof.
  revert d. induction zs as [|z zs IH]; intros d; cbn [fold_left].
  - split; [intros H; left; exact H|]. intros [H|(z & [] & _)]. exact H.
  - rewrite IH. unfold collect_zone.
    rewrite (dict_update_keys String.eqb String.eqb_eq). split.
    + intros [[->|H]|(z' & Hz' & Hk)].
      * right. exists z. split; [left; reflexivity|reflexivity].
      * left. exact H.
      * right. exists z'. split; [right; exact Hz'|exact Hk].
    + intros [H|(z' & [<-|Hz'] & Hk)].
      * left. right. exact H.
      * left. left. symmetry. exact Hk.
      * right. exists z'. split; assumption.
Qed.

Lemma collect_zone_NoDup (zs : list ZoneResult.t) (d : dict string (list (Q * Z))) :
  NoDup (map fst d) -> NoDup (map fst (fold_left collect_zone zs d)).
Proof.
  revert d. induction zs as [|z zs IH]; intros d Hnd; cbn [fold_left].
  - exact Hnd.
  - apply IH. unfold collect_zone.
    apply (dict_update_NoDup String.eqb String.eqb_eq). exact Hnd.
Qed.

Lemma collect_zone_data_keys (indicators : list Species.t)
    (d : dict string (list (Q * Z))) (k : string) :
  let zone_data :=
    fold_left (fun zone_data sp => fold_left collect_zone (Species.zones sp) zone_data)
      indicators d in
  (NoDup (map fst d) -> NoDup (map fst zone_data)) /\
  (In k (map fst zone_data) <->
   In k (map fst d) \/
   exists sp z, In sp indicators /\ In z (Species.zones sp) /\ ZoneResult.zone z = k).
Proof.
  revert d. induction indicators as [|sp l IH]; intros d; cbn zeta; cbn [fold_left].
  - split; [intros H; exact H|].
    split; [intros H; left; exact H|]. intros [H|(sp & z & [] & _)]. exact H.
  - destruct (IH (fold_left collect_zone (Species.zones sp) d)) as (Hnd & Hkeys).
    cbn zeta in *. split.
    + intros H. apply Hnd. apply collect_zone_NoDup. exact H.
    + rewrite Hkeys, collect_zone_keys. split.
      * intros [[H|(z & Hz & Hk)]|(sp' & z & Hsp & Hz & Hk)].
        -- left. exact H.
        -- right. exists sp, z. split; [left; reflexivity|split; assumption].
        -- right. exists sp', z. split; [right; exact Hsp|split; assumption].
      * intros [H|(sp' & z & [<-|Hsp] & Hz & Hk)].
        -- left. left. exact H.
        -- left. right. exists z. split; assumption.
        -- right. exists sp', z. split; [exact Hsp|split; assumption].
Qed.

(** The zone rollup has one row per zone string found in the Zone Results
    of the indicators. *)
Lemma build_zone_summary_zones (indicators : list Species.t) :
  NoDup (map ZoneRollup.zone (build_zone_summary indicators)) /\
  forall k,
    In k (map ZoneRollup.zone (build_zone_summary indicators)) <->
    exists sp z, In sp indicators /\ In z (Species.zones sp) /\ ZoneResult.zone z = k.
Proof.
  assert (Hperm : Permutation (map ZoneRollup.zone (build_zone_summary indicators))
                    (map fst (collect_zone_data indicators))).
  { unfold build_zone_summary. cbv zeta.
    rewrite (Permutation_map ZoneRollup.zone (py_sorted_perm _ false _)).
    rewrite map_map.
    erewrite map_ext; [apply Permutation_refl|].
    intros [zone values]. reflexivity. }
  split.
  - apply (Permutation_NoDup (Permutation_sym Hperm)).
    apply (collect_zone_data_keys indicators [] ""). constructor.
  - intros k. split.
    + intros H. apply (Permutation_in _ Hperm) in H.
      apply (collect_zone_data_keys indicators [] k) in H.
      destruct H as [[]|H]. exact H.
    + intros H. apply (Permutation_in _ (Permutation_sym Hperm)).
      apply (collect_zone_data_keys indicators [] k). right. exact H.
Qed.

(** C10.  A Zone Result of a species evaluated at side granularity carries
    "east" or "west" in its [zone] field, and one evaluated statewide
    carries "statewide": no dashed ["{side}-{elevation_band}"] key, which is
    what a zone-granularity row carries.  The zone rollup groups by that
    field as it is: it has exactly one row per [zone] string of the
    indicators' Zone Results, these keys included. *)
Theorem fallback_rows_keep_group_keys (CURRENT_DATE : date)
    (species_name common_name : string) (taxon_id : Z) (taxon_url : string)
    (photo_url : option string) (observations : list Observation)
    (s : Species.t) (row : ZoneResult.t) (indicators : list Species.t) :
  summarize_species CURRENT_DATE species_name common_name taxon_id taxon_url
    photo_url observations = inr (Some s) ->
  In row (Species.zones s) ->
  In s indicators ->
  match Species.granularity s with
  | "side" =>
      (ZoneResult.zone row = "east" \/ ZoneResult.zone row = "west") /\
      has_dash (ZoneResult.zone row) = false
  | "state" =>
      ZoneResult.zone row = "statewide" /\ has_dash (ZoneResult.zone row) = false
  | _ =>
      Species.granularity s = "zone" /\
      (exists o, In o observations /\ ZoneResult.zone row = zone_of o) /\
      has_dash (ZoneResult.zone row) = true
  end /\
  In (ZoneResult.zone row) (map ZoneRollup.zone (build_zone_summary indicators)) /\
  NoDup (map ZoneRollup.zone (build_zone_summary indicators)).
Proof.
  intros H Hrow Hs.
  destruct (build_zone_summary_zones indicators) as (Hnd & Hkeys).
  split; [|split; [|exact Hnd]].
  - apply summarize_species_Some in H.
    destruct H as (lv & rows & Hrows & _ & ->).
    unfold summary_of in Hrow |- *. cbn [Species.zones Species.granularity] in *.
    apply py_sorted_In in Hrow.
    destruct (@eval_at_rows CURRENT_DATE observations lv rows row Hrows Hrow)
      as (_ & Hkey).
    destruct lv; cbn [level_name].
    + split; [reflexivity|]. split; [exact Hkey|].
      destruct Hkey as (o & _ & ->). apply has_dash_zone_of.
    + split; [exact Hkey|]. destruct Hkey as [-> | ->]; reflexivity.
    + split; [exact Hkey|]. rewrite Hkey. reflexivity.
  - apply Hkeys. exists s, row. repeat split; assumption.
Qed.

Lemma fallback_rows_keep_group_keys_witness :
  let coarse := summary_or larger_anomaly (example_run example_sparse) in
  let fine :=
    summary_or larger_anomaly
      (example_run (example_baseline ++ [example_obs 2026 3 1 50])%list) in
  let row := ZoneResult.mk "west" (py_round 71 1) None (py_round 29 1) "late" 5 0 false in
  (((ZoneResult.zone row = "east" \/ ZoneResult.zone row = "west") /\
    has_dash (ZoneResult.zone row) = false) /\
   In (ZoneResult.zone row) (map ZoneRollup.zone (build_zone_summary [coarse; fine])) /\
   NoDup (map ZoneRollup.zone (build_zone_summary [coarse; fine]))) /\
  Species.granularity coarse = "side" /\
  Species.granularity fine = "zone" /\
  map ZoneRollup.zone (build_zone_summary [coarse; fine]) = ["west"; "west-low"].
Proof.
  split.
  - apply (@fallback_rows_keep_group_keys example_today
             "Trillium ovatum" "Pacific trillium" 1 "https://www.inaturalist.org/taxa/1"
             None example_sparse
             (summary_or larger_anomaly (example_run example_sparse))
             (ZoneResult.mk "west" (py_round 71 1) None (py_round 29 1) "late" 5 0 false)
             [summary_or larger_anomaly (example_run example_sparse);
              summary_or larger_anomaly
                (example_run (example_baseline ++ [example_obs 2026 3 1 50])%list)]).
    + vm_compute. reflexivity.
    + vm_compute. left. reflexivity.
    + left. reflexivity.
  - repeat split; vm_compute; reflexivity.
Defined.

(** ** Further properties *)

(** The elevation bands partition the elevations: below 500 m is "low",
    from 500 m to below 1200 m is "mid", 1200 m and above is "high", and a
    missing elevation is "unknown". *)
Theorem elevation_band_partition (e : Q) :
  elevation_band None = "unknown" /\
  (elevation_band (Some e) = "low" <-> (e < 500)%Q) /\
  (elevation_band (Some e) = "mid" <-> (500 <= e < 1200)%Q) /\
  (elevation_band (Some e) = "high" <-> (1200 <= e)%Q).
Proof.
  unfold elevation_band.
  destruct (Qlt_bool e 500) eqn:E1; [|destruct (Qlt_bool e 1200) eqn:E2];
    rewrite ?Qlt_bool_iff, ?Qlt_bool_false_iff in *;
    repeat split; intros; try discriminate; try reflexivity; try lra.
Qed.

(** In binary64 too a point on the computed divide is west, whatever the
    latitude (NaN and the infinities included): no float is greater than
    itself. *)
Theorem side_at_divide_is_west_b64 (lat : float) :
  B64.side_of_cascades lat (B64.cascade_divide_lon lat) = "west".
Proof.
  unfold B64.side_of_cascades. rewrite ltb_spec.
  assert (H : forall x, SFltb x x = false).
  { intros [s|s| |s m e]; try reflexivity; try (destruct s; reflexivity).
    unfold SFltb, SFcompare.
    rewrite Z.compare_refl, Pos.compare_refl. destruct s; reflexivity. }
  rewrite H. reflexivity.
Qed.

Lemma StronglySorted_weaken {A : Type} (R R' : A -> A -> Prop) (l : list A) :
  (forall u w, R u w -> R' u w) -> StronglySorted R l -> StronglySorted R' l.
Proof.
  intros Himp. induction 1 as [|x l Hl IH Hx]; constructor; [exact IH|].
  apply Forall_forall. intros w Hw. rewrite Forall_forall in Hx. apply Himp, Hx, Hw.
Qed.

(** The Zone Results of a summary are listed by descending absolute
    anomaly. *)
Theorem summary_zones_by_descending_anomaly (CURRENT_DATE : date)
    (species_name common_name : string) (taxon_id : Z) (taxon_url : string)
    (photo_url : option string) (observations : list Observation) (s : Species.t) :
  summarize_species CURRENT_DATE species_name common_name taxon_id taxon_url
    photo_url observations = inr (Some s) ->
  StronglySorted
    (fun u w => (Qabs (ZoneResult.anomaly_days w) <= Qabs (ZoneResult.anomaly_days u))%Q)
    (Species.zones s).
Proof.
  intros H. apply summarize_species_Some in H.
  destruct H as (lv & rows & _ & _ & ->).
  unfold summary_of. cbn [Species.zones]. unfold py_sorted.
  eapply StronglySorted_weaken;
    [|apply (@fold_insert_sorted _
               (fun y x => Qlt_bool (Qabs (ZoneResult.anomaly_days x))
                                    (Qabs (ZoneResult.anomaly_days y))))].
  - intros u w Huw. unfold in_order in Huw. apply Qlt_bool_false_iff in Huw. exact Huw.
  - intros a b Hab. apply Qlt_bool_iff in Hab. apply Qlt_bool_false_iff. lra.
  - intros a b c Hab Hbc. apply Qlt_bool_false_iff in Hab, Hbc.
    apply Qlt_bool_false_iff. lra.
Qed.

Lemma summary_zones_by_descending_anomaly_witness :
  let s := summary_or larger_anomaly (example_run example_two_zones) in
  StronglySorted
    (fun u w => (Qabs (ZoneResult.anomaly_days w) <= Qabs (ZoneResult.anomaly_days u))%Q)
    (Species.zones s) /\
  map ZoneResult.zone (Species.zones s) = ["west-low"; "west-mid"] /\
  map (fun z => Qred (ZoneResult.anomaly_days z)) (Species.zones s) = [-11; -5]%Q.
Proof.
  split.
  - apply (@summary_zones_by_descending_anomaly example_today
             "Trillium ovatum" "Pacific trillium" 1 "https://www.inaturalist.org/taxa/1"
             None example_two_zones).
    vm_compute. reflexivity.
  - split; vm_compute; reflexivity.
Defined.

(** * More of the engine *)

(** ** percentile does not depend on the order of its input *)

Lemma sorted_Z_ascending (l : list Z) :
  StronglySorted Z.le (py_sorted Z.ltb false l).
Proof.
  unfold py_sorted.
  eapply StronglySorted_weaken; [|apply (@fold_insert_sorted _ Z.ltb)].
  - intros u w H. unfold in_order in H. apply Z.ltb_ge in H. exact H.
  - intros a b H. apply Z.ltb_lt in H. apply Z.ltb_ge. lia.
  - intros a b c H1 H2. apply Z.ltb_ge in H1, H2. apply Z.ltb_ge. lia.
Qed.

Lemma sorted_Z_unique (l l' : list Z) :
  StronglySorted Z.le l -> StronglySorted Z.le l' -> Permutation l l' -> l = l'.
Proof.
  revert l'. induction l as [|x l IH]; intros l' Hs Hs' Hp.
  - apply Permutation_nil in Hp. subst. reflexivity.
  - destruct l' as [|y l'].
    + apply Permutation_sym, Permutation_nil in Hp. discriminate.
    + apply StronglySorted_inv in Hs, Hs'.
      destruct Hs as [Hs Hx], Hs' as [Hs' Hy].
      rewrite Forall_forall in Hx, Hy.
      assert (x = y).
      { assert (Hyin : In y (x :: l))
          by (apply (Permutation_in _ (Permutation_sym Hp)); left; reflexivity).
        assert (Hxin : In x (y :: l'))
          by (apply (Permutation_in _ Hp); left; reflexivity).
        destruct Hyin as [->|Hyin]; [reflexivity|].
        destruct Hxin as [->|Hxin]; [reflexivity|].
        specialize (Hx y Hyin). specialize (Hy x Hxin). lia. }
      subst y. f_equal. apply IH; try assumption.
      eapply Permutation_cons_inv. exact Hp.
Qed.

Lemma py_sorted_Z_perm (l l' : list Z) :
  Permutation l l' -> py_sorted Z.ltb false l = py_sorted Z.ltb false l'.
Proof.
  intros Hp. apply sorted_Z_unique; try apply sorted_Z_ascending.
  rewrite (py_sorted_perm Z.ltb false l), Hp.
  apply Permutation_sym, py_sorted_perm.
Qed.

Section PercentileOrder.
Variable num : Type.
Variable of_int : Z -> num.
Variables mul add sub : num -> num -> num.
Variables floor ceil trunc : num -> result Z.

Lemma percentile_gen_perm (values values' : list Z) (p : num) :
  Permutation values values' ->
  percentile_gen of_int mul add sub floor ceil trunc values p =
  percentile_gen of_int mul add sub floor ceil trunc values' p.
Proof.
  intros Hp.
  assert (Hlen : len values = len values').
  { unfold len. f_equal. apply Permutation_length. exact Hp. }
  destruct values as [|v vs].
  - apply Permutation_nil in Hp. subst. reflexivity.
  - destruct values' as [|v' vs'].
    + apply Permutation_sym, Permutation_nil in Hp. discriminate.
    + unfold percentile_gen. rewrite <- Hlen.
      destruct (len (v :: vs) =? 1) eqn:E1.
      * apply Z.eqb_eq in E1. destruct vs; [|unfold len in E1; simpl in E1; lia].
        apply Permutation_length_1_inv in Hp. rewrite Hp. reflexivity.
      * rewrite (py_sorted_Z_perm Hp). reflexivity.
Qed.
End PercentileOrder.

(** The onset estimate is a function of the multiset of days: listing the
    same observations in another order gives the same result, or the same
    error, in exact arithmetic and in binary64 alike. *)
Theorem percentile_order_independent (values values' : list Z) (p : Q) (pf : float) :
  Permutation values values' ->
  percentile values p = percentile values' p /\
  B64.percentile values pf = B64.percentile values' pf.
Proof.
  intros Hp. split; apply percentile_gen_perm; exact Hp.
Qed.

Lemma percentile_order_independent_witness :
  percentile [60; 58; 75] 0.2 = percentile [58; 60; 75] 0.2 /\
  B64.percentile [60; 58; 75] B64.p20 = B64.percentile [58; 60; 75] B64.p20.
Proof.
  apply (@percentile_order_independent [60; 58; 75] [58; 60; 75] 0.2%Q B64.p20).
  apply perm_swap.
Defined.

(** ** The shape of a summary *)

Lemma py_range_len (a b : Z) : len (py_range a b) = Z.max 0 (b - a).
Proof.
  unfold py_range, len. rewrite length_map, length_seq. lia.
Qed.

Lemma filter_len_le {A : Type} (f : A -> bool) (l : list A) : len (filter f l) <= len l.
Proof.
  unfold len. pose proof (filter_length_le f l). lia.
Qed.

Lemma filter_len_mono {A : Type} (f g : A -> bool) (l : list A) :
  (forall x, In x l -> f x = true -> g x = true) ->
  len (filter f l) <= len (filter g l).
Proof.
  unfold len. induction l as [|x l IH]; intros H; simpl; [lia|].
  assert (IH' : Z.of_nat (List.length (filter f l)) <= Z.of_nat (List.length (filter g l))).
  { apply IH. intros y Hy. apply H. right. exact Hy. }
  destruct (f x) eqn:Ef.
  - rewrite (H x (or_introl eq_refl) Ef). simpl. lia.
  - destruct (g x); simpl; lia.
Qed.

(** The baseline onsets are those of the years with enough observations. *)
Lemma baseline_onsets_of_len (year_map : dict Z (list Z)) (min_year_obs : Z)
    (years : list Z) (onsets : list Q) :
  baseline_onsets_of year_map min_year_obs years = inr onsets ->
  len onsets =
    len (filter (fun y => min_year_obs <=? len (dict_get Z.eqb year_map y [])) years).
Proof.
  revert onsets. induction years as [|y years IH]; simpl; intros onsets H.
  - injection H as <-. reflexivity.
  - destruct (min_year_obs <=? len (dict_get Z.eqb year_map y [])).
    + destruct (percentile _ _) as [e|o]; [discriminate H|]. cbn [bind] in H.
      destruct (baseline_onsets_of _ _ years) as [e|rest]; [discriminate H|].
      cbn [bind ret] in H. injection H as <-.
      specialize (IH rest eq_refl). unfold len in *. simpl. lia.
    + apply IH. exact H.
Qed.

Lemma eval_group_baseline_years (CURRENT_DATE : date) (current_obs_map : dict string Z)
    (min_year_obs min_baseline_years : Z) (group_name : string)
    (year_map : dict Z (list Z)) (row : ZoneResult.t) :
  eval_group CURRENT_DATE current_obs_map min_year_obs min_baseline_years
    group_name year_map = inr (Some row) ->
  ZoneResult.zone row = group_name /\
  min_baseline_years <= ZoneResult.baseline_years row /\
  ZoneResult.baseline_years row =
    len (filter (fun y => min_year_obs <=? len (dict_get Z.eqb year_map y []))
           (py_range (BASELINE_START_YEAR CURRENT_DATE)
                     (BASELINE_END_YEAR CURRENT_DATE + 1))).
Proof.
  intros H. apply eval_group_inv in H.
  destruct H as (onsets & Honsets & [[_ H]|(Hmin & baseline & _ & H)]);
    [discriminate H|].
  apply baseline_onsets_of_len in Honsets.
  cbv zeta in H.
  destruct H as [[_ H]|(_ & c & _ & H)]; injection H as ->;
    unfold row_of; cbn [ZoneResult.zone ZoneResult.baseline_years];
    repeat split; try assumption; lia.
Qed.

Lemma baseline_window_len (CURRENT_DATE : date) :
  len (py_range (BASELINE_START_YEAR CURRENT_DATE)
                (BASELINE_END_YEAR CURRENT_DATE + 1)) = 9.
Proof.
  rewrite py_range_len. unfold BASELINE_START_YEAR, BASELINE_END_YEAR. lia.
Qed.

Lemma eval_at_thresholds (CURRENT_DATE : date) (lv : level) (t : tallies)
    (rows : list ZoneResult.t) (row : ZoneResult.t) :
  eval_at CURRENT_DATE lv t = inr rows -> In row rows ->
  4 <= ZoneResult.baseline_years row <= 9.
Proof.
  intros Hrows Hrow.
  assert (H : exists current_obs_map min_year_obs g ym,
            eval_group CURRENT_DATE current_obs_map min_year_obs 4 g ym
            = inr (Some row)).
  { destruct lv; unfold eval_at in Hrows;
      destruct (eval_groups_In _ _ _ _ _ _ Hrows Hrow) as (g & ym & _ & He);
      eauto. }
  destruct H as (com & myo & g & ym & He).
  apply eval_group_baseline_years in He. destruct He as (_ & Hmin & Hlen).
  split; [exact Hmin|].
  rewrite Hlen, <- (baseline_window_len CURRENT_DATE). apply filter_len_le.
Qed.

(** Every Zone Result of a summary rests on 4 to 9 baseline years, and
    counts no more current observations than the species has in all. *)
Theorem summary_row_bounds (CURRENT_DATE : date)
    (species_name common_name : string) (taxon_id : Z) (taxon_url : string)
    (photo_url : option string) (observations : list Observation)
    (s : Species.t) (row : ZoneResult.t) :
  summarize_species CURRENT_DATE species_name common_name taxon_id taxon_url
    photo_url observations = inr (Some s) ->
  In row (Species.zones s) ->
  4 <= ZoneResult.baseline_years row <= 9 /\
  0 <= ZoneResult.current_obs row <= Species.current_obs_total s.
Proof.
  intros H Hrow. apply summarize_species_Some in H.
  destruct H as (lv & rows & Hrows & _ & ->).
  unfold summary_of in Hrow |- *.
  cbn [Species.zones Species.current_obs_total] in *.
  apply py_sorted_In in Hrow.
  split; [eapply eval_at_thresholds; eassumption|].
  destruct (@eval_at_rows CURRENT_DATE observations lv rows row Hrows Hrow)
    as ((_ & Hcount & _) & _).
  rewrite Hcount. split; [apply len_nonneg|].
  unfold tally_all.
  destruct (tally_fields CURRENT_DATE observations no_tallies)
    as (_ & _ & _ & _ & _ & Hstate).
  cbn zeta in Hstate. rewrite Hstate. cbn [current_obs_state no_tallies].
  rewrite state_count_spec. apply filter_len_mono.
  intros o _ Ho. apply andb_true_iff in Ho. apply Ho.
Qed.

Lemma summary_row_bounds_witness :
  let row :=
    ZoneResult.mk "west-low" (py_round 71 1) (Some (py_round 60 1)) (py_round (-11) 1)
      "early" 5 1 true in
  4 <= ZoneResult.baseline_years row <= 9 /\
  0 <= ZoneResult.current_obs row <=
    Species.current_obs_total
      (summary_or larger_anomaly
         (example_run (example_baseline ++ [example_obs 2026 3 1 50])%list)).
Proof.
  apply (@summary_row_bounds example_today
           "Trillium ovatum" "Pacific trillium" 1 "https://www.inaturalist.org/taxa/1"
           None (example_baseline ++ [example_obs 2026 3 1 50])%list).
  - vm_compute. reflexivity.
  - vm_compute. left. reflexivity.
Defined.

(** The keys a row can carry under each granularity. *)
Definition group_keys (granularity : string) : list string :=
  if (granularity =? "zone")%string then
    ["east-low"; "east-mid"; "east-high"; "east-unknown";
     "west-low"; "west-mid"; "west-high"; "west-unknown"]
  else if (granularity =? "side")%string then ["east"; "west"]
  else ["statewide"].

Lemma zone_of_in_keys (o : Observation) : In (zone_of o) (group_keys "zone").
Proof.
  unfold zone_of, side_of_cascades, elevation_band.
  destruct (Qlt_bool _ _); destruct (elev_m o) as [e|];
    try destruct (Qlt_bool e 500); try destruct (Qlt_bool e 1200);
    cbn; tauto.
Qed.

Lemma eval_groups_zone_names (CURRENT_DATE : date)
    (year_maps : dict string (dict Z (list Z))) (current_obs_map : dict string Z)
    (min_year_obs min_baseline_years : Z) (rows : list ZoneResult.t) :
  NoDup (map fst year_maps) ->
  eval_groups CURRENT_DATE year_maps current_obs_map min_year_obs min_baseline_years
    = inr rows ->
  NoDup (map ZoneResult.zone rows) /\
  incl (map ZoneResult.zone rows) (map fst year_maps).
Proof.
  revert rows. induction year_maps as [|[g ym] yms IH]; simpl; intros rows Hnd H.
  - injection H as <-. split; [constructor|intros x []].
  - inversion Hnd as [|? ? Hnotin Hnd']; subst.
    destruct (eval_group _ _ _ _ g ym) as [e|r] eqn:Er; [discriminate|].
    cbn [bind] in H.
    destruct (eval_groups _ yms _ _ _) as [e|rows'] eqn:Ers; [discriminate|].
    cbn [bind ret] in H. injection H as <-.
    destruct (IH rows' Hnd' eq_refl) as (Hnd'' & Hincl).
    destruct r as [r|].
    + apply eval_group_baseline_years in Er. destruct Er as (Hz & _).
      cbn [map]. rewrite Hz. split.
      * constructor; [|exact Hnd'']. intros Hin. apply Hnotin, Hincl, Hin.
      * intros x [<-|Hx]; [left; reflexivity|right; apply Hincl, Hx].
    + split; [exact Hnd''|]. intros x Hx. right. apply Hincl, Hx.
Qed.

Lemma eval_at_distinct (CURRENT_DATE : date) (observations : list Observation)
    (lv : level) (rows : list ZoneResult.t) :
  eval_at CURRENT_DATE lv (tally_all CURRENT_DATE observations) = inr rows ->
  NoDup (map ZoneResult.zone rows) /\
  incl (map ZoneResult.zone rows) (group_keys (level_name lv)).
Proof.
  intros Hrows. split.
  - unfold tally_all in Hrows.
    destruct (tally_fields CURRENT_DATE observations no_tallies)
      as (Hz & Hs & _).
    cbn zeta in *. cbn [by_zone_year by_side_year no_tallies] in *.
    destruct lv; unfold eval_at in Hrows.
    + rewrite Hz in Hrows. eapply eval_groups_zone_names; [|exact Hrows].
      apply group_fold_spec.
    + rewrite Hs in Hrows. eapply eval_groups_zone_names; [|exact Hrows].
      apply group_fold_spec.
    + eapply eval_groups_zone_names; [|exact Hrows].
      repeat constructor. intros [].
  - intros z Hz. apply in_map_iff in Hz. destruct Hz as (r & <- & Hr).
    destruct (@eval_at_rows CURRENT_DATE observations lv rows r Hrows Hr) as (_ & Hkey).
    destruct lv; cbn [level_name].
    + destruct Hkey as (o & _ & ->). apply zone_of_in_keys.
    + destruct Hkey as [-> | ->]; cbn; tauto.
    + rewrite Hkey. cbn. tauto.
Qed.

(** A summary has at least one Zone Result and at most one per group of
    its granularity (8 zones, 2 sides, 1 state), no two for the same group;
    [zones_used] is their number. *)
Theorem summary_zones_used_bounds (CURRENT_DATE : date)
    (species_name common_name : string) (taxon_id : Z) (taxon_url : string)
    (photo_url : option string) (observations : list Observation) (s : Species.t) :
  summarize_species CURRENT_DATE species_name common_name taxon_id taxon_url
    photo_url observations = inr (Some s) ->
  Species.zones_used s = len (Species.zones s) /\
  1 <= Species.zones_used s <= len (group_keys (Species.granularity s)) /\
  NoDup (map ZoneResult.zone (Species.zones s)) /\
  incl (map ZoneResult.zone (Species.zones s)) (group_keys (Species.granularity s)).
Proof.
  intros H. apply summarize_species_Some in H.
  destruct H as (lv & rows & Hrows & Hne & ->).
  unfold summary_of.
  cbn [Species.zones Species.zones_used Species.granularity].
  destruct (eval_at_distinct _ _ _ Hrows) as (Hnd & Hincl).
  set (sorted := py_sorted _ true rows).
  assert (Hperm : Permutation sorted rows) by apply py_sorted_perm.
  assert (Hlen : len sorted = len rows)
    by (unfold len; f_equal; apply Permutation_length; exact Hperm).
  repeat split.
  - symmetry. exact Hlen.
  - destruct rows; [congruence|]. unfold len. simpl. lia.
  - pose proof (NoDup_incl_length Hnd Hincl) as Hle.
    rewrite length_map in Hle. unfold len. lia.
  - apply (Permutation_NoDup (Permutation_map _ (Permutation_sym Hperm))). exact Hnd.
  - intros z Hz. apply Hincl.
    apply (Permutation_in _ (Permutation_map _ Hperm)). exact Hz.
Qed.

Lemma summary_zones_used_bounds_witness :
  let s := summary_or larger_anomaly (example_run example_sparse) in
  Species.zones_used s = len (Species.zones s) /\
  1 <= Species.zones_used s <= len (group_keys (Species.granularity s)) /\
  NoDup (map ZoneResult.zone (Species.zones s)) /\
  incl (map ZoneResult.zone (Species.zones s)) (group_keys (Species.granularity s)).
Proof.
  apply (@summary_zones_used_bounds example_today
           "Trillium ovatum" "Pacific trillium" 1 "https://www.inaturalist.org/taxa/1"
           None example_sparse).
  vm_compute. reflexivity.
Defined.

(** ** When a species is dropped *)

(** The baseline years in which at least [k] observations were made. *)
Definition years_with_at_least (CURRENT_DATE : date) (k : Z)
    (observations : list Observation) : list Z :=
  filter (fun y => k <=? len (filter (fun o => year_of o =? y) observations))
    (py_range (BASELINE_START_YEAR CURRENT_DATE) (BASELINE_END_YEAR CURRENT_DATE + 1)).

Definition level_min_year_obs (lv : level) : Z :=
  match lv with
  | AtZone => 3
  | AtSide | AtState => 2
  end.

Section Dropped.
Variable CURRENT_DATE : date.
Variable observations : list Observation.

Lemma rows_of_groups_baseline (key : Observation -> string)
    (year_maps : dict string (dict Z (list Z))) (current_obs_map : dict string Z)
    (min_year_obs min_baseline_years : Z)
    (rows : list ZoneResult.t) (r : ZoneResult.t) :
  NoDup (map fst year_maps) ->
  (forall g y, In g (map fst year_maps) ->
     dict_get Z.eqb (dict_get String.eqb year_maps g []) y [] =
       map doy_of (filter (fun o => (key o =? g)%string && (year_of o =? y))
                     observations)) ->
  eval_groups CURRENT_DATE year_maps current_obs_map min_year_obs min_baseline_years
    = inr rows ->
  In r rows ->
  ZoneResult.baseline_years r <=
    len (filter (fun y => min_year_obs <=?
                            len (filter (fun o => year_of o =? y) observations))
           (py_range (BASELINE_START_YEAR CURRENT_DATE)
                     (BASELINE_END_YEAR CURRENT_DATE + 1))).
Proof.
  intros Hnd Hget Hrows Hr.
  destruct (@eval_groups_In CURRENT_DATE year_maps current_obs_map
              min_year_obs min_baseline_years rows r Hrows Hr)
    as (g & ym & Hg & He).
  assert (Hkey : In g (map fst year_maps)) by (apply (in_map fst) in Hg; exact Hg).
  assert (Hym : dict_get String.eqb year_maps g [] = ym)
    by (apply (dict_get_In String.eqb String.eqb_eq); assumption).
  apply eval_group_baseline_years in He. destruct He as (_ & _ & ->).
  apply filter_len_mono. intros y _ Hy.
  apply Z.leb_le in Hy. apply Z.leb_le.
  rewrite <- Hym, (Hget g y Hkey) in Hy.
  unfold len in Hy. rewrite length_map in Hy. fold (len (filter
    (fun o => (key o =? g)%string && (year_of o =? y)) observations)) in Hy.
  etransitivity; [exact Hy|]. apply filter_len_mono.
  intros o _ Ho. apply andb_true_iff in Ho. apply Ho.
Qed.

(** A row of any of the three evaluations has no more baseline years than
    there are years with that evaluation's minimum of observations
    statewide. *)
Lemma eval_at_baseline_le (lv : level) (rows : list ZoneResult.t) (r : ZoneResult.t) :
  eval_at CURRENT_DATE lv (tally_all CURRENT_DATE observations) = inr rows ->
  In r rows ->
  ZoneResult.baseline_years r <=
    len (years_with_at_least CURRENT_DATE (level_min_year_obs lv) observations).
Proof.
  unfold tally_all, years_with_at_least.
  destruct (tally_fields CURRENT_DATE observations no_tallies)
    as (Hz & Hs & Ht & _).
  cbn zeta in *. cbn [by_zone_year by_side_year by_state_year no_tallies] in *.
  destruct lv; unfold eval_at; cbn [level_min_year_obs].
  - rewrite Hz. intros Hrows Hr.
    destruct (group_fold_spec zone_of observations) as (Hnd & Hget & _).
    exact (@rows_of_groups_baseline zone_of _ _ 3 4 rows r Hnd
             (fun g y _ => Hget g y) Hrows Hr).
  - rewrite Hs. intros Hrows Hr.
    destruct (group_fold_spec (fun o => side_of_cascades (lat o) (lon o)) observations)
      as (Hnd & Hget & _).
    exact (@rows_of_groups_baseline (fun o => side_of_cascades (lat o) (lon o))
             _ _ 2 4 rows r Hnd (fun g y _ => Hget g y) Hrows Hr).
  - rewrite Ht. intros Hrows Hr.
    eapply (@rows_of_groups_baseline (fun _ => "statewide") _ _ 2 4 rows r);
      [| |exact Hrows|exact Hr].
    + repeat constructor. intros [].
    + intros g y [<-|[]]. cbn [dict_get String.eqb Ascii.eqb Bool.eqb fst snd].
      rewrite state_fold_spec. reflexivity.
Qed.

(** The statewide evaluation admits its one group exactly when at least 4
    baseline years have 2 observations or more. *)
Lemma eval_at_state_empty (rows : list ZoneResult.t) :
  eval_at CURRENT_DATE AtState (tally_all CURRENT_DATE observations) = inr rows ->
  (rows = [] <-> len (years_with_at_least CURRENT_DATE 2 observations) < 4).
Proof.
  unfold tally_all, years_with_at_least, eval_at.
  destruct (tally_fields CURRENT_DATE observations no_tallies)
    as (_ & _ & Ht & _).
  cbn zeta in *. cbn [by_state_year no_tallies] in *. rewrite Ht.
  cbn [eval_groups].
  destruct (eval_group _ _ _ _ _ _) as [e|r] eqn:Er; [discriminate|].
  cbn [bind ret]. intros H. injection H as <-.
  assert (Hsame : forall y,
            len (dict_get Z.eqb
                   (fold_left (fun d o => append_doy (year_of o) (doy_of o) d)
                      observations []) y [])
            = len (filter (fun o => year_of o =? y) observations)).
  { intros y. rewrite state_fold_spec. unfold len. rewrite length_map. reflexivity. }
  destruct r as [r|].
  - apply eval_group_baseline_years in Er. destruct Er as (_ & Hmin & Hlen).
    rewrite Hlen in Hmin.
    erewrite filter_ext in Hmin; [|intros y; rewrite Hsame; reflexivity].
    split; [discriminate|]. intros Hlt. lia.
  - split; [intros _|reflexivity].
    apply eval_group_inv in Er.
    destruct Er as (onsets & Honsets & [[Hlt _]|(_ & b & _ & [[_ H]|(_ & c & _ & H)])]);
      try discriminate H.
    apply baseline_onsets_of_len in Honsets. rewrite Honsets in Hlt.
    erewrite filter_ext in Hlt; [exact Hlt|].
    intros y. cbv beta. rewrite Hsame. reflexivity.
Qed.
End Dropped.

(** A species gets no summary exactly when fewer than 4 of the 9 baseline
    years have at least 2 observations statewide: whenever a zone or a
    side qualifies, so does the state. *)
Theorem species_dropped_iff (CURRENT_DATE : date)
    (species_name common_name : string) (taxon_id : Z) (taxon_url : string)
    (photo_url : option string) (observations : list Observation) :
  summarize_species CURRENT_DATE species_name common_name taxon_id taxon_url
    photo_url observations = inr None <->
  len (years_with_at_least CURRENT_DATE 2 observations) < 4.
Proof.
  unfold summarize_species.
  destruct (@summarize_species_logged_spec CURRENT_DATE species_name common_name
              taxon_id taxon_url photo_url observations)
    as (zr & sr & st & Hz & Hs & Ht & ->).
  cbn [bind ret].
  pose proof (eval_at_state_empty _ _ Ht) as Hstate.
  assert (Hmono : len (years_with_at_least CURRENT_DATE 3 observations)
                  <= len (years_with_at_least CURRENT_DATE 2 observations)).
  { unfold years_with_at_least. apply filter_len_mono.
    intros y _ Hy. apply Z.leb_le in Hy. apply Z.leb_le. lia. }
  split.
  - intros H. apply Hstate.
    destruct zr; [destruct sr; [destruct st|]|]; cbn [outcome fst] in H;
      try reflexivity; discriminate H.
  - intros Hlt.
    assert (Hnone : forall lv rows,
              eval_at CURRENT_DATE lv (tally_all CURRENT_DATE observations) = inr rows ->
              rows = []).
    { intros lv rows Hrows. destruct rows as [|r rows]; [reflexivity|]. exfalso.
      pose proof (@eval_at_thresholds CURRENT_DATE lv _ _ r Hrows (or_introl eq_refl))
        as [H4 _].
      pose proof (@eval_at_baseline_le CURRENT_DATE observations lv _ r Hrows
                    (or_introl eq_refl)) as Hle.
      destruct lv; cbn [level_min_year_obs] in Hle; lia. }
    rewrite (Hnone _ _ Hz), (Hnone _ _ Hs), (Hnone _ _ Ht). reflexivity.
Qed.

(** ** The observations a summary lists, and the summaries selected *)

Lemma records_fold_spec (CURRENT_DATE : date) (observations : list Observation)
    (t0 : tallies) :
  current_obs_records (fold_left (tally CURRENT_DATE) observations t0) =
    (current_obs_records t0 ++ filter (counted CURRENT_DATE) observations)%list.
Proof.
  revert t0. induction observations as [|o l IH]; intros t0; cbn [fold_left filter].
  - rewrite app_nil_r. reflexivity.
  - rewrite IH. unfold tally, counted, year_of.
    destruct ((year (observed_on o) =? CURRENT_YEAR CURRENT_DATE)
              && date_le (observed_on o) CURRENT_DATE);
      cbn [current_obs_records]; [rewrite <- app_assoc|]; reflexivity.
Qed.

Ltac date_cases :=
  unfold date_lt, date_le;
  repeat match goal with
         | |- context [?x =? ?y] => destruct (Z.eqb_spec x y); simpl
         end;
  rewrite ?negb_true_iff, ?negb_false_iff, ?Z.ltb_lt, ?Z.ltb_ge, ?Z.leb_le, ?Z.leb_gt;
  intros; try lia.

Lemma date_lt_asym (a b : date) : date_lt a b = true -> date_lt b a = false.
Proof. date_cases. Qed.

Lemma date_lt_negtrans (a b c : date) :
  date_lt a b = false -> date_lt b c = false -> date_lt a c = false.
Proof. date_cases. Qed.

Lemma StronglySorted_app_inv {A : Type} (R : A -> A -> Prop) (l l' : list A) :
  StronglySorted R (l ++ l') ->
  StronglySorted R l /\ forall a b, In a l -> In b l' -> R a b.
Proof.
  induction l as [|x l IH]; simpl; intros H.
  - split; [constructor|intros a b []].
  - apply StronglySorted_inv in H. destruct H as [Hs Hx].
    destruct (IH Hs) as [Hl Hcross]. rewrite Forall_forall in Hx. split.
    + constructor; [exact Hl|]. apply Forall_forall. intros y Hy.
      apply Hx. apply in_or_app. left. exact Hy.
    + intros a b [<-|Ha] Hb; [|apply Hcross; assumption].
      apply Hx. apply in_or_app. right. exact Hb.
Qed.

Lemma py_take_len {A : Type} (l : list A) (n : Z) :
  len (py_take l n) = if n <? 0 then Z.max 0 (len l + n) else Z.min n (len l).
Proof.
  unfold py_take, len. destruct (Z.ltb_spec n 0); rewrite length_firstn; lia.
Qed.

(** A summary lists the 15 most recent of the observations it counted for
    the current year (all of them when there are fewer), the most recent
    first. *)
Theorem listed_observations_most_recent (CURRENT_DATE : date)
    (species_name common_name : string) (taxon_id : Z) (taxon_url : string)
    (photo_url : option string) (observations : list Observation) (s : Species.t) :
  summarize_species CURRENT_DATE species_name common_name taxon_id taxon_url
    photo_url observations = inr (Some s) ->
  let listed := Species.current_year_observations s in
  len listed = Z.min 15 (Species.current_obs_total s) /\
  StronglySorted (fun a b => date_le (observed_on b) (observed_on a) = true) listed /\
  exists rest,
    Permutation (listed ++ rest) (filter (counted CURRENT_DATE) observations) /\
    forall o o', In o listed -> In o' rest ->
                 date_le (observed_on o') (observed_on o) = true.
Proof.
  intros H. apply summarize_species_Some in H.
  destruct H as (lv & rows & _ & _ & ->).
  unfold summary_of.
  cbn [Species.current_year_observations Species.current_obs_total]. cbv zeta.
  unfold tally_all. rewrite records_fold_spec. cbn [current_obs_records no_tallies app].
  destruct (tally_fields CURRENT_DATE observations no_tallies)
    as (_ & _ & _ & _ & _ & Hstate).
  cbn zeta in Hstate. rewrite Hstate. cbn [current_obs_state no_tallies].
  rewrite state_count_spec.
  set (counted_obs := filter (counted CURRENT_DATE) observations).
  set (sorted := py_sorted (fun a b => date_lt (observed_on a) (observed_on b)) true
                   counted_obs).
  assert (Hsorted : StronglySorted
                      (fun a b => date_le (observed_on b) (observed_on a) = true) sorted).
  { unfold sorted, py_sorted.
    eapply StronglySorted_weaken;
      [|apply (@fold_insert_sorted _
                 (fun y x => date_lt (observed_on x) (observed_on y)))].
    - intros u w Huw. unfold in_order, date_lt in Huw.
      apply negb_false_iff in Huw. exact Huw.
    - intros a b. apply date_lt_asym.
    - intros a b c Hab Hbc. eapply date_lt_negtrans; eassumption. }
  destruct (py_take_prefix sorted 15) as (rest & Hsplit).
  rewrite Hsplit in Hsorted. apply StronglySorted_app_inv in Hsorted.
  destruct Hsorted as (Hlisted & Hcross).
  split; [|split; [exact Hlisted|]].
  - rewrite py_take_len. cbn [Z.ltb Z.compare]. unfold sorted.
    rewrite py_sorted_len. reflexivity.
  - exists rest. split; [|exact Hcross].
    rewrite <- Hsplit. apply py_sorted_perm.
Qed.

Lemma listed_observations_most_recent_witness :
  let s := summary_or larger_anomaly (example_run example_many_current) in
  let listed := Species.current_year_observations s in
  (len listed = Z.min 15 (Species.current_obs_total s) /\
   StronglySorted (fun a b => date_le (observed_on b) (observed_on a) = true) listed /\
   exists rest,
     Permutation (listed ++ rest) (filter (counted example_today) example_many_current) /\
     forall o o', In o listed -> In o' rest ->
                  date_le (observed_on o') (observed_on o) = true) /\
  Species.current_obs_total s = 20 /\
  map (fun o => day (observed_on o)) listed =
    [20; 19; 18; 17; 16; 15; 14; 13; 12; 11; 10; 9; 8; 7; 6].
Proof.
  split.
  - apply (@listed_observations_most_recent example_today
             "Trillium ovatum" "Pacific trillium" 1 "https://www.inaturalist.org/taxa/1"
             None example_many_current).
    vm_compute. reflexivity.
  - split; vm_compute; reflexivity.
Defined.

(** [pick_indicator_species] keeps the head of the ranking: the summaries
    selected are in descending key order, none left out has a greater key
    than one selected, and their number is [limit] when that many exist
    (a negative [limit] leaves out that many from the end instead). *)
Theorem pick_indicator_species_top (species_summaries : list Species.t) (limit : Z) :
  let picked := pick_indicator_species species_summaries limit in
  len picked =
    (if limit <? 0 then Z.max 0 (len species_summaries + limit)
     else Z.min limit (len species_summaries)) /\
  StronglySorted (fun u w => rank_lt u w = false) picked /\
  exists rest,
    Permutation (picked ++ rest) species_summaries /\
    forall p r, In p picked -> In r rest -> rank_lt p r = false.
Proof.
  cbv zeta. unfold pick_indicator_species.
  set (ranked := py_sorted rank_lt true species_summaries).
  pose proof (ranked_descending species_summaries) as Hsorted. fold ranked in Hsorted.
  destruct (py_take_prefix ranked limit) as (rest & Hsplit).
  rewrite Hsplit in Hsorted. apply StronglySorted_app_inv in Hsorted.
  destruct Hsorted as (Hpicked & Hcross).
  split; [|split; [exact Hpicked|]].
  - rewrite py_take_len. unfold ranked. rewrite py_sorted_len. reflexivity.
  - exists rest. split; [|exact Hcross].
    rewrite <- Hsplit. apply py_sorted_perm.
Qed.

(** ** The zone rollup *)

(** The order of [str]: the first unequal character decides, a proper
    prefix comes first. *)
Lemma string_compare_refl (a : string) : String.compare a a = Eq.
Proof.
  induction a as [|c a IH]; simpl; [reflexivity|].
  unfold Ascii.compare. rewrite N.compare_refl. exact IH.
Qed.

Lemma string_compare_lt_trans (a b c : string) :
  String.compare a b <> Gt -> String.compare b c <> Gt -> String.compare a c <> Gt.
Proof.
  revert b c. induction a as [|x a IH]; intros [|y b] [|z c]; simpl;
    try congruence.
  unfold Ascii.compare.
  destruct (N.compare_spec (N_of_ascii x) (N_of_ascii y)) as [Exy|Lxy|Gxy];
    destruct (N.compare_spec (N_of_ascii y) (N_of_ascii z)) as [Eyz|Lyz|Gyz];
    try congruence; intros Hab Hbc.
  - rewrite Exy, Eyz, N.compare_refl. eapply IH; eassumption.
  - rewrite Exy. apply N.compare_lt_iff in Lyz. rewrite Lyz. discriminate.
  - rewrite <- Eyz. apply N.compare_lt_iff in Lxy. rewrite Lxy. discriminate.
  - assert (H : (N_of_ascii x < N_of_ascii z)%N) by lia.
    apply N.compare_lt_iff in H. rewrite H. discriminate.
Qed.

Lemma string_ltb_asym (a b : string) : String.ltb a b = true -> String.ltb b a = false.
Proof.
  unfold String.ltb. rewrite (String.compare_antisym b a).
  destruct (String.compare a b); simpl; congruence.
Qed.

Lemma string_ltb_negtrans (a b c : string) :
  String.ltb a b = false -> String.ltb b c = false -> String.ltb a c = false.
Proof.
  unfold String.ltb. intros Hab Hbc.
  pose proof (@string_compare_lt_trans c b a) as H.
  rewrite (String.compare_antisym b c), (String.compare_antisym a b),
    (String.compare_antisym a c) in *.
  destruct (String.compare c b), (String.compare b a), (String.compare c a);
    simpl in *; try reflexivity; try discriminate;
    exfalso; apply H; congruence.
Qed.

Lemma string_ltb_total (a b : string) :
  String.ltb b a = false -> a <> b -> String.ltb a b = true.
Proof.
  unfold String.ltb. rewrite (String.compare_antisym a b). intros H Hne.
  destruct (String.compare b a) eqn:E; simpl in *; try reflexivity; try discriminate.
  exfalso. apply Hne. symmetry. apply String.compare_eq_iff. exact E.
Qed.

(** What a Zone Result adds to the rollup of its zone: value and weight. *)
Definition rollup_entry (z : ZoneResult.t) : Q * Z :=
  (ZoneResult.anomaly_days z, zone_weight z).

(** The Zone Results named [k] among those of the indicators, in the order
    the loops of lines 482-485 meet them. *)
Definition zone_members (indicators : list Species.t) (k : string)
    : list ZoneResult.t :=
  filter (fun z => (ZoneResult.zone z =? k)%string) (flat_map Species.zones indicators).

Lemma fold_left_sum_vw (values : list (Q * Z)) (a : Q) :
  (fold_left (fun acc vw => (acc + fst vw * inject_Z (snd vw))%Q) values a
   == a + sum_vw values)%Q.
Proof.
  revert a. induction values as [|x l IH]; intros a; cbn [fold_left].
  - simpl. lra.
  - rewrite IH, sum_vw_cons. lra.
Qed.

Lemma fold_left_sum_w (values : list (Q * Z)) (a : Z) :
  fold_left (fun acc vw => acc + snd vw) values a = a + sum_w values.
Proof.
  revert a. induction values as [|x l IH]; intros a; cbn [fold_left].
  - simpl. lia.
  - rewrite IH, sum_w_cons. lia.
Qed.

Lemma round_half_even_Qeq (x y : Q) : (x == y)%Q -> round_half_even x = round_half_even y.
Proof.
  intros H. unfold round_half_even. rewrite (Qfloor_comp x y H).
  assert (Hc : (x - inject_Z (Qfloor y) ?= 1 # 2)%Q = (y - inject_Z (Qfloor y) ?= 1 # 2)%Q).
  { apply Qcompare_comp; [rewrite H|]; reflexivity. }
  rewrite Hc. reflexivity.
Qed.

Lemma py_round_Qeq (x y : Q) (ndigits : Z) :
  (x == y)%Q -> py_round x ndigits = py_round y ndigits.
Proof.
  intros H. unfold py_round.
  rewrite (@round_half_even_Qeq (x * inject_Z (10 ^ ndigits))
             (y * inject_Z (10 ^ ndigits))) by (rewrite H; reflexivity).
  reflexivity.
Qed.

Lemma rollup_row_spec (k : string) (values : list (Q * Z)) :
  rollup_row (k, values) =
    ZoneRollup.mk k (py_round (weighted_mean values) 2)
      (classify_status (weighted_mean values)) (len values).
Proof.
  unfold rollup_row. rewrite fold_left_sum_w, Z.add_0_l.
  set (anomaly := if sum_w values =? 0 then 0%Q else _).
  assert (Hmean : (anomaly == weighted_mean values)%Q).
  { unfold anomaly, weighted_mean.
    destruct (sum_w values =? 0); [reflexivity|].
    rewrite fold_left_sum_vw. apply Qdiv_comp; [lra|reflexivity]. }
  rewrite (py_round_Qeq 2 Hmean), (classify_status_Qeq Hmean). reflexivity.
Qed.

Lemma values_total_collect (zs : list ZoneResult.t) (d : dict string (list (Q * Z))) :
  fold_right Z.add 0 (map (fun e => len (snd e)) (fold_left collect_zone zs d)) =
    fold_right Z.add 0 (map (fun e => len (snd e)) d) + len zs.
Proof.
  revert d. induction zs as [|z zs IH]; intros d; cbn [fold_left].
  - change (len (@nil ZoneResult.t)) with 0. lia.
  - rewrite IH.
    assert (Hstep : fold_right Z.add 0 (map (fun e => len (snd e)) (collect_zone d z)) =
                    fold_right Z.add 0 (map (fun e => len (snd e)) d) + 1).
    { unfold collect_zone. induction d as [|[k v] d IHd]; cbn [dict_update].
      - reflexivity.
      - destruct (String.eqb k (ZoneResult.zone z)); cbn [map fold_right snd].
        + rewrite len_app. change (len [(ZoneResult.anomaly_days z, zone_weight z)]) with 1.
          lia.
        + rewrite IHd. lia. }
    rewrite Hstep. unfold len. cbn [List.length]. lia.
Qed.

Lemma values_total_collect_data (indicators : list Species.t)
    (d : dict string (list (Q * Z))) :
  fold_right Z.add 0
    (map (fun e => len (snd e))
       (fold_left (fun zone_data sp => fold_left collect_zone (Species.zones sp) zone_data)
          indicators d)) =
    fold_right Z.add 0 (map (fun e => len (snd e)) d)
    + len (flat_map Species.zones indicators).
Proof.
  revert d. induction indicators as [|sp l IH]; intros d; cbn [fold_left flat_map].
  - change (len (@nil ZoneResult.t)) with 0. lia.
  - rewrite IH, values_total_collect, len_app. lia.
Qed.

Lemma sum_Z_perm (l l' : list Z) :
  Permutation l l' -> fold_right Z.add 0 l = fold_right Z.add 0 l'.
Proof. induction 1; simpl; lia. Qed.

(** The zone rollup is in strictly ascending order of its zone names, and
    its counts add up to the number of Zone Results of the indicators: each
    one is counted in exactly one row. *)
Theorem zone_rollup_order_and_count (indicators : list Species.t) :
  StronglySorted
    (fun a b => String.ltb (ZoneRollup.zone a) (ZoneRollup.zone b) = true)
    (build_zone_summary indicators) /\
  fold_right Z.add 0 (map ZoneRollup.species_count (build_zone_summary indicators)) =
    len (flat_map Species.zones indicators).
Proof.
  split.
  - destruct (build_zone_summary_zones indicators) as (Hnd & _).
    assert (Hsorted : StronglySorted
              (fun a b => String.ltb (ZoneRollup.zone b) (ZoneRollup.zone a) = false)
              (build_zone_summary indicators)).
    { unfold build_zone_summary, py_sorted. cbv zeta.
      apply (@fold_insert_sorted _
               (fun a b => String.ltb (ZoneRollup.zone a) (ZoneRollup.zone b))).
      - intros a b. apply string_ltb_asym.
      - intros a b c Hab Hbc. eapply string_ltb_negtrans; eassumption. }
    revert Hnd Hsorted. generalize (build_zone_summary indicators) as rows.
    induction rows as [|r rows IH]; intros Hnd Hsorted; [constructor|].
    cbn [map] in Hnd. inversion Hnd as [|? ? Hnotin Hnd']; subst.
    apply StronglySorted_inv in Hsorted. destruct Hsorted as [Hs Hr].
    constructor; [apply IH; assumption|].
    rewrite Forall_forall in Hr |- *. intros w Hw.
    apply string_ltb_total; [apply Hr; exact Hw|].
    intros Heq. apply Hnotin. rewrite Heq. apply in_map. exact Hw.
  - unfold build_zone_summary. cbv zeta.
    rewrite (sum_Z_perm (Permutation_map ZoneRollup.species_count
                           (py_sorted_perm _ false _))).
    rewrite map_map.
    rewrite (map_ext (fun x => ZoneRollup.species_count (rollup_row x))
               (fun e => len (snd e)))
      by (intros [k values]; rewrite rollup_row_spec; reflexivity).
    unfold collect_zone_data. rewrite values_total_collect_data.
    cbn [map fold_right]. lia.
Qed.

(** ** Days of the year and the order of dates *)

(** The dates a [datetime.date] can hold. *)
Definition valid_date (d : date) : Prop :=
  1 <= month d <= 12 /\ 1 <= day d <= days_in_month (year d) (month d).

(** The days of the year before the first of month [m]. *)
Definition days_before_month (y m : Z) : Z :=
  nth (Z.to_nat (m - 1)) [0; 31; 59; 90; 120; 151; 181; 212; 243; 273; 304; 334] 0
  + (if (2 <? m) && is_leap y then 1 else 0).

Ltac compute_months :=
  repeat match goal with
         | |- context [py_range 1 ?k] =>
             let r := eval vm_compute in (py_range 1 k) in
             change (py_range 1 k) with r
         | |- context [Z.to_nat ?e] =>
             let r := eval vm_compute in (Z.to_nat e) in
             change (Z.to_nat e) with r
         end;
  cbn -[Z.add] in *.

Lemma day_of_year_table (y m d : Z) :
  1 <= m <= 12 -> day_of_year (mk_date y m d) = days_before_month y m + d.
Proof.
  intros Hm.
  assert (H : In m [1; 2; 3; 4; 5; 6; 7; 8; 9; 10; 11; 12]) by (simpl; lia).
  simpl in H.
  unfold day_of_year, days_before_month, days_in_month. cbn [year month day].
  remember (is_leap y) as leap eqn:E. clear E.
  repeat (destruct H as [<-|H]; [compute_months; destruct leap; lia|]).
  contradiction.
Qed.

(** Within one year, dates are ordered as their days of the year are, and
    the day of the year runs from 1 to 365, or 366 in a leap year. *)
Theorem day_of_year_orders_dates (a b : date) :
  valid_date a -> valid_date b -> year a = year b ->
  1 <= day_of_year a <= (if is_leap (year a) then 366 else 365) /\
  (date_le a b = true <-> day_of_year a <= day_of_year b).
Proof.
  destruct a as [y ma da], b as [y' mb db]. unfold valid_date, date_le.
  cbn [year month day]. intros (Hma & Hda) (Hmb & Hdb) <-.
  rewrite !day_of_year_table by assumption. rewrite Z.eqb_refl. cbn [negb].
  assert (Ha : In ma [1; 2; 3; 4; 5; 6; 7; 8; 9; 10; 11; 12]) by (simpl; lia).
  assert (Hb : In mb [1; 2; 3; 4; 5; 6; 7; 8; 9; 10; 11; 12]) by (simpl; lia).
  clear Hma Hmb. unfold days_before_month, days_in_month in *. simpl in Ha, Hb.
  remember (is_leap y) as leap eqn:E. clear E.
  repeat (destruct Ha as [<-|Ha]; [
    repeat (destruct Hb as [<-|Hb]; [
      compute_months; destruct leap;
      rewrite ?Z.leb_le; split; try lia; split; intros; try lia; try reflexivity;
      try discriminate|]);
    contradiction|]).
  contradiction.
Qed.

Lemma day_of_year_orders_dates_witness :
  1 <= day_of_year (mk_date 2024 2 29) <= (if is_leap 2024 then 366 else 365) /\
  (date_le (mk_date 2024 2 29) (mk_date 2024 3 1) = true <->
   day_of_year (mk_date 2024 2 29) <= day_of_year (mk_date 2024 3 1)).
Proof.
  apply (@day_of_year_orders_dates (mk_date 2024 2 29) (mk_date 2024 3 1)).
  - unfold valid_date. vm_compute. repeat split; discriminate.
  - unfold valid_date. vm_compute. repeat split; discriminate.
  - reflexivity.
Defined.

(** * Fetching *)

(** ** fetch_json (analyze_spring.py lines 74-99) *)

(** The exceptions a request can end in: an [HTTPError] with its status
    code, a [URLError] that is not an [HTTPError], or any other. *)
Inductive fetch_exn : Type :=
| HTTPError (code : Z)
| URLError
| OtherError.

(** What a call has done when it ends: the payload returned or the
    exception raised, the number of requests made, and the arguments of
    [time.sleep] in order. *)
Record fetched (payload : Type) : Type := mk_fetched {
  ending : fetch_exn + payload;
  requests : Z;
  slept : list Q
}.

(** [min(a, b)] *)
Definition py_min (a b : Q) : Q := if Qlt_bool b a then b else a.

Section FetchJson.
Variable payload : Type.
(** What the request of each attempt comes to: [urlopen] and [json.load]
    give a payload or raise. *)
Variable replies : Z -> fetch_exn + payload.
Variable pause_s : Q.

(** The loop of lines 80-99, entered with [attempt] requests made. *)
Fixpoint fetch_json_from (fuel : nat) (attempt : Z) (slept : list Q)
    : option (fetched payload) :=
  match fuel with
  | O => None
  | S fuel' =>
      let attempt := attempt + 1 in
      match replies attempt with
      | inr p => Some (mk_fetched (inr p) attempt (slept ++ [pause_s])%list)
      | inl (HTTPError code) =>
          if (code =? 429) && (attempt <? 7) then
            let delay := py_min 60 (2 * inject_Z attempt) in
            fetch_json_from fuel' attempt (slept ++ [delay])%list
          else Some (mk_fetched (inl (HTTPError code)) attempt slept)
      | inl URLError =>
          if attempt <? 5 then
            let delay := (1.5 * inject_Z attempt)%Q in
            fetch_json_from fuel' attempt (slept ++ [delay])%list
          else Some (mk_fetched (inl URLError) attempt slept)
      | inl OtherError => Some (mk_fetched (inl OtherError) attempt slept)
      end
  end.

Definition fetch_json (fuel : nat) : option (fetched payload) :=
  fetch_json_from fuel 0 [].

(** Whether the reply to attempt [k] leads to another attempt, and the
    time slept before it. *)
Definition retried (k : Z) (reply : fetch_exn + payload) : bool :=
  match reply with
  | inl (HTTPError code) => (code =? 429) && (k <? 7)
  | inl URLError => k <? 5
  | _ => false
  end.

Definition delay_at (k : Z) : Q :=
  match replies k with
  | inl (HTTPError _) => (2 * inject_Z k)%Q
  | inl URLError => (1.5 * inject_Z k)%Q
  | _ => 0%Q
  end.

Definition final_pause (o : fetch_exn + payload) : list Q :=
  match o with
  | inr _ => [pause_s]
  | inl _ => []
  end.

Lemma py_range_cons (a b : Z) : a < b -> py_range a b = a :: py_range (a + 1) b.
Proof.
  intros H. unfold py_range.
  replace (Z.to_nat (b - a)) with (S (Z.to_nat (b - (a + 1)))) by lia.
  cbn [seq map]. f_equal; [lia|].
  rewrite <- seq_shift, map_map. apply map_ext. intros i. lia.
Qed.

Lemma py_range_empty (a b : Z) : b <= a -> py_range a b = [].
Proof.
  intros H. unfold py_range. replace (Z.to_nat (b - a)) with 0%nat by lia. reflexivity.
Qed.

Lemma py_min_cap (k : Z) : k < 7 -> py_min 60 (2 * inject_Z k) = (2 * inject_Z k)%Q.
Proof.
  intros H. unfold py_min.
  assert (E : Qlt_bool (2 * inject_Z k) 60 = true).
  { apply Qlt_bool_iff. change 60%Q with (2 * inject_Z 30)%Q.
    assert (Hk : (inject_Z k < inject_Z 30)%Q) by (rewrite <- Zlt_Qlt; lia). lra. }
  rewrite E. reflexivity.
Qed.

Lemma fetch_json_from_spec (fuel : nat) (attempt : Z) (slept0 : list Q) :
  0 <= attempt -> 7 <= attempt + Z.of_nat fuel -> (1 <= fuel)%nat ->
  exists r,
    fetch_json_from fuel attempt slept0 = Some r /\
    attempt < requests r /\ (requests r <= 7 \/ requests r = attempt + 1) /\
    ending r = replies (requests r) /\
    retried (requests r) (replies (requests r)) = false /\
    (forall k, attempt < k < requests r -> retried k (replies k) = true) /\
    slept r =
      (slept0 ++ map delay_at (py_range (attempt + 1) (requests r))
       ++ final_pause (ending r))%list.
Proof.
  revert attempt slept0.
  induction fuel as [|fuel IH]; intros attempt slept0 H0 H7 H1; [lia|].
  cbn [fetch_json_from]. cbv zeta.
  assert (Hstop : forall o sl,
            replies (attempt + 1) = o -> retried (attempt + 1) o = false ->
            sl = (slept0 ++ final_pause o)%list ->
            exists r,
              Some (mk_fetched o (attempt + 1) sl) = Some r /\
              attempt < requests r /\ (requests r <= 7 \/ requests r = attempt + 1) /\
              ending r = replies (requests r) /\
              retried (requests r) (replies (requests r)) = false /\
              (forall k, attempt < k < requests r -> retried k (replies k) = true) /\
              slept r =
                (slept0 ++ map delay_at (py_range (attempt + 1) (requests r))
                 ++ final_pause (ending r))%list).
  { intros o sl Ho Hr ->. eexists. split; [reflexivity|].
    cbn [requests ending slept]. rewrite Ho.
    rewrite (@py_range_empty (attempt + 1) (attempt + 1)) by lia.
    repeat split; try lia; try assumption; try reflexivity. }
  assert (Hgo : forall delay,
            retried (attempt + 1) (replies (attempt + 1)) = true ->
            delay = delay_at (attempt + 1) ->
            exists r,
              fetch_json_from fuel (attempt + 1) (slept0 ++ [delay])%list = Some r /\
              attempt < requests r /\ (requests r <= 7 \/ requests r = attempt + 1) /\
              ending r = replies (requests r) /\
              retried (requests r) (replies (requests r)) = false /\
              (forall k, attempt < k < requests r -> retried k (replies k) = true) /\
              slept r =
                (slept0 ++ map delay_at (py_range (attempt + 1) (requests r))
                 ++ final_pause (ending r))%list).
  { intros delay Hr ->.
    assert (Hlt : attempt + 1 < 7).
    { unfold retried in Hr. destruct (replies (attempt + 1)) as [[code| |]|p];
        try discriminate.
      - apply andb_true_iff in Hr. destruct Hr as [_ Hr]. apply Z.ltb_lt in Hr. exact Hr.
      - apply Z.ltb_lt in Hr. lia. }
    destruct (IH (attempt + 1) (slept0 ++ [delay_at (attempt + 1)])%list)
      as (r & Hr' & Hreq & Hmax & Hout & Hlast & Hbefore & Hslept); try lia.
    exists r. split; [exact Hr'|].
    split; [lia|]. split; [left; lia|]. split; [exact Hout|]. split; [exact Hlast|].
    split.
    - intros k Hk. destruct (Z.eq_dec k (attempt + 1)) as [->|Hne]; [exact Hr|].
      apply Hbefore. lia.
    - rewrite Hslept, (@py_range_cons (attempt + 1) (requests r)) by lia.
      cbn [map]. rewrite <- app_assoc. reflexivity. }
  destruct (replies (attempt + 1)) as [[code| |]|p] eqn:E.
  - destruct ((code =? 429) && (attempt + 1 <? 7)) eqn:Ec.
    + apply Hgo; [exact Ec|].
      unfold delay_at. rewrite E. apply py_min_cap.
      apply andb_true_iff in Ec. destruct Ec as [_ Ec]. apply Z.ltb_lt in Ec. exact Ec.
    + apply Hstop; [reflexivity|exact Ec|]. cbn [final_pause]. rewrite app_nil_r.
      reflexivity.
  - destruct (attempt + 1 <? 5) eqn:Ec.
    + apply Hgo; [exact Ec|]. unfold delay_at. rewrite E. reflexivity.
    + apply Hstop; [reflexivity|exact Ec|]. cbn [final_pause]. rewrite app_nil_r.
      reflexivity.
  - apply Hstop; [reflexivity|reflexivity|]. cbn [final_pause]. rewrite app_nil_r.
    reflexivity.
  - apply Hstop; reflexivity.
Qed.

Lemma fetch_json_from_more_fuel (fuel : nat) (attempt : Z) (slept0 : list Q)
    (r : fetched payload) :
  fetch_json_from fuel attempt slept0 = Some r ->
  fetch_json_from (S fuel) attempt slept0 = Some r.
Proof.
  revert attempt slept0. induction fuel as [|fuel IH]; intros attempt slept0 H;
    [discriminate H|].
  cbn [fetch_json_from] in H |- *. cbv zeta in H |- *.
  destruct (replies (attempt + 1)) as [[code| |]|p]; try exact H.
  - destruct ((code =? 429) && (attempt + 1 <? 7)); [|exact H].
    apply IH in H. exact H.
  - destruct (attempt + 1 <? 5); [|exact H]. apply IH in H. exact H.
Qed.

Lemma fetch_json_fuel (fuel : nat) (r : fetched payload) :
  fetch_json 7 = Some r -> (7 <= fuel)%nat -> fetch_json fuel = Some r.
Proof.
  intros H Hfuel. unfold fetch_json in *.
  induction Hfuel as [|fuel Hfuel IH]; [exact H|].
  apply fetch_json_from_more_fuel. exact IH.
Qed.

Lemma fetch_json_spec :
  exists r,
    fetch_json 7 = Some r /\
    1 <= requests r <= 7 /\
    ending r = replies (requests r) /\
    retried (requests r) (replies (requests r)) = false /\
    (forall k, 1 <= k < requests r -> retried k (replies k) = true) /\
    slept r =
      (map delay_at (py_range 1 (requests r)) ++ final_pause (ending r))%list.
Proof.
  destruct (@fetch_json_from_spec 7 0 [])
    as (r & Hr & Hreq & Hmax & Hout & Hlast & Hbefore & Hslept); try lia.
  exists r. split; [exact Hr|]. split; [lia|]. split; [exact Hout|].
  split; [exact Hlast|]. split; [|exact Hslept].
  intros k Hk. apply Hbefore. lia.
Qed.

Lemma delay_at_bounds (k : Z) :
  1 <= k -> (0 <= delay_at k <= 2 * inject_Z k)%Q.
Proof.
  intros Hk. unfold delay_at.
  assert (Hq : (inject_Z 1 <= inject_Z k)%Q) by (rewrite <- Zle_Qle; exact Hk).
  change (inject_Z 1) with 1%Q in Hq.
  destruct (replies k) as [[code| |]|p]; split; lra.
Qed.
End FetchJson.

(** [fetch_json] ends after 7 requests at most, whatever the replies: it
    makes requests until one is not retried, and returns or raises what
    that one came to.  A 429 is retried while fewer than 7 requests were
    made, a [URLError] while fewer than 5 were, anything else never; the
    two kinds of retry share the one count. *)
Theorem fetch_json_attempts (payload : Type) (replies : Z -> fetch_exn + payload)
    (pause_s : Q) :
  exists r,
    (forall fuel, (7 <= fuel)%nat -> fetch_json replies pause_s fuel = Some r) /\
    1 <= requests r <= 7 /\
    ending r = replies (requests r) /\
    retried (requests r) (replies (requests r)) = false /\
    (forall k, 1 <= k < requests r -> retried k (replies k) = true).
Proof.
  destruct (fetch_json_spec replies pause_s)
    as (r & Hr & Hreq & Hout & Hlast & Hbefore & _).
  exists r. split; [|repeat split; try assumption; lia].
  intros fuel Hfuel. apply fetch_json_fuel; assumption.
Qed.

(** The time slept in all. *)
Definition Qsum (l : list Q) : Q := fold_right Qplus 0%Q l.

(** The sleeps of a call: 2 s times the attempt number after a 429 and
    1.5 s times it after a [URLError] (the cap of 60 s is never reached),
    then [pause_s] when a payload is returned; 42 s and the pause at
    most. *)
Theorem fetch_json_sleeps (payload : Type) (replies : Z -> fetch_exn + payload)
    (pause_s : Q) (r : fetched payload) :
  fetch_json replies pause_s 7 = Some r ->
  slept r =
    (map (delay_at replies) (py_range 1 (requests r))
     ++ final_pause pause_s (ending r))%list /\
  (forall k, 1 <= k < requests r -> (0 <= delay_at replies k <= 12)%Q) /\
  ((0 <= pause_s)%Q -> (Qsum (slept r) <= 42 + pause_s)%Q).
Proof.
  intros H.
  destruct (fetch_json_spec replies pause_s)
    as (r' & Hr & Hreq & _ & _ & _ & Hslept).
  rewrite H in Hr. injection Hr as <-.
  split; [exact Hslept|]. split.
  - intros k Hk. destruct (@delay_at_bounds payload replies k) as (Hlo & Hhi); [lia|].
    assert (Hq : (inject_Z k <= inject_Z 6)%Q) by (rewrite <- Zle_Qle; lia).
    change (inject_Z 6) with 6%Q in Hq. split; lra.
  - intros Hpause. rewrite Hslept.
    assert (Htail : (0 <= Qsum (final_pause pause_s (ending r)) <= pause_s)%Q).
    { unfold Qsum. destruct (ending r); cbn [final_pause fold_right]; split; lra. }
    assert (Happ : forall l l', (Qsum (l ++ l') == Qsum l + Qsum l')%Q).
    { intros l l'. unfold Qsum.
      induction l as [|x l IH]; cbn [app fold_right]; [lra|]. rewrite IH. lra. }
    rewrite Happ. unfold Qsum in *.
    assert (Hd : forall k, 1 <= k ->
                 (0 <= delay_at replies k <= 2 * inject_Z k)%Q)
      by (intros k Hk; apply delay_at_bounds; exact Hk).
    pose proof (Hd 1 ltac:(lia)) as D1. pose proof (Hd 2 ltac:(lia)) as D2.
    pose proof (Hd 3 ltac:(lia)) as D3. pose proof (Hd 4 ltac:(lia)) as D4.
    pose proof (Hd 5 ltac:(lia)) as D5. pose proof (Hd 6 ltac:(lia)) as D6.
    change (inject_Z 1) with 1%Q in D1. change (inject_Z 2) with 2%Q in D2.
    change (inject_Z 3) with 3%Q in D3. change (inject_Z 4) with 4%Q in D4.
    change (inject_Z 5) with 5%Q in D5. change (inject_Z 6) with 6%Q in D6.
    assert (Hcases : In (requests r) [1; 2; 3; 4; 5; 6; 7]) by (simpl; lia).
    simpl in Hcases.
    repeat (destruct Hcases as [<-|Hcases]; [
      match goal with
      | |- context [py_range 1 ?n] =>
          let l := eval vm_compute in (py_range 1 n) in
          change (py_range 1 n) with l
      end;
      cbn [map fold_right]; lra|]).
    contradiction.
Qed.

Lemma fetch_json_sleeps_witness :
  let replies := fun k : Z => if k <? 3 then inl (HTTPError 429) else inr tt in
  let r := mk_fetched (inr tt) 3 [2 * inject_Z 1; 2 * inject_Z 2; 0.12]%Q in
  slept r =
    (map (delay_at replies) (py_range 1 (requests r))
     ++ final_pause 0.12 (ending r))%list /\
  (forall k, 1 <= k < requests r -> (0 <= delay_at replies k <= 12)%Q) /\
  ((0 <= 0.12)%Q -> (Qsum (slept r) <= 42 + 0.12)%Q).
Proof.
  apply (@fetch_json_sleeps unit
           (fun k : Z => if k <? 3 then inl (HTTPError 429) else inr tt) 0.12).
  reflexivity.
Defined.

(** ** fetch_species_observations (analyze_spring.py lines 164-195) and
       fetch_species_observations_for_baseline (plot_baseline_trend.py
       lines 34-65) *)

Definition PER_PAGE : Z := 200.
Definition MAX_RECORDS_PER_SPECIES : Z := 1400.
(** [MAX_RECORDS_PER_SPECIES] of [plot_baseline_trend.py]. *)
Definition BASELINE_MAX_RECORDS_PER_SPECIES : Z := 2000.

Section Pages.
Variable raw : Type.
(** [parse_observation(raw, species, taxon_id)] *)
Variable parse_observation : raw -> option Observation.
(** The ["results"] of the payload that [fetch_json] returns for each page
    of the query, or the exception it raises. *)
Variable results_of_page : Z -> fetch_exn + list raw.

(** The loop over the results of one page. *)
Fixpoint append_parsed (observations : list Observation) (results : list raw)
    : list Observation :=
  match results with
  | [] => observations
  | r :: results' =>
      match parse_observation r with
      | Some parsed => append_parsed (observations ++ [parsed]) results'
      | None => append_parsed observations results'
      end
  end.

(** The loop of [fetch_species_observations], entered at [page]. *)
Fixpoint fetch_species_observations_from (fuel : nat) (page : Z)
    (observations : list Observation) : option (fetch_exn + list Observation) :=
  match fuel with
  | O => None
  | S fuel' =>
      match results_of_page page with
      | inl e => Some (inl e)
      | inr results =>
          let observations := append_parsed observations results in
          if is_empty results || (len results <? PER_PAGE) then Some (inr observations)
          else if MAX_RECORDS_PER_SPECIES <=? len observations then
            Some (inr observations)
          else fetch_species_observations_from fuel' (page + 1) observations
      end
  end.

Definition fetch_species_observations (fuel : nat)
    : option (fetch_exn + list Observation) :=
  fetch_species_observations_from fuel 1 [].

(** The loop of [fetch_species_observations_for_baseline]. *)
Fixpoint fetch_species_observations_for_baseline_from (fuel : nat) (page : Z)
    (observations : list Observation) : option (fetch_exn + list Observation) :=
  match fuel with
  | O => None
  | S fuel' =>
      match results_of_page page with
      | inl e => Some (inl e)
      | inr results =>
          let observations := append_parsed observations results in
          if is_empty results || (len results <? PER_PAGE)
             || (BASELINE_MAX_RECORDS_PER_SPECIES <=? len observations)
          then Some (inr observations)
          else fetch_species_observations_for_baseline_from fuel' (page + 1) observations
      end
  end.

Definition fetch_species_observations_for_baseline (fuel : nat)
    : option (fetch_exn + list Observation) :=
  fetch_species_observations_for_baseline_from fuel 1 [].

(** The observations parsed from one page, and from the pages 1 to [k]. *)
Definition parsed (results : list raw) : list Observation :=
  flat_map (fun r => match parse_observation r with
                     | Some o => [o]
                     | None => []
                     end) results.

Definition page_results (j : Z) : list raw :=
  match results_of_page j with
  | inr results => results
  | inl _ => []
  end.

Definition collected (k : Z) : list Observation :=
  flat_map (fun j => parsed (page_results j)) (py_range 1 (k + 1)).

(** After page [j] the loop asks for the next page: the page was full and
    the cap is not reached. *)
Definition goes_on (max_records j : Z) : Prop :=
  (exists results, results_of_page j = inr results /\ PER_PAGE <= len results) /\
  len (collected j) < max_records.

(** Page [k] ends the loop: the request fails, the page is short, or the
    cap is reached. *)
Definition stops (max_records k : Z) : Prop :=
  match results_of_page k with
  | inl _ => True
  | inr results => len results < PER_PAGE \/ max_records <= len (collected k)
  end.

Definition ending_at (k : Z) : fetch_exn + list Observation :=
  match results_of_page k with
  | inl e => inl e
  | inr _ => inr (collected k)
  end.

(** Both loops, with the cap as a parameter. *)
Fixpoint fetch_pages (max_records : Z) (fuel : nat) (page : Z)
    (observations : list Observation) : option (fetch_exn + list Observation) :=
  match fuel with
  | O => None
  | S fuel' =>
      match results_of_page page with
      | inl e => Some (inl e)
      | inr results =>
          let observations := append_parsed observations results in
          if (len results <? PER_PAGE) || (max_records <=? len observations) then
            Some (inr observations)
          else fetch_pages max_records fuel' (page + 1) observations
      end
  end.

Lemma is_empty_short (results : list raw) :
  is_empty results || (len results <? PER_PAGE) = (len results <? PER_PAGE).
Proof. destruct results; reflexivity. Qed.

Lemma fetch_species_observations_from_pages (fuel : nat) (page : Z)
    (observations : list Observation) :
  fetch_species_observations_from fuel page observations =
    fetch_pages MAX_RECORDS_PER_SPECIES fuel page observations.
Proof.
  revert page observations. induction fuel as [|fuel IH]; intros page observations;
    [reflexivity|].
  cbn [fetch_species_observations_from fetch_pages].
  destruct (results_of_page page) as [e|results]; [reflexivity|]. cbv zeta.
  rewrite is_empty_short.
  destruct (len results <? PER_PAGE); [reflexivity|]. cbn [orb].
  destruct (MAX_RECORDS_PER_SPECIES <=? _); [reflexivity|]. apply IH.
Qed.

Lemma fetch_species_observations_for_baseline_from_pages (fuel : nat) (page : Z)
    (observations : list Observation) :
  fetch_species_observations_for_baseline_from fuel page observations =
    fetch_pages BASELINE_MAX_RECORDS_PER_SPECIES fuel page observations.
Proof.
  revert page observations. induction fuel as [|fuel IH]; intros page observations;
    [reflexivity|].
  cbn [fetch_species_observations_for_baseline_from fetch_pages].
  destruct (results_of_page page) as [e|results]; [reflexivity|]. cbv zeta.
  rewrite is_empty_short.
  destruct (_ || _); [reflexivity|]. apply IH.
Qed.

Lemma append_parsed_spec (observations : list Observation) (results : list raw) :
  append_parsed observations results = (observations ++ parsed results)%list.
Proof.
  revert observations. induction results as [|r l IH]; intros observations;
    cbn [append_parsed parsed flat_map].
  - rewrite app_nil_r. reflexivity.
  - fold (parsed l). destruct (parse_observation r); rewrite IH.
    + rewrite <- app_assoc. reflexivity.
    + reflexivity.
Qed.

Lemma parsed_len (results : list raw) : len (parsed results) <= len results.
Proof.
  induction results as [|r l IH]; cbn [parsed flat_map]; [reflexivity|].
  fold (parsed l). rewrite len_app.
  destruct (parse_observation r); unfold len in *; cbn [List.length]; lia.
Qed.

Lemma py_range_snoc (a b : Z) : a <= b -> py_range a (b + 1) = (py_range a b ++ [b])%list.
Proof.
  intros H. unfold py_range.
  replace (Z.to_nat (b + 1 - a)) with (Z.to_nat (b - a) + 1)%nat by lia.
  rewrite seq_app, map_app. cbn [seq map]. repeat f_equal. lia.
Qed.

Lemma collected_step (p : Z) (results : list raw) :
  1 <= p -> results_of_page p = inr results ->
  collected p = (collected (p - 1) ++ parsed results)%list.
Proof.
  intros Hp E. unfold collected.
  rewrite (@py_range_snoc 1 p) by lia. rewrite flat_map_app.
  replace (p - 1 + 1) with p by lia.
  cbn [flat_map]. unfold page_results at 2. rewrite E, app_nil_r. reflexivity.
Qed.

Lemma fetch_pages_spec (max_records : Z) (fuel : nat) (p k : Z) :
  1 <= p <= k -> k - p < Z.of_nat fuel ->
  (forall j, p <= j < k -> goes_on max_records j) -> stops max_records k ->
  fetch_pages max_records fuel p (collected (p - 1)) = Some (ending_at k).
Proof.
  revert p. induction fuel as [|fuel IH]; intros p Hp Hfuel Hgo Hstop; [lia|].
  cbn [fetch_pages].
  destruct (Z.eq_dec p k) as [->|Hne].
  - unfold stops in Hstop. unfold ending_at.
    destruct (results_of_page k) as [e|results] eqn:E; [reflexivity|]. cbv zeta.
    rewrite append_parsed_spec, <- (collected_step (proj1 Hp) E).
    destruct Hstop as [Hshort|Hcap].
    + apply Z.ltb_lt in Hshort. rewrite Hshort. reflexivity.
    + apply Z.leb_le in Hcap. rewrite Hcap, orb_true_r. reflexivity.
  - destruct (Hgo p ltac:(lia)) as ((results & E & Hfull) & Hcount).
    rewrite E. cbv zeta.
    rewrite append_parsed_spec, <- (collected_step (proj1 Hp) E).
    apply Z.ltb_ge in Hfull. rewrite Hfull.
    apply Z.leb_gt in Hcount. rewrite Hcount. cbn [orb].
    replace (collected p) with (collected (p + 1 - 1)) by (f_equal; lia).
    apply IH; try lia; try assumption.
    intros j Hj. apply Hgo. lia.
Qed.

Lemma fetch_pages_bound (max_records : Z) (fuel : nat) (p : Z)
    (observations result : list Observation) :
  (forall j results, results_of_page j = inr results -> len results <= PER_PAGE) ->
  len observations < max_records ->
  fetch_pages max_records fuel p observations = Some (inr result) ->
  len result < max_records + PER_PAGE.
Proof.
  intros Hsize. revert p observations.
  induction fuel as [|fuel IH]; intros p observations Hlt H; [discriminate H|].
  cbn [fetch_pages] in H.
  destruct (results_of_page p) as [e|results] eqn:E; [discriminate H|].
  cbv zeta in H. rewrite append_parsed_spec in H.
  pose proof (Hsize p results E) as Hpage. pose proof (parsed_len results) as Hparsed.
  destruct ((len results <? PER_PAGE)
            || (max_records <=? len (observations ++ parsed results))) eqn:Ec.
  - injection H as <-. rewrite len_app. lia.
  - apply orb_false_iff in Ec. destruct Ec as [_ Ec]. apply Z.leb_gt in Ec.
    eapply IH; [exact Ec|exact H].
Qed.
End Pages.

(** [fetch_species_observations] asks for the pages in order until the
    first one that ends the loop: a failed request, a page of fewer than
    200 results, or 1400 observations or more parsed so far.  It then
    returns the observations parsed from all the pages read, in order, or
    raises the exception of the failed request, whatever was read before. *)
Theorem fetch_species_observations_pages (raw : Type)
    (parse_observation : raw -> option Observation)
    (results_of_page : Z -> fetch_exn + list raw) (k : Z) (fuel : nat) :
  1 <= k -> k <= Z.of_nat fuel ->
  (forall j, 1 <= j < k ->
     goes_on parse_observation results_of_page MAX_RECORDS_PER_SPECIES j) ->
  stops parse_observation results_of_page MAX_RECORDS_PER_SPECIES k ->
  fetch_species_observations parse_observation results_of_page fuel =
    Some (ending_at parse_observation results_of_page k).
Proof.
  intros Hk Hfuel Hgo Hstop. unfold fetch_species_observations.
  rewrite fetch_species_observations_from_pages.
  apply (@fetch_pages_spec raw parse_observation results_of_page
           MAX_RECORDS_PER_SPECIES fuel 1 k); try lia; assumption.
Qed.

Lemma fetch_species_observations_pages_witness :
  let parse := fun d : Z => if d <? 1 then None else Some (example_obs 2026 3 d 50) in
  let pages := fun j : Z => if j =? 1 then inr (repeat 5 200) else inr [12; 0] in
  fetch_species_observations parse pages 2 = Some (ending_at parse pages 2).
Proof.
  apply (@fetch_species_observations_pages Z
           (fun d : Z => if d <? 1 then None else Some (example_obs 2026 3 d 50))
           (fun j : Z => if j =? 1 then inr (repeat 5 200) else inr [12; 0]) 2 2).
  - lia.
  - lia.
  - intros j Hj. assert (j = 1) by lia. subst j. split.
    + eexists. split; [reflexivity|]. vm_compute. discriminate.
    + vm_compute. reflexivity.
  - left. vm_compute. reflexivity.
Defined.

(** [fetch_species_observations_for_baseline] is the same loop with a cap
    of 2000: its one combined test ends the loop on the same pages as the
    two tests of [fetch_species_observations] would. *)
Theorem fetch_species_observations_for_baseline_pages (raw : Type)
    (parse_observation : raw -> option Observation)
    (results_of_page : Z -> fetch_exn + list raw) (k : Z) (fuel : nat) :
  1 <= k -> k <= Z.of_nat fuel ->
  (forall j, 1 <= j < k ->
     goes_on parse_observation results_of_page BASELINE_MAX_RECORDS_PER_SPECIES j) ->
  stops parse_observation results_of_page BASELINE_MAX_RECORDS_PER_SPECIES k ->
  fetch_species_observations_for_baseline parse_observation results_of_page fuel =
    Some (ending_at parse_observation results_of_page k).
Proof.
  intros Hk Hfuel Hgo Hstop. unfold fetch_species_observations_for_baseline.
  rewrite fetch_species_observations_for_baseline_from_pages.
  apply (@fetch_pages_spec raw parse_observation results_of_page
           BASELINE_MAX_RECORDS_PER_SPECIES fuel 1 k); try lia; assumption.
Qed.

Lemma fetch_species_observations_for_baseline_pages_witness :
  let parse := fun d : Z => if d <? 1 then None else Some (example_obs 2020 3 d 50) in
  let pages := fun j : Z => if j =? 1 then inr (repeat 5 200) else inl URLError in
  fetch_species_observations_for_baseline parse pages 2 = Some (ending_at parse pages 2).
Proof.
  apply (@fetch_species_observations_for_baseline_pages Z
           (fun d : Z => if d <? 1 then None else Some (example_obs 2020 3 d 50))
           (fun j : Z => if j =? 1 then inr (repeat 5 200) else inl URLError) 2 2).
  - lia.
  - lia.
  - intros j Hj. assert (j = 1) by lia. subst j. split.
    + eexists. split; [reflexivity|]. vm_compute. discriminate.
    + vm_compute. reflexivity.
  - exact I.
Defined.

(** Pages that bring the count to one below the cap and then pass it by
    a whole page: the first page holds one record that does not parse. *)
Definition example_parse (d : Z) : option Observation :=
  if d <? 1 then None else Some (example_obs 2020 3 d 50).

Definition example_pages (j : Z) : fetch_exn + list Z :=
  if j =? 1 then inr (0 :: repeat 5 199) else inr (repeat 5 200).

(** The cap on the records of a species is checked after a whole page is
    added: when no page holds more than the 200 results asked for, fewer
    than 1400 + 200 observations are returned (2000 + 200 for the
    baseline); and the cap is no bound, 1599 (2199) observations can be
    returned. *)
Theorem fetched_observations_bound (raw : Type)
    (parse_observation : raw -> option Observation)
    (results_of_page : Z -> fetch_exn + list raw) :
  (forall j results, results_of_page j = inr results -> len results <= PER_PAGE) ->
  (forall fuel result,
     fetch_species_observations parse_observation results_of_page fuel
       = Some (inr result) ->
     len result < MAX_RECORDS_PER_SPECIES + PER_PAGE) /\
  (forall fuel result,
     fetch_species_observations_for_baseline parse_observation results_of_page fuel
       = Some (inr result) ->
     len result < BASELINE_MAX_RECORDS_PER_SPECIES + PER_PAGE) /\
  (exists (parse : Z -> option Observation) (pages : Z -> fetch_exn + list Z)
          (result result' : list Observation),
     (forall j results, pages j = inr results -> len results <= PER_PAGE) /\
     fetch_species_observations parse pages 8 = Some (inr result) /\
     len result = MAX_RECORDS_PER_SPECIES + PER_PAGE - 1 /\
     fetch_species_observations_for_baseline parse pages 11 = Some (inr result') /\
     len result' = BASELINE_MAX_RECORDS_PER_SPECIES + PER_PAGE - 1).
Proof.
  intros Hsize. split; [|split].
  - intros fuel result H. unfold fetch_species_observations in H.
    rewrite fetch_species_observations_from_pages in H.
    eapply fetch_pages_bound; [exact Hsize| |exact H]. reflexivity.
  - intros fuel result H. unfold fetch_species_observations_for_baseline in H.
    rewrite fetch_species_observations_for_baseline_from_pages in H.
    eapply fetch_pages_bound; [exact Hsize| |exact H]. reflexivity.
  - exists example_parse, example_pages.
    assert (H : option_map (fun r => match r with inr l => len l | inl _ => 0 end)
                  (fetch_species_observations example_parse example_pages 8)
                = Some 1599) by (vm_compute; reflexivity).
    assert (H' : option_map (fun r => match r with inr l => len l | inl _ => 0 end)
                   (fetch_species_observations_for_baseline example_parse
                      example_pages 11)
                 = Some 2199) by (vm_compute; reflexivity).
    destruct (fetch_species_observations example_parse example_pages 8)
      as [[e|result]|]; try discriminate H.
    destruct (fetch_species_observations_for_baseline example_parse example_pages 11)
      as [[e|result']|]; try discriminate H'.
    cbn [option_map] in H, H'. injection H as H. injection H' as H'.
    exists result, result'. split; [|split; [reflexivity|split; [|split; [reflexivity|]]]].
    + intros j results Hj. unfold example_pages in Hj.
      destruct (j =? 1); injection Hj as <-; vm_compute; discriminate.
    + rewrite H. reflexivity.
    + rewrite H'. reflexivity.
Qed.

Lemma fetched_observations_bound_witness :
  ((forall fuel result,
      fetch_species_observations example_parse example_pages fuel = Some (inr result) ->
      len result < MAX_RECORDS_PER_SPECIES + PER_PAGE) /\
   (forall fuel result,
      fetch_species_observations_for_baseline example_parse example_pages fuel
        = Some (inr result) ->
      len result < BASELINE_MAX_RECORDS_PER_SPECIES + PER_PAGE) /\
   (exists (parse : Z -> option Observation) (pages : Z -> fetch_exn + list Z)
           (result result' : list Observation),
      (forall j results, pages j = inr results -> len results <= PER_PAGE) /\
      fetch_species_observations parse pages 8 = Some (inr result) /\
      len result = MAX_RECORDS_PER_SPECIES + PER_PAGE - 1 /\
      fetch_species_observations_for_baseline parse pages 11 = Some (inr result') /\
      len result' = BASELINE_MAX_RECORDS_PER_SPECIES + PER_PAGE - 1)) /\
  option_map (fun r => match r with inr l => len l | inl _ => 0 end)
    (fetch_species_observations example_parse example_pages 8) = Some 1599.
Proof.
  split.
  - apply (@fetched_observations_bound Z example_parse example_pages).
    intros j results H. unfold example_pages in H.
    destruct (j =? 1); injection H as <-; vm_compute; discriminate.
  - vm_compute. reflexivity.
Defined.

(** * Page names *)

(** ** slugify (analyze_spring.py lines 198-200) *)

(** A text is held as its code points, one [ascii] each, so the model
    covers the texts of code points below 256.  There [str.lower] adds 32
    to the capitals, [A] to [Z] and those of Latin-1 (192 to 222 but for the
    multiplication sign, 215), and changes nothing else. *)
Definition lower_char (c : ascii) : ascii :=
  let n := N_of_ascii c in
  if ((65 <=? n) && (n <=? 90) || (192 <=? n) && (n <=? 222) && negb (n =? 215))%N
  then ascii_of_N (n + 32)
  else c.

Fixpoint py_lower (s : string) : string :=
  match s with
  | EmptyString => EmptyString
  | String c s' => String (lower_char c) (py_lower s')
  end.

(** The class [[a-z0-9]]. *)
Definition is_slug_char (c : ascii) : bool :=
  let n := N_of_ascii c in
  ((97 <=? n) && (n <=? 122) || (48 <=? n) && (n <=? 57))%N.

(** [re.sub(r"[^a-z0-9]+", "-", s)]: every maximal run of characters
    outside the class becomes one dash; [in_run] tells that the dash of the
    current run is written already. *)
Fixpoint dash_runs (in_run : bool) (s : string) : string :=
  match s with
  | EmptyString => EmptyString
  | String c s' =>
      if is_slug_char c then String c (dash_runs false s')
      else if in_run then dash_runs true s'
      else String "-"%char (dash_runs true s')
  end.

(** [s.strip("-")], from the left and from the right. *)
Fixpoint lstrip_dash (s : string) : string :=
  match s with
  | EmptyString => EmptyString
  | String c s' => if Ascii.eqb c "-"%char then lstrip_dash s' else s
  end.

Fixpoint rstrip_dash (s : string) : string :=
  match s with
  | EmptyString => EmptyString
  | String c s' =>
      let t := rstrip_dash s' in
      if Ascii.eqb c "-"%char && (t =? "")%string then EmptyString else String c t
  end.

Definition slugify (text : string) : string :=
  let slug := rstrip_dash (lstrip_dash (dash_runs false (py_lower text))) in
  if (slug =? "")%string then "species" else slug.

(** A slug: words of [[a-z0-9]] joined by single dashes, with no dash at
    either end; [prev_dash] tells that a dash may not come next. *)
Fixpoint slug_body (prev_dash : bool) (s : string) : bool :=
  match s with
  | EmptyString => negb prev_dash
  | String c s' =>
      if is_slug_char c then slug_body false s'
      else Ascii.eqb c "-"%char && negb prev_dash && slug_body true s'
  end.

Definition is_slug (s : string) : bool := slug_body true s.

(** The same without the conditions on the two ends. *)
Fixpoint runs_ok (prev_dash : bool) (s : string) : bool :=
  match s with
  | EmptyString => true
  | String c s' =>
      if is_slug_char c then runs_ok false s'
      else Ascii.eqb c "-"%char && negb prev_dash && runs_ok true s'
  end.

Lemma slug_char_not_dash (c : ascii) :
  is_slug_char c = true -> Ascii.eqb c "-"%char = false.
Proof.
  destruct c as [[] [] [] [] [] [] [] []]; vm_compute; intros H;
    try reflexivity; discriminate H.
Qed.

Lemma slug_char_lower (c : ascii) : is_slug_char c = true -> lower_char c = c.
Proof.
  destruct c as [[] [] [] [] [] [] [] []]; vm_compute; intros H;
    try reflexivity; discriminate H.
Qed.

Lemma dash_runs_ok (in_run : bool) (s : string) :
  runs_ok in_run (dash_runs in_run s) = true.
Proof.
  revert in_run. induction s as [|c s IH]; intros in_run; cbn [dash_runs];
    [reflexivity|].
  destruct (is_slug_char c) eqn:Ec.
  - cbn [runs_ok]. rewrite Ec. apply IH.
  - destruct in_run; [apply IH|].
    cbn [runs_ok]. change (is_slug_char "-"%char) with false.
    cbn [Ascii.eqb Bool.eqb andb negb]. apply IH.
Qed.

Lemma runs_ok_no_lead (s : string) : runs_ok true s = true -> lstrip_dash s = s.
Proof.
  destruct s as [|c s]; [reflexivity|]. cbn [runs_ok lstrip_dash].
  destruct (is_slug_char c) eqn:Ec.
  - rewrite (slug_char_not_dash c Ec). reflexivity.
  - rewrite andb_false_r. discriminate.
Qed.

Lemma lstrip_dash_ok (prev_dash : bool) (s : string) :
  runs_ok prev_dash s = true -> runs_ok true (lstrip_dash s) = true.
Proof.
  destruct s as [|c s]; [reflexivity|]. cbn [runs_ok lstrip_dash].
  destruct (is_slug_char c) eqn:Ec.
  - rewrite (slug_char_not_dash c Ec). cbn [runs_ok]. rewrite Ec. intros H. exact H.
  - intros H. apply andb_true_iff in H. destruct H as [H Hs].
    apply andb_true_iff in H. destruct H as [Hc _]. rewrite Hc.
    rewrite (runs_ok_no_lead s Hs). exact Hs.
Qed.

Lemma slug_body_nonempty (s : string) : slug_body true s = true -> (s =? "")%string = false.
Proof. destruct s; [discriminate|reflexivity]. Qed.

Lemma rstrip_dash_ok (prev_dash : bool) (s : string) :
  runs_ok prev_dash s = true ->
  rstrip_dash s = EmptyString \/ slug_body prev_dash (rstrip_dash s) = true.
Proof.
  revert prev_dash. induction s as [|c s IH]; intros prev_dash; cbn [runs_ok rstrip_dash].
  - left. reflexivity.
  - cbv zeta. destruct (is_slug_char c) eqn:Ec.
    + intros H. rewrite (slug_char_not_dash c Ec). cbn [andb]. right.
      cbn [slug_body]. rewrite Ec.
      destruct (IH false H) as [E|E]; [rewrite E; reflexivity|exact E].
    + intros H. apply andb_true_iff in H. destruct H as [H Hs].
      apply andb_true_iff in H. destruct H as [Hc Hp]. rewrite Hc. cbn [andb].
      destruct (IH true Hs) as [E|E].
      * left. rewrite E. reflexivity.
      * right. rewrite (slug_body_nonempty _ E). cbn [slug_body].
        rewrite Ec, Hc, Hp, E. reflexivity.
Qed.

Lemma slug_body_lower (prev_dash : bool) (s : string) :
  slug_body prev_dash s = true -> py_lower s = s.
Proof.
  revert prev_dash. induction s as [|c s IH]; intros prev_dash; cbn [slug_body py_lower];
    [reflexivity|].
  destruct (is_slug_char c) eqn:Ec.
  - intros H. rewrite (slug_char_lower c Ec), (IH false H). reflexivity.
  - intros H. apply andb_true_iff in H. destruct H as [H Hs].
    apply andb_true_iff in H. destruct H as [Hc _].
    apply Ascii.eqb_eq in Hc. subst c. rewrite (IH true Hs). reflexivity.
Qed.

Lemma slug_body_dash_runs (prev_dash : bool) (s : string) :
  slug_body prev_dash s = true -> dash_runs prev_dash s = s.
Proof.
  revert prev_dash. induction s as [|c s IH]; intros prev_dash; cbn [slug_body dash_runs];
    [reflexivity|].
  destruct (is_slug_char c) eqn:Ec.
  - intros H. rewrite (IH false H). reflexivity.
  - intros H. apply andb_true_iff in H. destruct H as [H Hs].
    apply andb_true_iff in H. destruct H as [Hc Hp].
    apply Ascii.eqb_eq in Hc. subst c. apply negb_true_iff in Hp. rewrite Hp.
    rewrite (IH true Hs). reflexivity.
Qed.

Lemma slug_body_runs_ok (prev_dash : bool) (s : string) :
  slug_body prev_dash s = true -> runs_ok prev_dash s = true.
Proof.
  revert prev_dash. induction s as [|c s IH]; intros prev_dash; cbn [slug_body runs_ok];
    [reflexivity|].
  destruct (is_slug_char c); [apply IH|].
  intros H. apply andb_true_iff in H. destruct H as [H Hs].
  rewrite H. apply IH. exact Hs.
Qed.

Lemma slug_body_rstrip (prev_dash : bool) (s : string) :
  slug_body prev_dash s = true -> rstrip_dash s = s.
Proof.
  revert prev_dash. induction s as [|c s IH]; intros prev_dash; cbn [slug_body rstrip_dash];
    [reflexivity|].
  cbv zeta. destruct (is_slug_char c) eqn:Ec.
  - intros H. rewrite (slug_char_not_dash c Ec), (IH false H). reflexivity.
  - intros H. apply andb_true_iff in H. destruct H as [H Hs].
    rewrite (IH true Hs), (slug_body_nonempty _ Hs), andb_false_r. reflexivity.
Qed.

Lemma slugify_gives_slug (text : string) : is_slug (slugify text) = true.
Proof.
  unfold slugify. cbv zeta.
  set (d := dash_runs false (py_lower text)).
  assert (Hd : runs_ok true (lstrip_dash d) = true)
    by (apply (@lstrip_dash_ok false); apply dash_runs_ok).
  destruct (rstrip_dash_ok true _ Hd) as [E|E].
  - rewrite E. reflexivity.
  - rewrite (slug_body_nonempty _ E). exact E.
Qed.

Lemma slugify_keeps_slug (s : string) : is_slug s = true -> slugify s = s.
Proof.
  unfold is_slug, slugify. intros H. cbv zeta.
  rewrite (slug_body_lower _ _ H).
  assert (Hruns : runs_ok true s = true) by (apply slug_body_runs_ok; exact H).
  assert (Hdash : dash_runs false s = s).
  { destruct s as [|c s]; [discriminate H|].
    cbn [slug_body] in H. cbn [dash_runs].
    destruct (is_slug_char c) eqn:Ec.
    - rewrite (slug_body_dash_runs _ _ H). reflexivity.
    - rewrite andb_false_r in H. discriminate H. }
  rewrite Hdash, (runs_ok_no_lead s Hruns), (slug_body_rstrip _ _ H).
  rewrite (slug_body_nonempty _ H). reflexivity.
Qed.

(** Whether a text holds a character of the class. *)
Fixpoint has_slug_char (s : string) : bool :=
  match s with
  | EmptyString => false
  | String c s' => is_slug_char c || has_slug_char s'
  end.

Lemma no_slug_char_runs (in_run : bool) (s : string) :
  has_slug_char s = false -> lstrip_dash (dash_runs in_run s) = EmptyString.
Proof.
  revert in_run. induction s as [|c s IH]; intros in_run; cbn [has_slug_char dash_runs];
    [reflexivity|].
  intros H. apply orb_false_iff in H. destruct H as [Hc Hs]. rewrite Hc.
  destruct in_run; [apply IH; exact Hs|].
  cbn [lstrip_dash Ascii.eqb Bool.eqb]. apply IH. exact Hs.
Qed.

Lemma slug_char_some (in_run : bool) (s : string) :
  has_slug_char s = true ->
  has_slug_char (rstrip_dash (lstrip_dash (dash_runs in_run s))) = true.
Proof.
  assert (Hr : forall t, has_slug_char t = true -> has_slug_char (rstrip_dash t) = true).
  { induction t as [|c t IH]; cbn [has_slug_char rstrip_dash]; [discriminate|].
    cbv zeta. intros H. destruct (is_slug_char c) eqn:Ec.
    - rewrite (slug_char_not_dash c Ec). cbn [andb has_slug_char]. rewrite Ec.
      reflexivity.
    - cbn [orb] in H. specialize (IH H).
      destruct (rstrip_dash t) as [|c' t'] eqn:Et; [discriminate IH|].
      rewrite andb_false_r. cbn [has_slug_char] in IH |- *. rewrite Ec. exact IH. }
  assert (Hl : forall t, has_slug_char t = true -> has_slug_char (lstrip_dash t) = true).
  { induction t as [|c t IH]; cbn [has_slug_char lstrip_dash]; [discriminate|].
    intros H. destruct (Ascii.eqb c "-"%char) eqn:Ec.
    - apply Ascii.eqb_eq in Ec. subst c. apply IH. exact H.
    - exact H. }
  intros H. apply Hr, Hl. revert in_run.
  induction s as [|c s IH]; intros in_run; cbn [has_slug_char dash_runs] in *;
    [discriminate H|].
  destruct (is_slug_char c) eqn:Ec.
  - cbn [has_slug_char]. rewrite Ec. reflexivity.
  - cbn [orb] in H. destruct in_run; [apply IH; exact H|].
    cbn [has_slug_char]. change (is_slug_char "-"%char) with false. apply IH. exact H.
Qed.

(** The slug of any text is a slug: not empty, made of words of
    [[a-z0-9]] joined by single dashes, with no dash at either end; a text
    that is a slug already is its own slug, and so [slugify] is
    idempotent.  A text that, once lowered, holds no character of
    [[a-z0-9]] gets the slug "species"; any other text gets a slug made
    from its own characters. *)
Theorem slugify_slug (text : string) :
  is_slug (slugify text) = true /\
  (forall s, is_slug s = true <-> slugify s = s) /\
  slugify (slugify text) = slugify text /\
  (has_slug_char (py_lower text) = false -> slugify text = "species") /\
  (has_slug_char (py_lower text) = true ->
   slugify text = rstrip_dash (lstrip_dash (dash_runs false (py_lower text)))).
Proof.
  split; [apply slugify_gives_slug|]. split; [|split; [|split]].
  - intros s. split; [apply slugify_keeps_slug|].
    intros H. rewrite <- H. apply slugify_gives_slug.
  - apply slugify_keeps_slug, slugify_gives_slug.
  - intros H. unfold slugify. cbv zeta.
    rewrite (no_slug_char_runs false _ H). reflexivity.
  - intros H. unfold slugify. cbv zeta.
    pose proof (slug_char_some false _ H) as Hs.
    destruct (rstrip_dash _) as [|c t]; [discriminate Hs|]. reflexivity.
Qed.

(** * The run as a whole *)

(** ** main (analyze_spring.py lines 563-565) *)

(** The three results [main] derives from the summaries it gathered. *)
Definition rollups (species_summaries : list Species.t)
    : list Species.t * list ZoneRollup.t * Overall.t :=
  let indicators := pick_indicator_species species_summaries 20 in
  let zones := build_zone_summary indicators in
  let overall := overall_status indicators in
  (indicators, zones, overall).

(** The overall rollup counts the indicators: 20 at most, all the
    summaries when there are fewer, in the order [pick_indicator_species]
    ranks them; the indicators with a signal are among them, and the zone
    rollup has a row exactly for the zones the indicators carry. *)
Theorem rollups_counts (species_summaries : list Species.t) :
  let '(indicators, zones, overall) := rollups species_summaries in
  Overall.species_count overall = Z.min 20 (len species_summaries) /\
  0 <= Overall.species_with_signal overall <= Overall.species_count overall /\
  (forall s, In s indicators -> In s species_summaries) /\
  (forall k, In k (map ZoneRollup.zone zones) <->
             exists s z, In s indicators /\ In z (Species.zones s) /\ ZoneResult.zone z = k).
Proof.
  unfold rollups. cbv zeta.
  set (indicators := pick_indicator_species species_summaries 20).
  split; [|split; [|split]].
  - unfold overall_status. cbn [Overall.species_count].
    unfold indicators, pick_indicator_species. rewrite py_take_len, py_sorted_len.
    reflexivity.
  - unfold overall_status. cbn [Overall.species_with_signal Overall.species_count].
    split; [apply len_nonneg|apply filter_len_le].
  - intros s Hs. unfold indicators, pick_indicator_species in Hs.
    destruct (py_take_prefix (py_sorted rank_lt true species_summaries) 20)
      as (rest & Hsplit).
    apply (py_sorted_In rank_lt true). rewrite Hsplit. apply in_or_app. left. exact Hs.
  - apply build_zone_summary_zones.
Qed.

(** * The engine in binary64: properties *)

(** ** percentile in binary64, on days of the year *)

(** The conversion of a small integer by the processor. *)
Definition small_int (z : Z) : float := of_uint63 (Uint63.of_Z z).

Definition interpolate (a b frac : float) : float :=
  (a * (small_int 1 - frac) + b * frac)%float.

(** The values that [frac = idx - lo] takes in [percentile(values, 0.2)]
    on lists of 3 to 10000 elements; on a list of 2 elements it is the
    double [0.2] itself. *)
Definition frac_table : list float :=
  [0x1.99999999998p-3%float; 0x1.999999999998p-3%float; 0x1.99999999999ap-3%float;
   0x1.99999999999cp-3%float; 0x1.9999999999ap-3%float; 0x1.9999999999cp-3%float;
   0x1.999999999ap-3%float; 0x1.99999999998p-2%float; 0x1.999999999998p-2%float;
   0x1.999999999999ap-2%float; 0x1.999999999999cp-2%float; 0x1.99999999999ap-2%float;
   0x1.99999999999cp-2%float; 0x1.9999999999ap-2%float; 0x1.9999999999cp-2%float;
   0x1.999999999ap-2%float; 0x1.33333333333p-1%float; 0x1.333333333333p-1%float;
   0x1.3333333333334p-1%float; 0x1.3333333333338p-1%float; 0x1.333333333334p-1%float;
   0x1.333333333338p-1%float; 0x1.33333333334p-1%float; 0x1.33333333338p-1%float;
   0x1.99999999998p-1%float; 0x1.999999999998p-1%float; 0x1.999999999999ap-1%float;
   0x1.999999999999cp-1%float; 0x1.99999999999ap-1%float; 0x1.99999999999cp-1%float;
   0x1.9999999999ap-1%float; 0x1.9999999999cp-1%float; 0x1.999999999ap-1%float].

(** What [percentile(values, 0.2)] does with the length [n] of its list:
    [lo], [hi] and [int(idx)] are indices of the list, and [frac] is one of
    the values above. *)
Definition index_check (n : Z) : bool :=
  let idx := (small_int (n - 1) * B64.p20)%float in
  match B64.finite_parts idx with
  | inr (v, e) =>
      let lo := if 0 <=? e then v * 2 ^ e else v / 2 ^ (- e) in
      let hi := if 0 <=? e then v * 2 ^ e else - ((- v) / 2 ^ (- e)) in
      let i := if 0 <=? e then v * 2 ^ e else Z.quot v (2 ^ (- e)) in
      if lo =? hi then (0 <=? i) && (i <? n)
      else (0 <=? lo) && (lo <? hi) && (hi <? n)
           && (if n =? 2 then Leibniz.eqb (idx - small_int lo)%float B64.p20
               else existsb (Leibniz.eqb (idx - small_int lo)%float) frac_table)
  | inl _ => false
  end.

Fixpoint all_from (fuel : nat) (n : Z) (f : Z -> bool) : bool :=
  match fuel with
  | O => true
  | S k => f n && all_from k (n + 1) f
  end.

(** A finite float above zero. *)
Definition pos_finite (x : float) : bool := (0 <? x)%float && (x <? infinity)%float.

(** The days of the year with their doubles, and a test run on every pair
    of days [a <= b]. *)
Definition doy_floats : list (Z * float) :=
  map (fun a => (a, small_int a)) (py_range 1 367).

Definition pairs_check (ok : Z -> float -> Z -> float -> bool) : bool :=
  let fl := doy_floats in
  forallb
    (fun x => forallb (fun y => (fst y <? fst x) || ok (fst x) (snd x) (fst y) (snd y)) fl)
    fl.

Definition in_order_check (a : Z) (fa : float) (b : Z) (fb : float) : bool :=
  pos_finite fa && pos_finite fb && (fa <=? fb)%float.

Definition exact_check (x : Z * float) : bool :=
  match B64.floor (snd x), B64.ceil (snd x) with
  | inr f, inr c => (f =? fst x) && (c =? fst x)
  | _, _ => false
  end.

Definition within (frac : float) (a : Z) (fa : float) (b : Z) (fb : float) : bool :=
  let r := interpolate fa fb frac in
  pos_finite r && (fa <=? r)%float && (r <=? fb)%float.

Definition within_two (a : Z) (fa : float) (b : Z) (fb : float) : bool :=
  let r := interpolate fa fb B64.p20 in
  pos_finite r && (fa <=? r)%float
  && ((r <=? fb)%float || ((a =? b) && Leibniz.eqb r (next_up fb))).

Lemma of_int_small (z : Z) : 0 <= z < 2 ^ 63 -> B64.of_int z = small_int z.
Proof.
  intros Hz. unfold B64.of_int, small_int.
  rewrite <- (SF2Prim_Prim2SF (of_uint63 (Uint63.of_Z z))).
  rewrite of_uint63_spec, Uint63.of_Z_spec.
  rewrite Z.mod_small; [reflexivity|].
  change Uint63.wB with (2 ^ 63). exact Hz.
Qed.

Lemma all_from_spec (f : Z -> bool) (fuel : nat) (n : Z) :
  all_from fuel n f = true ->
  forall k, n <= k < n + Z.of_nat fuel -> f k = true.
Proof.
  revert n. induction fuel as [|fuel IH]; intros n H k Hk; [lia|].
  cbn [all_from] in H. apply andb_true_iff in H. destruct H as [Hn Hrest].
  destruct (Z.eq_dec k n) as [->|Hne]; [exact Hn|].
  apply (IH (n + 1) Hrest). lia.
Qed.

Lemma index_checked (n : Z) : 2 <= n <= 10000 -> index_check n = true.
Proof.
  intros Hn.
  assert (H : all_from (Z.to_nat 9999) 2 index_check = true) by (vm_cast_no_check (eq_refl true)).
  apply (@all_from_spec index_check (Z.to_nat 9999) 2 H). lia.
Qed.

Lemma In_py_range (a b x : Z) : a <= x < b -> In x (py_range a b).
Proof.
  intros H. unfold py_range. apply in_map_iff.
  exists (Z.to_nat (x - a)). split; [lia|]. apply in_seq. lia.
Qed.

Lemma pairs_check_spec (ok : Z -> float -> Z -> float -> bool) :
  pairs_check ok = true ->
  forall a b, 1 <= a -> a <= b -> b <= 366 ->
    ok a (small_int a) b (small_int b) = true.
Proof.
  unfold pairs_check. cbv zeta. intros H a b Ha Hab Hb.
  assert (Hin : forall x, 1 <= x <= 366 -> In (x, small_int x) doy_floats).
  { intros x Hx. unfold doy_floats.
    apply (in_map (fun a => (a, small_int a))). apply In_py_range. lia. }
  rewrite forallb_forall in H. specialize (H _ (Hin a ltac:(lia))).
  rewrite forallb_forall in H. specialize (H _ (Hin b ltac:(lia))).
  cbn [fst snd] in H. apply orb_true_iff in H. destruct H as [H|H]; [|exact H].
  apply Z.ltb_lt in H. lia.
Qed.

Lemma pos_finite_spec (x : float) :
  pos_finite x = true -> exists m e, Prim2SF x = S754_finite false m e.
Proof.
  unfold pos_finite. rewrite !ltb_spec. intros H.
  apply andb_true_iff in H. destruct H as [H0 Hinf].
  change (Prim2SF 0) with (S754_zero false) in H0.
  change (Prim2SF infinity) with (S754_infinity false) in Hinf.
  destruct (Prim2SF x) as [s|s| |s m e]; try destruct s; try discriminate.
  exists m, e. reflexivity.
Qed.

Ltac compare_facts :=
  repeat match goal with
         | H : (_ ?= _) = Eq |- _ => apply Z.compare_eq_iff in H
         | H : (?a ?= ?b) = Lt |- _ => change (a < b) in H
         | H : (?a ?= ?b) = Gt |- _ => change (a > b) in H
         | H : (_ ?= _)%positive = Eq |- _ => apply Pos.compare_eq_iff in H
         | H : (?a ?= ?b)%positive = Lt |- _ => change (a < b)%positive in H
         | H : (?a ?= ?b)%positive = Gt |- _ => change (a > b)%positive in H
         end.

(** [<=] is transitive on the finite floats above zero. *)
Lemma leb_trans_pos (x y z : float) :
  pos_finite x = true -> pos_finite y = true -> pos_finite z = true ->
  (x <=? y)%float = true -> (y <=? z)%float = true -> (x <=? z)%float = true.
Proof.
  intros Hx Hy Hz.
  destruct (@pos_finite_spec x Hx) as (mx & ex & Ex).
  destruct (@pos_finite_spec y Hy) as (my & ey & Ey).
  destruct (@pos_finite_spec z Hz) as (mz & ez & Ez).
  rewrite !leb_spec, Ex, Ey, Ez. unfold SFleb, SFcompare.
  change (Pos.compare_cont Eq) with Pos.compare.
  destruct (ex ?= ey) eqn:E1; destruct (ey ?= ez) eqn:E2; destruct (ex ?= ez) eqn:E3;
    destruct (mx ?= my)%positive eqn:M1; destruct (my ?= mz)%positive eqn:M2;
    destruct (mx ?= mz)%positive eqn:M3;
    intros H1 H2; try reflexivity; try discriminate H1; try discriminate H2;
    exfalso; compare_facts; lia.
Qed.

Lemma doy_in_order (a b : Z) :
  1 <= a -> a <= b -> b <= 366 ->
  pos_finite (small_int a) = true /\ pos_finite (small_int b) = true /\
  (small_int a <=? small_int b)%float = true.
Proof.
  intros Ha Hab Hb.
  assert (H : pairs_check in_order_check = true) by (vm_cast_no_check (eq_refl true)).
  pose proof (@pairs_check_spec in_order_check H a b Ha Hab Hb) as Hc.
  unfold in_order_check in Hc.
  apply andb_true_iff in Hc. destruct Hc as [Hc H3].
  apply andb_true_iff in Hc. destruct Hc as [H1 H2].
  repeat split; assumption.
Qed.

Lemma doy_exact (a : Z) :
  1 <= a <= 366 -> B64.floor (small_int a) = inr a /\ B64.ceil (small_int a) = inr a.
Proof.
  intros Ha.
  assert (H : forallb exact_check doy_floats = true) by (vm_cast_no_check (eq_refl true)).
  rewrite forallb_forall in H.
  assert (Hc : exact_check (a, small_int a) = true).
  { apply H. unfold doy_floats.
    apply (in_map (fun a => (a, small_int a))). apply In_py_range. lia. }
  unfold exact_check in Hc. cbn [fst snd] in Hc.
  destruct (B64.floor (small_int a)) as [e|f]; [discriminate|].
  destruct (B64.ceil (small_int a)) as [e|c]; [discriminate|].
  apply andb_true_iff in Hc. destruct Hc as [Hf Hc].
  apply Z.eqb_eq in Hf, Hc. subst. split; reflexivity.
Qed.

Lemma within_checked (frac : float) (a b : Z) :
  In frac frac_table -> 1 <= a -> a <= b -> b <= 366 ->
  within frac a (small_int a) b (small_int b) = true.
Proof.
  intros Hf.
  assert (H : forallb (fun f => pairs_check (within f)) frac_table = true)
    by (vm_cast_no_check (eq_refl true)).
  rewrite forallb_forall in H. apply pairs_check_spec. apply H. exact Hf.
Qed.

Lemma within_two_checked (a b : Z) :
  1 <= a -> a <= b -> b <= 366 ->
  within_two a (small_int a) b (small_int b) = true.
Proof.
  assert (H : pairs_check within_two = true) by (vm_cast_no_check (eq_refl true)).
  apply pairs_check_spec. exact H.
Qed.

Lemma sorted_nth_error {A : Type} (R : A -> A -> Prop) (l : list A) (i j : nat) (a b : A) :
  StronglySorted R l -> (i < j)%nat ->
  nth_error l i = Some a -> nth_error l j = Some b -> R a b.
Proof.
  intros Hs. revert i j. induction Hs as [|x l Hs IH Hall]; intros i j Hij Hi Hj.
  - destruct i; discriminate Hi.
  - destruct j as [|j]; [lia|]. cbn [nth_error] in Hj.
    destruct i as [|i].
    + cbn [nth_error] in Hi. injection Hi as <-.
      rewrite Forall_forall in Hall. apply Hall. eapply nth_error_In. exact Hj.
    + cbn [nth_error] in Hi. apply (IH i j); [lia|assumption|assumption].
Qed.

Lemma py_index_nth_error {A : Type} (l : list A) (i : Z) (a : A) :
  0 <= i -> py_index l i = inr a -> nth_error l (Z.to_nat i) = Some a.
Proof.
  intros Hi. unfold py_index.
  destruct (i <? 0) eqn:E; [apply Z.ltb_lt in E; lia|]. rewrite E.
  destruct (nth_error l (Z.to_nat i)); [|discriminate].
  intros H. injection H as <-. reflexivity.
Qed.

Lemma py_sorted_ascending (values : list Z) (i j a b : Z) :
  0 <= i -> i < j ->
  py_index (py_sorted Z.ltb false values) i = inr a ->
  py_index (py_sorted Z.ltb false values) j = inr b -> a <= b.
Proof.
  intros Hi Hij Ha Hb.
  assert (Hs : StronglySorted (fun u w => Z.ltb w u = false)
                 (py_sorted Z.ltb false values)).
  { unfold py_sorted. cbv zeta.
    apply (@fold_insert_sorted _ Z.ltb).
    - intros u w H. apply Z.ltb_lt in H. apply Z.ltb_ge. lia.
    - intros u w x H1 H2. apply Z.ltb_ge in H1, H2. apply Z.ltb_ge. lia. }
  apply py_index_nth_error in Ha; [|lia]. apply py_index_nth_error in Hb; [|lia].
  assert (H : Z.ltb b a = false).
  { apply (@sorted_nth_error _ (fun u w => Z.ltb w u = false) _ (Z.to_nat i) (Z.to_nat j) a b Hs);
      [lia|assumption|assumption]. }
  apply Z.ltb_ge in H. exact H.
Qed.

Lemma list_min_max_members (values : list Z) :
  values <> [] -> In (list_min values) values /\ In (list_max values) values.
Proof.
  destruct values as [|x l]; [congruence|]. intros _. cbn [list_min list_max].
  assert (Hmin : forall l x, fold_left Z.min l x = x \/ In (fold_left Z.min l x) l).
  { clear. induction l as [|y l IH]; intros x; cbn [fold_left]; [left; reflexivity|].
    destruct (IH (Z.min x y)) as [H|H].
    - rewrite H. destruct (Z.min_spec x y) as [[_ ->]|[_ ->]];
        [left; reflexivity|right; left; reflexivity].
    - right. right. exact H. }
  assert (Hmax : forall l x, fold_left Z.max l x = x \/ In (fold_left Z.max l x) l).
  { clear. induction l as [|y l IH]; intros x; cbn [fold_left]; [left; reflexivity|].
    destruct (IH (Z.max x y)) as [H|H].
    - rewrite H. destruct (Z.max_spec x y) as [[_ ->]|[_ ->]];
        [right; left; reflexivity|left; reflexivity].
    - right. right. exact H. }
  split.
  - destruct (Hmin l x) as [->|H]; [left; reflexivity|right; exact H].
  - destruct (Hmax l x) as [->|H]; [left; reflexivity|right; exact H].
Qed.

(** The general case of [percentile] in binary64, past the two early
    returns. *)
Lemma b64_percentile_unfold (values : list Z) (p : float) :
  values <> [] -> len values <> 1 ->
  B64.percentile values p =
    let seq := py_sorted Z.ltb false values in
    let idx := (B64.of_int (len seq - 1) * p)%float in
    lo <- B64.floor idx ;;
    hi <- B64.ceil idx ;;
    if lo =? hi then
      i <- B64.trunc idx ;;
      v <- py_index seq i ;; ret (B64.of_int v)
    else
      a <- py_index seq lo ;;
      b <- py_index seq hi ;;
      ret (B64.of_int a * (B64.of_int 1 - (idx - B64.of_int lo))
           + B64.of_int b * (idx - B64.of_int lo))%float.
Proof.
  intros Hne H1. destruct values as [|v0 vs]; [congruence|].
  unfold B64.percentile, percentile_gen.
  apply Z.eqb_neq in H1. rewrite H1. reflexivity.
Qed.

(** C6 (as amended).  For a non-empty list of at most 10000 days of the
    year (1 to 366), the 20th-percentile onset, as the interpreter computes
    it, is at least [min(values)]; it is at most [max(values)] unless the
    list is one day twice, [v; v], where it may be the double next above
    [v]; and on a single-element list it is that element, exactly. *)
Theorem percentile_exact_within_bounds (values : list Z) :
  values <> [] -> Forall (fun d => 1 <= d <= 366) values -> len values <= 10000 ->
  exists r,
    B64.percentile values B64.p20 = inr r /\
    (B64.of_int (list_min values) <=? r)%float = true /\
    ((r <=? B64.of_int (list_max values))%float = true \/
     exists v, values = [v; v] /\ r = next_up (B64.of_int v)) /\
    (forall v, values = [v] ->
       r = B64.of_int v /\ B64.floor r = inr v /\ B64.ceil r = inr v).
Proof.
  intros Hne Hdoy Hlen. rewrite Forall_forall in Hdoy.
  destruct (@list_min_max_members values Hne) as (Hmin & Hmax).
  pose proof (Hdoy _ Hmin) as Hmin_r. pose proof (Hdoy _ Hmax) as Hmax_r.
  cbv beta in Hmin_r, Hmax_r.
  assert (Hsmall : forall z, 0 <= z <= 10000 -> B64.of_int z = small_int z).
  { intros z Hz. apply of_int_small.
    change (2 ^ 63) with 9223372036854775808. lia. }
  assert (Hbounds : forall x, In x values ->
            1 <= x <= 366 /\ list_min values <= x <= list_max values).
  { intros x Hx. split; [apply (Hdoy x Hx)|apply list_min_max_In; exact Hx]. }
  assert (Helem : forall x, In x values ->
            (B64.of_int (list_min values) <=? B64.of_int x)%float = true /\
            (B64.of_int x <=? B64.of_int (list_max values))%float = true).
  { intros x Hx. destruct (Hbounds x Hx) as (Hx1 & Hx2).
    rewrite !Hsmall by lia.
    destruct (@doy_in_order (list_min values) x) as (_ & _ & H1); try lia.
    destruct (@doy_in_order x (list_max values)) as (_ & _ & H2); try lia.
    split; assumption. }
  destruct (Z.eq_dec (len values) 1) as [H1|H1].
  - destruct values as [|v0 [|v1 vs]]; [congruence| |unfold len in H1; simpl in H1; lia].
    exists (B64.of_int v0). split; [reflexivity|].
    destruct (Helem v0 (or_introl eq_refl)) as (Ha & Hb).
    split; [exact Ha|]. split; [left; exact Hb|].
    intros v Hv. injection Hv as <-. split; [reflexivity|].
    destruct (Hbounds v0 (or_introl eq_refl)) as (Hv0 & _).
    rewrite Hsmall by lia. apply doy_exact. exact Hv0.
  - rewrite (@b64_percentile_unfold values B64.p20 Hne H1). cbv zeta.
    set (seq := py_sorted Z.ltb false values).
    assert (Hseq : len seq = len values) by apply py_sorted_len.
    assert (Hn : 2 <= len seq <= 10000).
    { destruct values as [|v0 vs]; [congruence|].
      unfold len in *. cbn [List.length] in *. lia. }
    assert (Hmore : forall v, values <> [v]).
    { intros v Hv. apply H1. rewrite Hv. reflexivity. }
    pose proof (@index_checked (len seq) Hn) as Hc. unfold index_check in Hc.
    rewrite <- (Hsmall (len seq - 1)) in Hc by lia.
    set (idx := (B64.of_int (len seq - 1) * B64.p20)%float) in *.
    destruct (B64.finite_parts idx) as [e|[v e]] eqn:Hfp; [discriminate Hc|].
    unfold B64.floor, B64.ceil, B64.trunc. rewrite Hfp. cbn [bind ret].
    cbv zeta in Hc.
    set (lo := if 0 <=? e then v * 2 ^ e else v / 2 ^ (- e)) in *.
    set (hi := if 0 <=? e then v * 2 ^ e else - ((- v) / 2 ^ (- e))) in *.
    set (i := if 0 <=? e then v * 2 ^ e else Z.quot v (2 ^ (- e))) in *.
    destruct (lo =? hi) eqn:Elh.
    + apply andb_true_iff in Hc. destruct Hc as [Hi0 Hi1].
      apply Z.leb_le in Hi0. apply Z.ltb_lt in Hi1.
      destruct (@py_index_in_range _ seq i) as (x & Hx & Hxin); [lia|].
      rewrite Hx. cbn [bind ret]. exists (B64.of_int x). split; [reflexivity|].
      apply py_sorted_In in Hxin. destruct (Helem x Hxin) as (Ha & Hb).
      split; [exact Ha|]. split; [left; exact Hb|].
      intros v' Hv'. exfalso. exact (Hmore v' Hv').
    + apply andb_true_iff in Hc. destruct Hc as [Hc Hfrac].
      apply andb_true_iff in Hc. destruct Hc as [Hc Hhi].
      apply andb_true_iff in Hc. destruct Hc as [Hlo Hlh].
      apply Z.leb_le in Hlo. apply Z.ltb_lt in Hlh, Hhi.
      destruct (@py_index_in_range _ seq lo) as (a & Ha & Hain); [lia|].
      destruct (@py_index_in_range _ seq hi) as (b & Hb & Hbin); [lia|].
      rewrite Ha, Hb. cbn [bind ret].
      pose proof (@py_sorted_ascending values lo hi a b Hlo Hlh Ha Hb) as Hab.
      apply py_sorted_In in Hain, Hbin.
      destruct (Hbounds a Hain) as (Ha1 & Ha2), (Hbounds b Hbin) as (Hb1 & Hb2).
      rewrite (Hsmall 1), (Hsmall lo), (Hsmall a), (Hsmall b) in * by lia.
      rewrite !Hsmall by lia.
      set (frac := (idx - small_int lo)%float) in *.
      change (small_int a * (small_int 1 - frac) + small_int b * frac)%float
        with (interpolate (small_int a) (small_int b) frac).
      destruct (@doy_in_order (list_min values) a) as (Pm & Pa & Lma); try lia.
      destruct (@doy_in_order b (list_max values)) as (Pb & PM & LbM); try lia.
      eexists. split; [reflexivity|].
      destruct (len seq =? 2) eqn:E2.
      * apply Leibniz.eqb_spec in Hfrac. rewrite Hfrac.
        pose proof (@within_two_checked a b ltac:(lia) Hab ltac:(lia)) as W.
        unfold within_two in W. cbv zeta in W.
        apply andb_true_iff in W. destruct W as [W Wup].
        apply andb_true_iff in W. destruct W as [Wpos Wlow].
        split; [exact (leb_trans_pos Pm Pa Wpos Lma Wlow)|].
        split; [|intros v' Hv'; exfalso; exact (Hmore v' Hv')].
        apply orb_true_iff in Wup. destruct Wup as [Wup|Wup].
        -- left. exact (leb_trans_pos Wpos Pb PM Wup LbM).
        -- right. apply andb_true_iff in Wup. destruct Wup as [Eab Wnext].
           apply Z.eqb_eq in Eab. apply Leibniz.eqb_spec in Wnext. subst b.
           exists a. split; [|rewrite Hsmall by lia; exact Wnext].
           apply Z.eqb_eq in E2.
           assert (Hall : forall x, In x values -> x = a).
           { intros x Hx. apply (py_sorted_In Z.ltb false) in Hx. fold seq in Hx.
             apply In_nth_error in Hx. destruct Hx as (k & Hk).
             assert (Hklen : (k < List.length seq)%nat)
               by (apply nth_error_Some; congruence).
             unfold len in E2, Hhi.
             apply py_index_nth_error in Ha; [|lia].
             apply py_index_nth_error in Hb; [|lia].
             assert (Hcases : k = Z.to_nat lo \/ k = Z.to_nat hi) by lia.
             destruct Hcases as [->| ->]; congruence. }
           destruct values as [|x [|y [|z vs]]];
             unfold len in Hseq, E2; cbn [List.length] in Hseq; try lia.
           rewrite (Hall x (or_introl eq_refl)).
           rewrite (Hall y (or_intror (or_introl eq_refl))). reflexivity.
      * apply existsb_exists in Hfrac. destruct Hfrac as (f & Hf & Ef).
        apply Leibniz.eqb_spec in Ef. rewrite Ef.
        pose proof (@within_checked f a b Hf ltac:(lia) Hab ltac:(lia)) as W.
        unfold within in W. cbv zeta in W.
        apply andb_true_iff in W. destruct W as [W Wup].
        apply andb_true_iff in W. destruct W as [Wpos Wlow].
        split; [exact (leb_trans_pos Pm Pa Wpos Lma Wlow)|].
        split; [left; exact (leb_trans_pos Wpos Pb PM Wup LbM)|].
        intros v' Hv'. exfalso. exact (Hmore v' Hv').
Qed.

Lemma percentile_exact_within_bounds_witness :
  let values := [60; 58; 71; 64; 59] in
  (exists r,
     B64.percentile values B64.p20 = inr r /\
     (B64.of_int (list_min values) <=? r)%float = true /\
     ((r <=? B64.of_int (list_max values))%float = true \/
      exists v, values = [v; v] /\ r = next_up (B64.of_int v)) /\
     (forall v, values = [v] ->
        r = B64.of_int v /\ B64.floor r = inr v /\ B64.ceil r = inr v)) /\
  B64.percentile values B64.p20 = inr 0x1.d666666666666p+5%float /\
  list_min values = 58 /\
  list_max values = 71 /\
  B64.percentile [71] B64.p20 = inr 71%float.
Proof.
  split.
  - apply (@percentile_exact_within_bounds [60; 58; 71; 64; 59]).
    + discriminate.
    + repeat constructor; lia.
    + unfold len. simpl. lia.
  - vm_compute. repeat split; reflexivity.
Defined.

(** ** eval_groups: what a row is made of *)

Section F64EngineFacts.
Variable CURRENT_DATE : date.

Lemma f64_eval_group_inv (current_obs_map : dict string Z)
    (min_year_obs min_baseline_years : Z) (group_name : string)
    (year_map : dict Z (list Z)) (r : option F64.ZoneResult.t) :
  F64.eval_group CURRENT_DATE current_obs_map min_year_obs min_baseline_years
    group_name year_map = inr r ->
  exists onsets,
    F64.baseline_onsets_of year_map min_year_obs
      (py_range (BASELINE_START_YEAR CURRENT_DATE)
                (BASELINE_END_YEAR CURRENT_DATE + 1)) = inr onsets /\
    ((len onsets < min_baseline_years /\ r = None) \/
     (min_baseline_years <= len onsets /\
      exists baseline, F64.median onsets = inr baseline /\
        let current_doys := dict_get Z.eqb year_map (CURRENT_YEAR CURRENT_DATE) [] in
        ((current_doys = [] /\
          r = Some (F64.row_of CURRENT_DATE current_obs_map group_name onsets
                      baseline None)) \/
         (current_doys <> [] /\
          exists c, B64.percentile current_doys B64.p20 = inr c /\
            r = Some (F64.row_of CURRENT_DATE current_obs_map group_name onsets
                        baseline (Some c)))))).
Proof.
  unfold F64.eval_group.
  destruct (F64.baseline_onsets_of _ _ _) as [e|onsets]; [discriminate|].
  cbn [bind]. intros H. exists onsets. split; [reflexivity|].
  destruct (len onsets <? min_baseline_years) eqn:E.
  - left. apply Z.ltb_lt in E. split; [exact E|]. injection H as <-. reflexivity.
  - right. apply Z.ltb_ge in E. split; [exact E|].
    destruct (F64.median onsets) as [e|baseline]; [discriminate|].
    cbn [bind] in H. exists baseline. split; [reflexivity|]. cbv zeta.
    destruct (1 <=? len (dict_get Z.eqb year_map (CURRENT_YEAR CURRENT_DATE) []))
      eqn:Ecur.
    + right. split.
      { intros Hnil. rewrite Hnil in Ecur. discriminate Ecur. }
      destruct (B64.percentile _ _) as [e|c]; [discriminate|].
      cbn [bind ret] in H. exists c. split; [reflexivity|].
      injection H as <-. reflexivity.
    + left. split.
      { apply len_zero_nil. apply Z.leb_gt in Ecur.
        pose proof (len_nonneg (dict_get Z.eqb year_map (CURRENT_YEAR CURRENT_DATE) [])).
        lia. }
      cbn [bind ret] in H. injection H as <-. reflexivity.
Qed.

(** Every row comes from one group of the year maps. *)
Lemma f64_eval_groups_In (year_maps : dict string (dict Z (list Z)))
    (current_obs_map : dict string Z) (min_year_obs min_baseline_years : Z)
    (rows : list F64.ZoneResult.t) (row : F64.ZoneResult.t) :
  F64.eval_groups CURRENT_DATE year_maps current_obs_map
    min_year_obs min_baseline_years = inr rows ->
  In row rows ->
  exists group_name year_map,
    In (group_name, year_map) year_maps /\
    F64.eval_group CURRENT_DATE current_obs_map min_year_obs min_baseline_years
      group_name year_map = inr (Some row).
Proof.
  revert rows. induction year_maps as [|[g ym] yms IH]; simpl; intros rows H Hin.
  - injection H as <-. destruct Hin.
  - destruct (F64.eval_group _ _ _ _ g ym) as [e|r] eqn:Er; [discriminate|].
    cbn [bind] in H.
    destruct (F64.eval_groups _ yms _ _ _) as [e|rows'] eqn:Ers; [discriminate|].
    cbn [bind ret] in H. injection H as <-.
    assert (Hrest : In row rows' -> exists group_name year_map,
              (((g, ym) = (group_name, year_map)) \/ In (group_name, year_map) yms) /\
              F64.eval_group CURRENT_DATE current_obs_map min_year_obs
                min_baseline_years group_name year_map = inr (Some row)).
    { intros Hr. destruct (IH rows' eq_refl Hr) as (g' & ym' & Hg & He).
      exists g', ym'. split; [right; exact Hg|exact He]. }
    destruct r as [r|]; [|apply Hrest; exact Hin].
    destruct Hin as [<-|Hin]; [|apply Hrest; exact Hin].
    exists g, ym. split; [left; reflexivity|exact Er].
Qed.

(** A summary was built from the non-empty rows of one evaluation, under
    that evaluation's name. *)
Lemma f64_summarize_species_Some
    (species_name common_name : string) (taxon_id : Z) (taxon_url : string)
    (photo_url : option string)
    (observations : list F64.Observation) (s : F64.Species.t) :
  F64.summarize_species CURRENT_DATE species_name common_name taxon_id taxon_url
    photo_url observations = inr (Some s) ->
  exists lv rows,
    F64.eval_at CURRENT_DATE lv (F64.tally_all CURRENT_DATE observations) = inr rows /\
    rows <> [] /\
    s = F64.summary_of species_name common_name taxon_id taxon_url photo_url
          (F64.tally_all CURRENT_DATE observations) rows (level_name lv).
Proof.
  unfold F64.summarize_species, F64.choose_granularity. cbv zeta.
  set (t := F64.tally_all CURRENT_DATE observations).
  destruct (F64.eval_at CURRENT_DATE AtZone t) as [e|zr] eqn:Hz; [discriminate|].
  cbn [bind].
  destruct zr as [|z zr]; cbn [is_empty bind ret].
  - destruct (F64.eval_at CURRENT_DATE AtSide t) as [e|sr] eqn:Hs; [discriminate|].
    cbn [bind ret].
    destruct sr as [|x sr]; cbn [is_empty bind ret].
    + destruct (F64.eval_at CURRENT_DATE AtState t) as [e|st] eqn:Ht; [discriminate|].
      cbn [bind ret].
      destruct st as [|y st]; cbn [is_empty]; intros H; [discriminate H|].
      injection H as <-. exists AtState, (y :: st).
      repeat split; [exact Ht|discriminate].
    + intros H. injection H as <-. exists AtSide, (x :: sr).
      repeat split; [exact Hs|discriminate].
  - intros H. injection H as <-. exists AtZone, (z :: zr).
    repeat split; [exact Hz|discriminate].
Qed.
End F64EngineFacts.

(** ** The species aggregate *)

Lemma f64_fold_add_zone (rows : list F64.ZoneResult.t) (s0 : F64.signal) :
  let s := fold_left F64.add_zone rows s0 in
  let vw := flat_map F64.zone_contribution rows in
  F64.weighted_anomaly_numer s =
    fold_left (fun acc x => (acc + fst x * B64.of_int (snd x))%float) vw
      (F64.weighted_anomaly_numer s0) /\
  F64.weighted_anomaly_denom s =
    fold_left (fun acc x => (acc + B64.of_int (snd x))%float) vw
      (F64.weighted_anomaly_denom s0) /\
  F64.has_current_zone s =
    F64.has_current_zone s0 || existsb F64.ZoneResult.has_current rows /\
  F64.has_late_without_current s =
    F64.has_late_without_current s0
    || existsb (fun z => negb (F64.ZoneResult.has_current z)
                         && (F64.ZoneResult.status z =? "late")%string) rows.
Proof.
  revert s0. induction rows as [|z rows IH]; intros s0; cbn zeta.
  - simpl. rewrite !orb_false_r. repeat split; reflexivity.
  - cbn [fold_left flat_map existsb].
    destruct (IH (F64.add_zone s0 z)) as (Hn & Hd & Hc & Hl).
    cbn zeta in *. rewrite Hn, Hd, Hc, Hl, !fold_left_app. clear Hn Hd Hc Hl IH.
    unfold F64.add_zone, F64.zone_contribution.
    destruct (F64.ZoneResult.has_current z);
      [|destruct (F64.ZoneResult.status z =? "late")%string];
      cbn [F64.weighted_anomaly_numer F64.weighted_anomaly_denom F64.has_current_zone
           F64.has_late_without_current fold_left fst snd negb andb orb];
      rewrite ?orb_true_r, ?orb_false_r; repeat split; try reflexivity.
    all: rewrite <- ?orb_assoc; cbn [orb]; reflexivity.
Qed.

Lemma f64_signal_of_spec (rows : list F64.ZoneResult.t) :
  let s := F64.signal_of rows in
  F64.species_anomaly_of s = F64.weighted_mean (flat_map F64.zone_contribution rows) /\
  F64.has_current_zone s = existsb F64.ZoneResult.has_current rows /\
  F64.has_late_without_current s =
    existsb (fun z => negb (F64.ZoneResult.has_current z)
                      && (F64.ZoneResult.status z =? "late")%string) rows.
Proof.
  cbn zeta. unfold F64.signal_of.
  destruct (f64_fold_add_zone rows (F64.mk_signal 0 0 false false)) as (Hn & Hd & Hc & Hl).
  cbn zeta in *.
  cbn [F64.weighted_anomaly_numer F64.weighted_anomaly_denom F64.has_current_zone
       F64.has_late_without_current orb] in *.
  repeat split; try assumption.
  unfold F64.species_anomaly_of, F64.weighted_mean. cbv zeta.
  rewrite Hn, Hd. reflexivity.
Qed.

Lemma f64_classify_status_not_pending (a : float) : F64.classify_status a <> "pending".
Proof.
  unfold F64.classify_status.
  destruct (a <=? -7)%float; [discriminate|].
  destruct (7 <=? a)%float; discriminate.
Qed.

Lemma f64_species_status_of_rows (rows zs : list F64.ZoneResult.t) :
  Permutation zs rows ->
  let st := F64.species_status_of (F64.signal_of rows) in
  (st = "pending" <->
     (forall z, In z zs -> F64.ZoneResult.has_current z = false) /\
     (forall z, In z zs -> F64.ZoneResult.status z <> "late")) /\
  ((exists z, In z zs /\ F64.ZoneResult.has_current z = true) ->
   st = F64.classify_status
          (F64.weighted_mean (flat_map F64.zone_contribution rows))) /\
  ((forall z, In z zs -> F64.ZoneResult.has_current z = false) ->
   (exists z, In z zs /\ F64.ZoneResult.status z = "late") ->
   st = "late").
Proof.
  intros Hperm. cbn zeta.
  destruct (f64_signal_of_spec rows) as (Hmean & Hcur & Hlate). cbn zeta in *.
  unfold F64.species_status_of. rewrite Hcur, Hlate, Hmean.
  assert (Hin : forall z, In z rows <-> In z zs).
  { intros z. split; apply Permutation_in; [apply Permutation_sym|]; exact Hperm. }
  destruct (existsb F64.ZoneResult.has_current rows) eqn:Ec.
  - apply existsb_exists in Ec. destruct Ec as (z & Hz & Hzc). apply Hin in Hz.
    split; [split|split].
    + intros H. exfalso. eapply f64_classify_status_not_pending. exact H.
    + intros [Hnone _]. rewrite (Hnone z Hz) in Hzc. discriminate.
    + intros _. reflexivity.
    + intros Hnone _. rewrite (Hnone z Hz) in Hzc. discriminate.
  - assert (Hnone : forall z, In z zs -> F64.ZoneResult.has_current z = false).
    { intros z Hz. apply Hin in Hz.
      destruct (F64.ZoneResult.has_current z) eqn:E; [|reflexivity].
      assert (existsb F64.ZoneResult.has_current rows = true)
        by (apply existsb_exists; exists z; split; assumption).
      congruence. }
    destruct (existsb (fun z => negb (F64.ZoneResult.has_current z)
                                 && (F64.ZoneResult.status z =? "late")%string) rows)
      eqn:El.
    + apply existsb_exists in El. destruct El as (z & Hz & Hzl).
      apply andb_true_iff in Hzl. destruct Hzl as [_ Hzl].
      apply String.eqb_eq in Hzl. apply Hin in Hz.
      split; [split|split].
      * discriminate.
      * intros [_ Hnl]. exfalso. apply (Hnl z Hz). exact Hzl.
      * intros (z' & Hz' & Hc'). rewrite (Hnone z' Hz') in Hc'. discriminate.
      * reflexivity.
    + split; [split|split].
      * intros _. split; [exact Hnone|].
        intros z Hz Hzl.
        assert (existsb (fun z => negb (F64.ZoneResult.has_current z)
                                  && (F64.ZoneResult.status z =? "late")%string) rows
                = true).
        { apply existsb_exists. exists z. split; [apply Hin; exact Hz|].
          rewrite (Hnone z Hz), Hzl. reflexivity. }
        congruence.
      * reflexivity.
      * intros (z' & Hz' & Hc'). rewrite (Hnone z' Hz') in Hc'. discriminate.
      * intros _ (z & Hz & Hzl). exfalso.
        assert (existsb (fun z => negb (F64.ZoneResult.has_current z)
                                  && (F64.ZoneResult.status z =? "late")%string) rows
                = true).
        { apply existsb_exists. exists z. split; [apply Hin; exact Hz|].
          rewrite (Hnone z Hz), Hzl. reflexivity. }
        congruence.
Qed.

(** C2.  A species that has a summary has it from the rows, at least one,
    of the evaluation whose level it records, and its Zone Results are
    those rows.  Its status is "pending" exactly when none of its Zone
    Results has current-year data and none is "late"; it is
    [classify_status] of the weighted species anomaly when some Zone Result
    has current-year data, and "late" when none has and one is "late".  The
    weighted species anomaly is the mean, over the rows in the order of
    their evaluation, of the anomalies of the rows that have current-year
    data or are "late", as the interpreter computes it; the summary reports
    it rounded to two decimals. *)
Theorem species_status_rule (CURRENT_DATE : date)
    (species_name common_name : string) (taxon_id : Z) (taxon_url : string)
    (photo_url : option string) (observations : list F64.Observation)
    (s : F64.Species.t) :
  F64.summarize_species CURRENT_DATE species_name common_name taxon_id taxon_url
    photo_url observations = inr (Some s) ->
  exists lv rows,
    F64.eval_at CURRENT_DATE lv (F64.tally_all CURRENT_DATE observations) = inr rows /\
    rows <> [] /\
    F64.Species.granularity s = level_name lv /\
    Permutation (F64.Species.zones s) rows /\
    let species_anomaly := F64.weighted_mean (flat_map F64.zone_contribution rows) in
    (F64.Species.status s = "pending" <->
       (forall z, In z (F64.Species.zones s) -> F64.ZoneResult.has_current z = false) /\
       (forall z, In z (F64.Species.zones s) -> F64.ZoneResult.status z <> "late")) /\
    ((exists z, In z (F64.Species.zones s) /\ F64.ZoneResult.has_current z = true) ->
     F64.Species.status s = F64.classify_status species_anomaly) /\
    ((forall z, In z (F64.Species.zones s) -> F64.ZoneResult.has_current z = false) ->
     (exists z, In z (F64.Species.zones s) /\ F64.ZoneResult.status z = "late") ->
     F64.Species.status s = "late") /\
    F64.Species.anomaly_days s = F64.py_round species_anomaly 2.
Proof.
  intros H. apply f64_summarize_species_Some in H.
  destruct H as (lv & rows & Hrows & Hne & ->).
  exists lv, rows. split; [exact Hrows|]. split; [exact Hne|].
  unfold F64.summary_of.
  cbn [F64.Species.status F64.Species.zones F64.Species.granularity
       F64.Species.anomaly_days].
  split; [reflexivity|]. split; [apply py_sorted_perm|]. cbv zeta.
  destruct (@f64_species_status_of_rows rows
              (py_sorted
                 (fun a b => (abs (F64.ZoneResult.anomaly_days a)
                              <? abs (F64.ZoneResult.anomaly_days b))%float)
                 true rows) (py_sorted_perm _ true rows)) as (H1 & H2 & H3).
  cbv zeta in *.
  split; [exact H1|]. split; [exact H2|]. split; [exact H3|].
  destruct (f64_signal_of_spec rows) as (Hmean & _). cbv zeta in Hmean.
  rewrite Hmean. reflexivity.
Qed.

Lemma species_status_rule_witness :
  let s :=
    F64.summary_or F64.no_summary (F64.example_run example_today F64.example_two_zones) in
  (exists lv rows,
     F64.eval_at example_today lv (F64.tally_all example_today F64.example_two_zones)
       = inr rows /\
     rows <> [] /\
     F64.Species.granularity s = level_name lv /\
     Permutation (F64.Species.zones s) rows /\
     let species_anomaly := F64.weighted_mean (flat_map F64.zone_contribution rows) in
     (F64.Species.status s = "pending" <->
        (forall z, In z (F64.Species.zones s) -> F64.ZoneResult.has_current z = false) /\
        (forall z, In z (F64.Species.zones s) -> F64.ZoneResult.status z <> "late")) /\
     ((exists z, In z (F64.Species.zones s) /\ F64.ZoneResult.has_current z = true) ->
      F64.Species.status s = F64.classify_status species_anomaly) /\
     ((forall z, In z (F64.Species.zones s) -> F64.ZoneResult.has_current z = false) ->
      (exists z, In z (F64.Species.zones s) /\ F64.ZoneResult.status z = "late") ->
      F64.Species.status s = "late") /\
     F64.Species.anomaly_days s = F64.py_round species_anomaly 2) /\
  map (fun z => (F64.ZoneResult.zone z, F64.ZoneResult.anomaly_days z,
                 F64.ZoneResult.has_current z, F64.zone_contribution z))
      (F64.Species.zones s)
    = [("west-low", (-0x1.0666666666666p+4)%float, true,
        [((-0x1.0666666666666p+4)%float, 15)]);
       ("west-mid", 0x1.3333333333333p+1%float, true,
        [(0x1.3333333333333p+1%float, 15)])] /\
  F64.weighted_mean
    [((-0x1.0666666666666p+4)%float, 15); (0x1.3333333333333p+1%float, 15)]
    = (-0x1.bffffffffffffp+2)%float /\
  F64.Species.status s = "normal" /\
  F64.Species.anomaly_days s = (-7)%float.
Proof.
  split.
  - apply (@species_status_rule example_today "Trillium ovatum" "Pacific trillium" 1
             "https://www.inaturalist.org/taxa/1" None F64.example_two_zones).
    vm_compute. reflexivity.
  - vm_compute. repeat split; reflexivity.
Defined.

(** ** A group without current-year observations *)

(** C4 (as amended).  A Zone Result that records no current data is the
    row of a group of the year maps with no current-year observation and
    enough baseline years.  With [baseline] the median of the baseline
    onsets of that group and [anomaly] the analysis date's day of year
    minus [baseline], as the interpreter computes it, the row's
    [baseline_doy] is [baseline] rounded to one decimal, its [anomaly_days]
    is [anomaly] rounded to one decimal, its status is "late" when
    [anomaly], not rounded, is at least 7 and "pending" otherwise, and it
    has no current onset. *)
Theorem zero_current_anomaly_from_today (CURRENT_DATE : date)
    (year_maps : dict string (dict Z (list Z))) (current_obs_map : dict string Z)
    (min_year_obs min_baseline_years : Z)
    (rows : list F64.ZoneResult.t) (row : F64.ZoneResult.t) :
  F64.eval_groups CURRENT_DATE year_maps current_obs_map
    min_year_obs min_baseline_years = inr rows ->
  In row rows ->
  F64.ZoneResult.has_current row = false ->
  exists year_map onsets baseline,
    In (F64.ZoneResult.zone row, year_map) year_maps /\
    dict_get Z.eqb year_map (CURRENT_YEAR CURRENT_DATE) [] = [] /\
    F64.baseline_onsets_of year_map min_year_obs
      (py_range (BASELINE_START_YEAR CURRENT_DATE)
                (BASELINE_END_YEAR CURRENT_DATE + 1)) = inr onsets /\
    min_baseline_years <= len onsets /\
    F64.median onsets = inr baseline /\
    let anomaly := (B64.of_int (day_of_year CURRENT_DATE) - baseline)%float in
    F64.ZoneResult.baseline_doy row = F64.py_round baseline 1 /\
    F64.ZoneResult.anomaly_days row = F64.py_round anomaly 1 /\
    F64.ZoneResult.status row = (if (7 <=? anomaly)%float then "late" else "pending") /\
    F64.ZoneResult.baseline_years row = len onsets /\
    F64.ZoneResult.current_doy row = None.
Proof.
  intros Hrows Hin Hcur.
  destruct (@f64_eval_groups_In _ _ _ _ _ _ _ Hrows Hin) as (g & ym & Hg & Hrow).
  apply f64_eval_group_inv in Hrow.
  destruct Hrow as (onsets & Honsets & [[_ H]|(Hlen & baseline & Hmed & H)]);
    [discriminate H|].
  cbv zeta in H. destruct H as [[Hnone H]|(_ & c & _ & H)]; injection H as ->;
    [|discriminate Hcur].
  exists ym, onsets, baseline. cbv zeta. unfold F64.row_of.
  cbn [F64.ZoneResult.zone F64.ZoneResult.baseline_doy F64.ZoneResult.anomaly_days
       F64.ZoneResult.status F64.ZoneResult.baseline_years F64.ZoneResult.current_doy].
  repeat split; assumption.
Qed.

Lemma zero_current_anomaly_from_today_witness :
  let year_maps := F64.by_zone_year (F64.tally_all example_today F64.example_baseline) in
  let row := F64.ZoneResult.mk "west-low" 71 None 29 "late" 5 0 false in
  (exists year_map onsets baseline,
     In (F64.ZoneResult.zone row, year_map) year_maps /\
     dict_get Z.eqb year_map (CURRENT_YEAR example_today) [] = [] /\
     F64.baseline_onsets_of year_map 3
       (py_range (BASELINE_START_YEAR example_today)
                 (BASELINE_END_YEAR example_today + 1)) = inr onsets /\
     4 <= len onsets /\
     F64.median onsets = inr baseline /\
     let anomaly := (B64.of_int (day_of_year example_today) - baseline)%float in
     F64.ZoneResult.baseline_doy row = F64.py_round baseline 1 /\
     F64.ZoneResult.anomaly_days row = F64.py_round anomaly 1 /\
     F64.ZoneResult.status row = (if (7 <=? anomaly)%float then "late" else "pending") /\
     F64.ZoneResult.baseline_years row = len onsets /\
     F64.ZoneResult.current_doy row = None) /\
  F64.eval_groups example_today year_maps [] 3 4 = inr [row] /\
  day_of_year example_today = 100 /\
  F64.ZoneResult.baseline_doy row = 71%float /\
  F64.ZoneResult.anomaly_days row = 29%float /\
  F64.ZoneResult.status row = "late".
Proof.
  split.
  - apply (@zero_current_anomaly_from_today example_today
             (F64.by_zone_year (F64.tally_all example_today F64.example_baseline))
             [] 3 4
             [F64.ZoneResult.mk "west-low" 71 None 29 "late" 5 0 false]
             (F64.ZoneResult.mk "west-low" 71 None 29 "late" 5 0 false)).
    + vm_compute. reflexivity.
    + left. reflexivity.
    + reflexivity.
  - vm_compute. repeat split; reflexivity.
Defined.

(** C4 as stated fails on the code: the status is decided on the anomaly
    before it is rounded, the Zone Result holds it rounded.  With two
    sightings on day 96 in each of four baseline years every onset, and so
    the baseline, is 96.00000000000001; on 13 April 2026, day 103, the
    anomaly is 6.999999999999986: the Zone Result's anomaly is 7.0, its
    baseline 96.0, and its status "pending". *)
Lemma zero_current_seven_days_pending :
  let today := mk_date 2026 4 13 in
  let row := F64.ZoneResult.mk "west" 96 None 7 "pending" 4 0 false in
  day_of_year today = 103 /\
  F64.eval_at today AtSide (F64.tally_all today F64.example_day_96) = inr [row] /\
  (F64.example_run today F64.example_day_96 =
     inr (Some (F64.summary_of "Trillium ovatum" "Pacific trillium" 1 "https://www.inaturalist.org/taxa/1" None (F64.tally_all today F64.example_day_96) [row] "side"))) /\
  F64.Species.zones (F64.summary_of "Trillium ovatum" "Pacific trillium" 1 "https://www.inaturalist.org/taxa/1" None (F64.tally_all today F64.example_day_96) [row] "side") = [row] /\
  F64.ZoneResult.has_current row = false /\
  (F64.ZoneResult.anomaly_days row
   = B64.of_int (day_of_year today) - F64.ZoneResult.baseline_doy row)%float /\
  (7 <=? F64.ZoneResult.anomaly_days row)%float = true /\
  F64.ZoneResult.status row = "pending" /\
  ~ (F64.ZoneResult.status row =
       if (7 <=? F64.ZoneResult.anomaly_days row)%float then "late" else "pending").
Proof.
  cbv zeta. repeat split; try (vm_compute; reflexivity).
  vm_compute. discriminate.
Qed.

(** ** overall_status *)

Lemma f64_fold_add_species (indicators : list F64.Species.t) (nd : float * float) :
  let contributions := map F64.species_contribution (F64.with_signal indicators) in
  fold_left F64.add_species indicators nd =
    (fold_left (fun acc x => (acc + fst x * B64.of_int (snd x))%float) contributions
       (fst nd),
     fold_left (fun acc x => (acc + B64.of_int (snd x))%float) contributions (snd nd)).
Proof.
  revert nd. induction indicators as [|sp l IH]; intros nd; cbn zeta.
  - destruct nd. reflexivity.
  - cbn [fold_left]. rewrite IH. cbn zeta.
    unfold F64.add_species, F64.with_signal. cbn [filter].
    destruct (F64.Species.status sp =? "pending")%string; cbn [negb]; reflexivity.
Qed.

Lemma f64_overall_anomaly_mean (indicators : list F64.Species.t) :
  F64.overall_anomaly indicators =
    F64.weighted_mean (map F64.species_contribution (F64.with_signal indicators)).
Proof.
  unfold F64.overall_anomaly, F64.weighted_mean. cbv zeta.
  rewrite f64_fold_add_species. reflexivity.
Qed.

(** C5.  The overall anomaly is the weighted mean of [anomaly_days] over
    the selected species whose status is not "pending", taken in their
    order, each weighted by [max(1, zones_used) * max(1, current_obs_total)],
    a weight of 1 at least; with no such species it is 0.0, and nothing
    raises.  The overall status is "early" when that mean is at most -7,
    "late" when it is at least 7 and "normal" otherwise; the anomaly is
    reported rounded to two decimals, with the number of species and of
    those that contribute. *)
Theorem overall_rollup_rule (indicators : list F64.Species.t) :
  let contributions := map F64.species_contribution (F64.with_signal indicators) in
  let mean := F64.weighted_mean contributions in
  let overall := F64.overall_status indicators in
  F64.overall_anomaly indicators = mean /\
  (forall sp, In sp (F64.with_signal indicators) <->
              In sp indicators /\ F64.Species.status sp <> "pending") /\
  (forall vw, In vw contributions -> 1 <= snd vw) /\
  (F64.with_signal indicators = [] -> mean = 0%float) /\
  ((mean <=? -7)%float = true -> F64.Overall.status overall = "early") /\
  ((mean <=? -7)%float = false -> (7 <=? mean)%float = true ->
   F64.Overall.status overall = "late") /\
  ((mean <=? -7)%float = false -> (7 <=? mean)%float = false ->
   F64.Overall.status overall = "normal") /\
  F64.Overall.anomaly_days overall = F64.py_round mean 2 /\
  F64.Overall.species_count overall = len indicators /\
  F64.Overall.species_with_signal overall = len (F64.with_signal indicators).
Proof.
  cbv zeta. unfold F64.overall_status. cbv zeta.
  cbn [F64.Overall.status F64.Overall.anomaly_days F64.Overall.species_count
       F64.Overall.species_with_signal].
  rewrite f64_overall_anomaly_mean.
  set (mean := F64.weighted_mean _).
  split; [reflexivity|]. split; [|split; [|split; [|repeat split]]].
  - intros sp. unfold F64.with_signal. rewrite filter_In. split.
    + intros [Hin Hs]. split; [exact Hin|].
      intros Hp. rewrite Hp in Hs. discriminate Hs.
    + intros [Hin Hs]. split; [exact Hin|].
      destruct (String.eqb_spec (F64.Species.status sp) "pending") as [Hp|Hp];
        [contradiction|reflexivity].
  - intros vw Hvw. apply in_map_iff in Hvw. destruct Hvw as (sp & <- & _).
    unfold F64.species_contribution. cbn [snd]. nia.
  - intros Hnil. unfold mean. rewrite Hnil. reflexivity.
  - intros H. unfold F64.classify_status. rewrite H. reflexivity.
  - intros H1 H2. unfold F64.classify_status. rewrite H1, H2. reflexivity.
  - intros H1 H2. unfold F64.classify_status. rewrite H1, H2. reflexivity.
Qed.

Lemma overall_rollup_rule_witness :
  let indicators :=
    [F64.example_summary "Trillium ovatum" "early" (-0x1.0666666666666p+4) 5 
       [F64.example_zone "west-low" (-0x1.0666666666666p+4) 5 5;
        F64.example_zone "west-mid" (-0x1.0666666666666p+4) 5 5;
        F64.example_zone "east-low" (-0x1.0666666666666p+4) 5 5];
     F64.example_summary "Erythronium grandiflorum" "pending" 0 0
       [F64.ZoneResult.mk "east-mid" 120 None (-20) "pending" 5 0 false];
     F64.example_summary "Ribes sanguineum" "normal" 0x1.3333333333333p+1 5
       [F64.example_zone "west-low" 0x1.3333333333333p+1 5 5;
        F64.example_zone "west-mid" 0x1.3333333333333p+1 5 5;
        F64.example_zone "east-low" 0x1.3333333333333p+1 5 5]] in
  let contributions := map F64.species_contribution (F64.with_signal indicators) in
  let mean := F64.weighted_mean contributions in
  let overall := F64.overall_status indicators in
  (F64.overall_anomaly indicators = mean /\
   (forall sp, In sp (F64.with_signal indicators) <->
               In sp indicators /\ F64.Species.status sp <> "pending") /\
   (forall vw, In vw contributions -> 1 <= snd vw) /\
   (F64.with_signal indicators = [] -> mean = 0%float) /\
   ((mean <=? -7)%float = true -> F64.Overall.status overall = "early") /\
   ((mean <=? -7)%float = false -> (7 <=? mean)%float = true ->
    F64.Overall.status overall = "late") /\
   ((mean <=? -7)%float = false -> (7 <=? mean)%float = false ->
    F64.Overall.status overall = "normal") /\
   F64.Overall.anomaly_days overall = F64.py_round mean 2 /\
   F64.Overall.species_count overall = len indicators /\
   F64.Overall.species_with_signal overall = len (F64.with_signal indicators)) /\
  contributions
    = [((-0x1.0666666666666p+4)%float, 15); (0x1.3333333333333p+1%float, 15)] /\
  mean = (-0x1.bffffffffffffp+2)%float /\
  overall = F64.Overall.mk "normal" (-7) 3 2
              "Flowering is close to the 2017-2025 baseline." /\
  F64.overall_status [] = F64.Overall.mk "normal" 0 0 0
                            "Flowering is close to the 2017-2025 baseline." /\
  F64.Overall.anomaly_days
    (F64.overall_status
       [F64.example_summary "Trillium ovatum" "late" 0x1.bp+3 1
          [F64.example_zone "west-low" 0x1.bp+3 5 1;
           F64.example_zone "west-mid" 0x1.bp+3 5 1;
           F64.example_zone "east-low" 0x1.bp+3 5 1];
        F64.example_summary "Ribes sanguineum" "late" 0x1.a9eb851eb851fp+3 1
          [F64.example_zone "west-low" 0x1.a9eb851eb851fp+3 5 1;
           F64.example_zone "west-mid" 0x1.a9eb851eb851fp+3 5 1;
           F64.example_zone "east-low" 0x1.a9eb851eb851fp+3 5 1]])
    = 0x1.ad1eb851eb852p+3%float.
Proof.
  split.
  - exact (overall_rollup_rule
             [F64.example_summary "Trillium ovatum" "early" (-0x1.0666666666666p+4) 5 
                [F64.example_zone "west-low" (-0x1.0666666666666p+4) 5 5;
                 F64.example_zone "west-mid" (-0x1.0666666666666p+4) 5 5;
                 F64.example_zone "east-low" (-0x1.0666666666666p+4) 5 5];
              F64.example_summary "Erythronium grandiflorum" "pending" 0 0
                [F64.ZoneResult.mk "east-mid" 120 None (-20) "pending" 5 0 false];
              F64.example_summary "Ribes sanguineum" "normal" 0x1.3333333333333p+1 5
                [F64.example_zone "west-low" 0x1.3333333333333p+1 5 5;
                 F64.example_zone "west-mid" 0x1.3333333333333p+1 5 5;
                 F64.example_zone "east-low" 0x1.3333333333333p+1 5 5]]).
  - vm_compute. repeat split; reflexivity.
Defined.

(** ** The zone rollup *)

Lemma f64_collect_zone_keys (zs : list F64.ZoneResult.t)
    (d : dict string (list (float * Z))) (k : string) :
  In k (map fst (fold_left F64.collect_zone zs d)) <->
  In k (map fst d) \/ exists z, In z zs /\ F64.ZoneResult.zone z = k.
Proof.
  revert d. induction zs as [|z zs IH]; intros d; cbn [fold_left].
  - split; [intros H; left; exact H|]. intros [H|(z & [] & _)]. exact H.
  - rewrite IH. unfold F64.collect_zone.
    rewrite (dict_update_keys String.eqb String.eqb_eq). split.
    + intros [[->|H]|(z' & Hz' & Hk)].
      * right. exists z. split; [left; reflexivity|reflexivity].
      * left. exact H.
      * right. exists z'. split; [right; exact Hz'|exact Hk].
    + intros [H|(z' & [<-|Hz'] & Hk)].
      * left. right. exact H.
      * left. left. symmetry. exact Hk.
      * right. exists z'. split; assumption.
Qed.

Lemma f64_collect_zone_NoDup (zs : list F64.ZoneResult.t)
    (d : dict string (list (float * Z))) :
  NoDup (map fst d) -> NoDup (map fst (fold_left F64.collect_zone zs d)).
Proof.
  revert d. induction zs as [|z zs IH]; intros d Hnd; cbn [fold_left].
  - exact Hnd.
  - apply IH. unfold F64.collect_zone.
    apply (dict_update_NoDup String.eqb String.eqb_eq). exact Hnd.
Qed.

Lemma f64_collect_zone_data_keys (indicators : list F64.Species.t)
    (d : dict string (list (float * Z))) (k : string) :
  let zone_data :=
    fold_left
      (fun zone_data sp => fold_left F64.collect_zone (F64.Species.zones sp) zone_data)
      indicators d in
  (NoDup (map fst d) -> NoDup (map fst zone_data)) /\
  (In k (map fst zone_data) <->
   In k (map fst d) \/
   exists sp z, In sp indicators /\ In z (F64.Species.zones sp) /\
                F64.ZoneResult.zone z = k).
Proof.
  revert d. induction indicators as [|sp l IH]; intros d; cbn zeta; cbn [fold_left].
  - split; [intros H; exact H|].
    split; [intros H; left; exact H|]. intros [H|(sp & z & [] & _)]. exact H.
  - destruct (IH (fold_left F64.collect_zone (F64.Species.zones sp) d)) as (Hnd & Hkeys).
    cbn zeta in *. split.
    + intros H. apply Hnd. apply f64_collect_zone_NoDup. exact H.
    + rewrite Hkeys, f64_collect_zone_keys. split.
      * intros [[H|(z & Hz & Hk)]|(sp' & z & Hsp & Hz & Hk)].
        -- left. exact H.
        -- right. exists sp, z. split; [left; reflexivity|split; assumption].
        -- right. exists sp', z. split; [right; exact Hsp|split; assumption].
      * intros [H|(sp' & z & [<-|Hsp] & Hz & Hk)].
        -- left. left. exact H.
        -- left. right. exists z. split; assumption.
        -- right. exists sp', z. split; [exact Hsp|split; assumption].
Qed.

Lemma f64_collect_zone_get (zs : list F64.ZoneResult.t)
    (d : dict string (list (float * Z))) (k : string) :
  dict_get String.eqb (fold_left F64.collect_zone zs d) k [] =
    (dict_get String.eqb d k []
     ++ map F64.rollup_entry
          (filter (fun z => (F64.ZoneResult.zone z =? k)%string) zs))%list.
Proof.
  revert d. induction zs as [|z zs IH]; intros d; cbn [fold_left filter map].
  - rewrite app_nil_r. reflexivity.
  - rewrite IH. unfold F64.collect_zone.
    destruct (String.eqb_spec (F64.ZoneResult.zone z) k) as [<-|Hne].
    + rewrite (dict_get_update_same String.eqb String.eqb_eq).
      cbn [map]. rewrite <- app_assoc. reflexivity.
    + rewrite (dict_get_update_other String.eqb String.eqb_eq) by exact Hne.
      reflexivity.
Qed.

Lemma f64_collect_zone_data_get (indicators : list F64.Species.t)
    (d : dict string (list (float * Z))) (k : string) :
  dict_get String.eqb
    (fold_left
       (fun zone_data sp => fold_left F64.collect_zone (F64.Species.zones sp) zone_data)
       indicators d) k [] =
    (dict_get String.eqb d k []
     ++ map F64.rollup_entry (F64.zone_members indicators k))%list.
Proof.
  unfold F64.zone_members. revert d.
  induction indicators as [|sp l IH]; intros d; cbn [fold_left flat_map filter map].
  - rewrite app_nil_r. reflexivity.
  - rewrite IH, f64_collect_zone_get, filter_app, map_app, app_assoc. reflexivity.
Qed.

Lemma f64_weights_pos (zs : list F64.ZoneResult.t) (a : Z) :
  a <= fold_left (fun acc vw => acc + snd vw) (map F64.rollup_entry zs) a /\
  (zs <> [] -> a < fold_left (fun acc vw => acc + snd vw) (map F64.rollup_entry zs) a).
Proof.
  revert a. induction zs as [|z zs IH]; intros a; cbn [map fold_left].
  - split; [lia|congruence].
  - destruct (IH (a + snd (F64.rollup_entry z))) as (H & _).
    assert (1 <= snd (F64.rollup_entry z)) by (unfold F64.rollup_entry; cbn [snd]; nia).
    split; [lia|intros _; lia].
Qed.

(** A row of the zone rollup stands for the Zone Results, of all the
    indicators, that carry its zone, at least one: it counts them.  Its
    anomaly is the sum, by the interpreter's [sum], of their anomalies
    times their weights [max(1, baseline_years) * max(1, current_obs)],
    taken in the order the indicators and their zones come in, divided by
    the sum of the weights, which is an integer and never zero; the row's
    status is [classify_status] of that anomaly, and the row reports it
    rounded to two decimals. *)
Theorem zone_rollup_rule (py_sum : list float -> float)
    (indicators : list F64.Species.t) (row : F64.ZoneRollup.t) :
  In row (F64.build_zone_summary py_sum indicators) ->
  let members := F64.zone_members indicators (F64.ZoneRollup.zone row) in
  let weight z :=
    Z.max 1 (F64.ZoneResult.baseline_years z) * Z.max 1 (F64.ZoneResult.current_obs z) in
  let denom := fold_right Z.add 0 (map weight members) in
  let anomaly :=
    (py_sum (map (fun z => F64.ZoneResult.anomaly_days z * B64.of_int (weight z)) members)
     / B64.of_int denom)%float in
  members <> [] /\
  F64.ZoneRollup.species_count row = len members /\
  0 < denom /\
  F64.ZoneRollup.anomaly_days row = F64.py_round anomaly 2 /\
  F64.ZoneRollup.status row = F64.classify_status anomaly.
Proof.
  intros Hrow. cbv zeta. unfold F64.build_zone_summary in Hrow. cbv zeta in Hrow.
  apply py_sorted_In in Hrow. apply in_map_iff in Hrow.
  destruct Hrow as ([k values] & <- & Hin).
  destruct (f64_collect_zone_data_keys indicators [] k) as (Hnd & Hkeys). cbn zeta in *.
  fold (F64.collect_zone_data indicators) in Hnd, Hkeys.
  assert (Hvalues : values = map F64.rollup_entry (F64.zone_members indicators k)).
  { rewrite <- (dict_get_In String.eqb String.eqb_eq (F64.collect_zone_data indicators)
                  k values [] (Hnd (NoDup_nil _)) Hin).
    unfold F64.collect_zone_data. rewrite f64_collect_zone_data_get. reflexivity. }
  assert (Hne : F64.zone_members indicators k <> []).
  { assert (Hk : In k (map fst (F64.collect_zone_data indicators)))
      by (apply (in_map fst) in Hin; exact Hin).
    apply Hkeys in Hk. destruct Hk as [[]|(sp & z & Hsp & Hz & Hzk)].
    intros Hnil.
    assert (Hmem : In z (F64.zone_members indicators k)).
    { unfold F64.zone_members. apply filter_In. split.
      - apply in_flat_map. exists sp. split; assumption.
      - apply String.eqb_eq. exact Hzk. }
    rewrite Hnil in Hmem. exact Hmem. }
  subst values. unfold F64.rollup_row.
  cbn [F64.ZoneRollup.zone F64.ZoneRollup.species_count F64.ZoneRollup.anomaly_days
       F64.ZoneRollup.status].
  set (members := F64.zone_members indicators k) in *.
  assert (Hdenom : fold_left (fun acc vw => acc + snd vw) (map F64.rollup_entry members) 0
                   = fold_right Z.add 0
                       (map (fun z => Z.max 1 (F64.ZoneResult.baseline_years z)
                                      * Z.max 1 (F64.ZoneResult.current_obs z)) members)).
  { rewrite <- (map_map F64.rollup_entry snd).
    generalize (map F64.rollup_entry members) as l. intros l.
    assert (G : forall a, fold_left (fun acc vw => acc + snd vw) l a
                          = a + fold_right Z.add 0 (map snd l)).
    { induction l as [|x l IH]; intros a; cbn [fold_left map fold_right]; [lia|].
      rewrite IH. lia. }
    rewrite G. lia. }
  pose proof (proj2 (f64_weights_pos members 0) Hne) as Hpos.
  rewrite Hdenom in *.
  destruct (Z.eqb_spec
              (fold_right Z.add 0
                 (map (fun z => Z.max 1 (F64.ZoneResult.baseline_years z)
                                * Z.max 1 (F64.ZoneResult.current_obs z)) members)) 0)
    as [E|_]; [lia|].
  rewrite map_map. unfold F64.rollup_entry. cbn [fst snd].
  repeat split.
  - exact Hne.
  - unfold len. rewrite length_map. reflexivity.
  - exact Hpos.
Qed.

Lemma zone_rollup_rule_witness :
  let indicators :=
    [F64.example_summary "Trillium ovatum" "early" (-0x1.2666666666666p+4) 1
       [F64.example_zone "west-low" (-0x1.2666666666666p+4) 4 1];
     F64.example_summary "Ribes sanguineum" "normal" 0x1.199999999999ap+2 1
       [F64.example_zone "west-mid" 3 5 2;
        F64.example_zone "west-low" 0x1.199999999999ap+2 4 1]] in
  let row := F64.ZoneRollup.mk "west-low" (-7) "normal" 2 in
  let members := F64.zone_members indicators (F64.ZoneRollup.zone row) in
  let weight z :=
    Z.max 1 (F64.ZoneResult.baseline_years z) * Z.max 1 (F64.ZoneResult.current_obs z) in
  let denom := fold_right Z.add 0 (map weight members) in
  let anomaly :=
    (F64.sum_left_to_right
       (map (fun z => F64.ZoneResult.anomaly_days z * B64.of_int (weight z)) members)
     / B64.of_int denom)%float in
  (members <> [] /\
   F64.ZoneRollup.species_count row = len members /\
   0 < denom /\
   F64.ZoneRollup.anomaly_days row = F64.py_round anomaly 2 /\
   F64.ZoneRollup.status row = F64.classify_status anomaly) /\
  F64.build_zone_summary F64.sum_left_to_right indicators
    = [row; F64.ZoneRollup.mk "west-mid" 3 "normal" 1] /\
  F64.build_zone_summary F64.sum_compensated indicators
    = [row; F64.ZoneRollup.mk "west-mid" 3 "normal" 1] /\
  map (fun z => (F64.ZoneResult.anomaly_days z, weight z)) members
    = [((-0x1.2666666666666p+4)%float, 4); (0x1.199999999999ap+2%float, 4)] /\
  denom = 8 /\
  anomaly = (-0x1.bffffffffffffp+2)%float.
Proof.
  split.
  - apply (@zone_rollup_rule F64.sum_left_to_right
             [F64.example_summary "Trillium ovatum" "early" (-0x1.2666666666666p+4) 1
                [F64.example_zone "west-low" (-0x1.2666666666666p+4) 4 1];
              F64.example_summary "Ribes sanguineum" "normal" 0x1.199999999999ap+2 1
                [F64.example_zone "west-mid" 3 5 2;
                 F64.example_zone "west-low" 0x1.199999999999ap+2 4 1]]
             (F64.ZoneRollup.mk "west-low" (-7) "normal" 2)).
    vm_compute. left. reflexivity.
  - vm_compute. repeat split; reflexivity.
Defined.
